(** * cors_server.py: a CORS-enabled dictionary lookup server

    A shallow embedding of [cors_server.py] and of the parts of the Python
    standard library it calls ([str] methods, [urllib.parse.unquote],
    [http.server.BaseHTTPRequestHandler]), followed by the properties of
    the request handler, of the port allocator and of the startup
    sequence.

    The handler runs in a state monad with exceptions over the buffered
    response head, the chunks written to the client and the backend accesses
    made.  The startup runs in the same monad over the trace of what the
    process does to the outside.  What the program finds outside -- the
    rows of the database, the files, the ports -- is given by records of
    answers, one per system call.

    The handler's methods are given first for a request whose version is
    not HTTP/0.9, and then, in [AnyVersion], for any version: for HTTP/0.9
    the library sends neither status line nor headers.  What reaches the
    client is given as chunks, and [on_the_wire] gives their octets.

    Assumptions: writes to the client socket and to standard output
    succeed; every exception is a subclass of [Exception]. *)

From Stdlib Require Import List NArith ZArith Bool Lia Arith.
From Stdlib Require Import Ascii String DecimalString.
Import ListNotations.

Local Open Scope N_scope.

(** ** Python [str] and [bytes]

    A Python [str] is a sequence of Unicode code points and a [bytes]
    object a sequence of octets; both are lists of [N].  Literals of the
    source are written with [lit]. *)

Definition str := list N.
Definition bytes := list N.

Definition lit (s : string) : str :=
  List.map N_of_ascii (list_ascii_of_string s).

Definition str_eqb (a b : str) : bool :=
  if list_eq_dec N.eq_dec a b then true else false.

(** [s.lstrip(chars)]: drops every leading character that occurs in
    [chars]. *)
Fixpoint lstrip (chars s : str) : str :=
  match s with
  | [] => []
  | c :: t => if existsb (N.eqb c) chars then lstrip chars t else s
  end.

(** [s.endswith(suffix)]. *)
Definition endswith (s suffix : str) : bool :=
  (List.length suffix <=? List.length s)%nat
  && str_eqb (skipn (List.length s - List.length suffix) s) suffix.

(** [s[:-k]] for a positive [k]: everything but the last [k] characters
    (the empty string when [s] is shorter than [k]). *)
Definition slice_to_neg (s : str) (k : nat) : str :=
  firstn (List.length s - k) s.

(** [c in s]. *)
Definition contains (c : N) (s : str) : bool := existsb (N.eqb c) s.

(** [str(n)] for a non-negative integer. *)
Definition str_of_N (n : N) : str := lit (NilZero.string_of_uint (N.to_uint n)).

(** [str(z)] for an integer. *)
Definition str_of_Z (z : Z) : str := lit (NilZero.string_of_int (Z.to_int z)).

(** ** UTF-8 *)

Definition REPLACEMENT : N := 0xFFFD.

Definition is_cont (b : N) : bool := (0x80 <=? b) && (b <? 0xC0).

(** Second byte of a three-byte sequence: [E0] needs [A0..BF] (no overlong
    form), [ED] needs [80..9F] (no surrogate). *)
Definition second_of_3 (b1 b2 : N) : bool :=
  is_cont b2 && (if b1 =? 0xE0 then 0xA0 <=? b2 else true)
             && (if b1 =? 0xED then b2 <? 0xA0 else true).

(** Second byte of a four-byte sequence: [F0] needs [90..BF], [F4] needs
    [80..8F] (nothing above U+10FFFF). *)
Definition second_of_4 (b1 b2 : N) : bool :=
  is_cont b2 && (if b1 =? 0xF0 then 0x90 <=? b2 else true)
             && (if b1 =? 0xF4 then b2 <? 0x90 else true).

(** [bs.decode('utf-8', 'replace')]: every ill-formed maximal subpart is
    replaced by one U+FFFD and decoding resumes right after it. *)
Fixpoint utf8_decode (bs : bytes) : str :=
  match bs with
  | [] => []
  | b1 :: t1 =>
    if b1 <? 0x80 then b1 :: utf8_decode t1
    else if b1 <? 0xC2 then REPLACEMENT :: utf8_decode t1
    else if b1 <? 0xE0 then
      match t1 with
      | [] => [REPLACEMENT]
      | b2 :: t2 =>
        if is_cont b2
        then ((b1 - 0xC0) * 64 + (b2 - 0x80)) :: utf8_decode t2
        else REPLACEMENT :: utf8_decode t1
      end
    else if b1 <? 0xF0 then
      match t1 with
      | [] => [REPLACEMENT]
      | b2 :: t2 =>
        if second_of_3 b1 b2 then
          match t2 with
          | [] => [REPLACEMENT]
          | b3 :: t3 =>
            if is_cont b3
            then (((b1 - 0xE0) * 64 + (b2 - 0x80)) * 64 + (b3 - 0x80))
                   :: utf8_decode t3
            else REPLACEMENT :: utf8_decode t2
          end
        else REPLACEMENT :: utf8_decode t1
      end
    else if b1 <? 0xF5 then
      match t1 with
      | [] => [REPLACEMENT]
      | b2 :: t2 =>
        if second_of_4 b1 b2 then
          match t2 with
          | [] => [REPLACEMENT]
          | b3 :: t3 =>
            if is_cont b3 then
              match t3 with
              | [] => [REPLACEMENT]
              | b4 :: t4 =>
                if is_cont b4
                then ((((b1 - 0xF0) * 64 + (b2 - 0x80)) * 64 + (b3 - 0x80)) * 64
                      + (b4 - 0x80)) :: utf8_decode t4
                else REPLACEMENT :: utf8_decode t3
              end
            else REPLACEMENT :: utf8_decode t2
          end
        else REPLACEMENT :: utf8_decode t1
      end
    else REPLACEMENT :: utf8_decode t1
  end.

(** Code points that UTF-8 can encode: everything up to U+10FFFF but the
    surrogates. *)
Definition is_scalar (c : N) : bool :=
  (c <? 0xD800) || ((0xDFFF <? c) && (c <? 0x110000)).

Definition utf8_encode_cp (c : N) : bytes :=
  if c <? 0x80 then [c]
  else if c <? 0x800 then [0xC0 + c / 64; 0x80 + c mod 64]
  else if c <? 0x10000 then
    [0xE0 + c / 64 / 64; 0x80 + (c / 64) mod 64; 0x80 + c mod 64]
  else
    [0xF0 + c / 64 / 64 / 64; 0x80 + (c / 64 / 64) mod 64;
     0x80 + (c / 64) mod 64; 0x80 + c mod 64].

(** [s.encode('utf-8')]: raises [UnicodeEncodeError] ([None]) on a
    surrogate. *)
Fixpoint utf8_encode (s : str) : option bytes :=
  match s with
  | [] => Some []
  | c :: t =>
    if is_scalar c then
      match utf8_encode t with
      | Some bs => Some (utf8_encode_cp c ++ bs)
      | None => None
      end
    else None
  end.

(** ** [urllib.parse] *)

Definition PERCENT : N := 37.
Definition SLASH : N := 47.

(** Value of a hexadecimal digit, either case ([_hexdig]). *)
Definition hexval (c : N) : option N :=
  if (48 <=? c) && (c <=? 57) then Some (c - 48)
  else if (65 <=? c) && (c <=? 70) then Some (c - 55)
  else if (97 <=? c) && (c <=? 102) then Some (c - 87)
  else None.

(** [unquote_to_bytes]: every [%xx] with two hexadecimal digits becomes
    the octet it denotes; a [%] not followed by two such digits stays. *)
Fixpoint unquote_to_bytes (s : str) : bytes :=
  match s with
  | [] => []
  | c :: t =>
    if c =? PERCENT then
      match t with
      | h1 :: h2 :: t2 =>
        match hexval h1, hexval h2 with
        | Some a, Some b => (16 * a + b) :: unquote_to_bytes t2
        | _, _ => c :: unquote_to_bytes t
        end
      | _ => c :: unquote_to_bytes t
      end
    else c :: unquote_to_bytes t
  end.

Definition is_ascii (c : N) : bool := c <? 128.

Definition unquote_run (run : str) : str := utf8_decode (unquote_to_bytes run).

(** The loop of [unquote] over the maximal runs of ASCII characters
    ([_asciire]): a run is unquoted to bytes and decoded, the characters
    between two runs are kept.  [run] is the ASCII run read so far. *)
Fixpoint unquote_parts (run s : str) : str :=
  match s with
  | [] => unquote_run run
  | c :: t =>
    if is_ascii c then unquote_parts (run ++ [c]) t
    else unquote_run run ++ c :: unquote_parts [] t
  end.

(** [urllib.parse.unquote(s)] with its defaults, [encoding='utf-8'] and
    [errors='replace']. *)
Definition unquote (s : str) : str :=
  if contains PERCENT s then unquote_parts [] s else s.

(** ** The lookup key of [do_GET] (lines 40-46) *)

Definition SUFFIX : str := lit ".json.deflate".

Definition requested_word (self_path : str) : str :=
  let path := unquote (lstrip (lit "/") self_path) in
  if endswith path SUFFIX then slice_to_neg path 13 else path.

(** ** Exceptions and effects

    Only subclasses of [Exception] are modelled; an exception carries its
    class and its [str(e)]. *)

Inductive exn_class :=
| OSError | RuntimeError | TypeError | UnicodeEncodeError | SqliteError.

Record exn := Exn { exn_cls : exn_class; exn_str : str }.

Definition is_OSError (e : exn) : bool :=
  match exn_cls e with OSError => true | _ => false end.

Inductive result (A : Type) :=
| Ok (a : A)
| Raise (e : exn).
Arguments Ok {A} a.
Arguments Raise {A} e.

(** Computations over a state [S] that may raise. *)
Definition M (S A : Type) : Type := S -> result A * S.

Definition ret {S A} (a : A) : M S A := fun s => (Ok a, s).

Definition raise {S A} (e : exn) : M S A := fun s => (Raise e, s).

Definition bind {S A B} (m : M S A) (k : A -> M S B) : M S B :=
  fun s =>
    match m s with
    | (Ok a, s') => k a s'
    | (Raise e, s') => (Raise e, s')
    end.

(** [try: m except Exception as e: h e]; what [m] did to the state before
    it raised stays done. *)
Definition try_except {S A} (m : M S A) (h : exn -> M S A) : M S A :=
  fun s =>
    match m s with
    | (Ok a, s') => (Ok a, s')
    | (Raise e, s') => h e s'
    end.

(** The value or exception of a call that has no effect on the state. *)
Definition lift {S A} (r : result A) : M S A := fun s => (r, s).

Declare Scope monad_scope.
Delimit Scope monad_scope with monad.
Notation "x <- m ;; k" := (bind m (fun x => k))
  (at level 61, m at next level, right associativity) : monad_scope.
Notation "m ;; k" := (bind m (fun _ => k))
  (at level 61, right associativity) : monad_scope.
Local Open Scope monad_scope.

(** ** [http.server.BaseHTTPRequestHandler]

    The request has been parsed with a version other than HTTP/0.9, so the
    status line and the headers are buffered and sent; [AnyVersion] below
    has the methods for any version.  Writes to the client socket
    succeed. *)

Definition DQUOTE : N := 34.

(** Lower-case hexadecimal of [n] on at least [width] digits. *)
Fixpoint hex_digits (fuel : nat) (n : N) (acc : str) : str :=
  match fuel with
  | O => acc
  | S f =>
    let d := n mod 16 in
    let c := if d <? 10 then 48 + d else 87 + d in
    if n <? 16 then c :: acc else hex_digits f (n / 16) (c :: acc)
  end.

Definition hex_lower (width : nat) (n : N) : str :=
  let ds := hex_digits 32 n [] in
  repeat 48 (width - List.length ds) ++ ds.

(** Index of the first character that Latin-1 cannot encode. *)
Fixpoint first_wide (s : str) (i : N) : option (N * str) :=
  match s with
  | [] => None
  | c :: t => if c <? 256 then first_wide t (i + 1) else Some (i, s)
  end.

Fixpoint wide_run (s : str) : N :=
  match s with
  | [] => 0
  | c :: t => if c <? 256 then 0 else 1 + wide_run t
  end.

(** [s.encode('latin-1', 'strict')] succeeds, with one octet per
    character, or raises [UnicodeEncodeError] for the first run of
    characters above U+00FF. *)
Definition encode_latin1 (s : str) : result bytes :=
  match first_wide s 0 with
  | None => Ok s
  | Some (start, rest) =>
    let n := wide_run rest in
    let bad := hd 0 rest in
    let what :=
      if n =? 1 then
        lit "character '\" ++
        (if bad <? 0x10000 then lit "u" ++ hex_lower 4 bad
         else lit "U" ++ hex_lower 8 bad) ++
        lit "' in position " ++ str_of_N start
      else
        lit "characters in position " ++ str_of_N start ++ lit "-" ++
        str_of_N (start + n - 1) in
    Raise (Exn UnicodeEncodeError
             (lit "'latin-1' codec can't encode " ++ what ++
              lit ": ordinal not in range(256)"))
  end.

(** A line of the response head, as held in [_headers_buffer].  The
    [Server] and [Date] lines carry the library's version string and the
    current time. *)
Inductive hline :=
| StatusLine (code : N) (message : str)
| ServerLine
| DateLine
| HeaderLine (keyword value : str)
| BlankLine.

(** What [wfile] received, one item per write. *)
Inductive chunk :=
| Head (lines : list hline)
| Body (data : bytes).

(** A system call of the handler on one of its backends: the query for a
    word, the existence test and the read of a file. *)
Inductive access :=
| Query (word : str)
| Exists (path : str)
| Read (path : str).

(** The state of a handler: the buffered head, what went to the client,
    and the backend accesses made, in order. *)
Record hstate := {
  headers_buffer : list hline;
  wfile : list chunk;
  accesses : list access
}.

Definition fresh : hstate :=
  {| headers_buffer := []; wfile := []; accesses := [] |}.

Definition HM := M hstate.

Definition buffer_append (l : hline) : HM unit :=
  fun s => (Ok tt, {| headers_buffer := headers_buffer s ++ [l];
                      wfile := wfile s;
                      accesses := accesses s |}).

Definition wfile_write_bytes (data : bytes) : HM unit :=
  fun s => (Ok tt, {| headers_buffer := headers_buffer s;
                      wfile := wfile s ++ [Body data];
                      accesses := accesses s |}).

Definition PROTOCOL_VERSION : str := lit "HTTP/1.0".
Definition CRLF : str := [13; 10].

(** The entries of [responses] that the program reaches. *)
Definition responses_short (code : N) : str :=
  if code =? 200 then lit "OK"
  else if code =? 400 then lit "Bad Request"
  else if code =? 404 then lit "Not Found"
  else if code =? 500 then lit "Internal Server Error"
  else [].

(** [send_response_only]: the status line
    [("%s %d %s\r\n" % (self.protocol_version, code, message))] is appended
    to the buffer as [.encode('latin-1', 'strict')], which raises on a
    character above U+00FF. *)
Definition send_response_only (code : N) (message : option str) : HM unit :=
  let message :=
    match message with Some m => m | None => responses_short code end in
  _ <- lift (encode_latin1
               (PROTOCOL_VERSION ++ lit " " ++ str_of_N code ++ lit " "
                ++ message ++ CRLF)) ;;
  buffer_append (StatusLine code message).

(** [send_header]: the line [("%s: %s\r\n" % (keyword, value))], encoded
    the same way. *)
Definition send_header (keyword value : str) : HM unit :=
  _ <- lift (encode_latin1 (keyword ++ lit ": " ++ value ++ CRLF)) ;;
  buffer_append (HeaderLine keyword value).

Definition send_response (code : N) (message : option str) : HM unit :=
  send_response_only code message ;;
  buffer_append ServerLine ;;
  buffer_append DateLine.

Definition flush_headers : HM unit :=
  fun s => (Ok tt, {| headers_buffer := [];
                      wfile := wfile s ++ [Head (headers_buffer s)];
                      accesses := accesses s |}).

(** [BaseHTTPRequestHandler.end_headers]. *)
Definition base_end_headers : HM unit :=
  buffer_append BlankLine ;; flush_headers.

(** The methods a handler class may override. *)
Class Handler := { end_headers : HM unit }.

(** The page [error_message_format] renders for a status code and a
    message, encoded; it depends on the library version. *)
Class ErrorPage := { error_body : N -> str -> bytes }.

Definition has_error_body (code : N) : bool :=
  (200 <=? code)
  && negb ((code =? 204) || (code =? 205) || (code =? 304)).

(** [send_error(code, message)] while serving a request whose command is
    not [HEAD]. *)
Definition send_error `{Handler} `{ErrorPage} (code : N) (message : str)
  : HM unit :=
  send_response code (Some message) ;;
  send_header (lit "Connection") (lit "close") ;;
  (if has_error_body code then
     let body := error_body code message in
     send_header (lit "Content-Type") (lit "text/html;charset=utf-8") ;;
     send_header (lit "Content-Length") (str_of_N (N.of_nat (List.length body))) ;;
     end_headers ;;
     match body with
     | [] => ret tt
     | _ => wfile_write_bytes body
     end
   else end_headers).

(** ** [sqlite3] and the file system *)

(** A value of the [json_data] column as the driver returns it. *)
Inductive sqlval :=
| SqlNull
| SqlInteger (z : Z)
| SqlReal
| SqlText (s : str)
| SqlBlob (b : bytes).

(** An open connection.  [select_json_data word] is what
    [cursor(); execute("SELECT json_data FROM entries WHERE word = ?", (word,)); fetchone()]
    evaluates to: the first matching row, [None], or an exception.
    [select_count] is the same for [SELECT COUNT( * )]. *)
Record Connection := {
  select_json_data : str -> result (option sqlval);
  select_count : result Z
}.

(** [os.path.exists] and [open(path, 'rb').read()] in the working
    directory.  They are two system calls: the second may fail where the
    first said yes. *)
Record FileSystem := {
  path_exists : str -> bool;
  read_file : str -> result bytes
}.

Definition record_access (a : access) (s : hstate) : hstate :=
  {| headers_buffer := headers_buffer s;
     wfile := wfile s;
     accesses := accesses s ++ [a] |}.

(** [cursor = db_connection.cursor(); cursor.execute(..., (word,)); cursor.fetchone()]. *)
Definition fetch_json_data (conn : Connection) (word : str)
  : HM (option sqlval) :=
  fun s => (select_json_data conn word, record_access (Query word) s).

(** [os.path.exists(path)]. *)
Definition os_path_exists (fs : FileSystem) (path : str) : HM bool :=
  fun s => (Ok (path_exists fs path), record_access (Exists path) s).

(** [with open(path, 'rb') as f: f.read()]. *)
Definition open_read (fs : FileSystem) (path : str) : HM bytes :=
  fun s => (read_file fs path, record_access (Read path) s).

(** [len(v)]. *)
Definition py_len (v : sqlval) : result N :=
  match v with
  | SqlText s => Ok (N.of_nat (List.length s))
  | SqlBlob b => Ok (N.of_nat (List.length b))
  | SqlNull => Raise (Exn TypeError (lit "object of type 'NoneType' has no len()"))
  | SqlInteger _ => Raise (Exn TypeError (lit "object of type 'int' has no len()"))
  | SqlReal => Raise (Exn TypeError (lit "object of type 'float' has no len()"))
  end.

(** [self.wfile.write(v)]. *)
Definition wfile_write (v : sqlval) : HM unit :=
  match v with
  | SqlBlob b => wfile_write_bytes b
  | SqlText _ => raise (Exn TypeError (lit "a bytes-like object is required, not 'str'"))
  | SqlNull => raise (Exn TypeError (lit "a bytes-like object is required, not 'NoneType'"))
  | SqlInteger _ => raise (Exn TypeError (lit "a bytes-like object is required, not 'int'"))
  | SqlReal => raise (Exn TypeError (lit "a bytes-like object is required, not 'float'"))
  end.

(** ** [CORSRequestHandler] *)

Module CORSRequestHandler.

Definition ALLOW_ORIGIN : hline :=
  HeaderLine (lit "Access-Control-Allow-Origin") (lit "*").
Definition ALLOW_METHODS : hline :=
  HeaderLine (lit "Access-Control-Allow-Methods") (lit "GET, OPTIONS").
Definition ALLOW_HEADERS : hline :=
  HeaderLine (lit "Access-Control-Allow-Headers") (lit "*").
Definition CACHE_CONTROL : hline :=
  HeaderLine (lit "Cache-Control") (lit "no-store, no-cache, must-revalidate").

(** Lines 25-30. *)
Definition cors_end_headers : HM unit :=
  send_header (lit "Access-Control-Allow-Origin") (lit "*") ;;
  send_header (lit "Access-Control-Allow-Methods") (lit "GET, OPTIONS") ;;
  send_header (lit "Access-Control-Allow-Headers") (lit "*") ;;
  send_header (lit "Cache-Control") (lit "no-store, no-cache, must-revalidate") ;;
  base_end_headers.

#[global] Instance handler : Handler := {| end_headers := cors_end_headers |}.

(** Lines 32-34. *)
Definition do_OPTIONS : HM unit :=
  send_response 200 None ;;
  end_headers.

Definition not_found_in_database (word : str) : str :=
  lit "Word " ++ [DQUOTE] ++ word ++ [DQUOTE] ++ lit " not found in database".

Definition not_found (word : str) : str :=
  lit "Word " ++ [DQUOTE] ++ word ++ [DQUOTE] ++ lit " not found".

(** Lines 53-72, the branch taken when [db_connection is not None]. *)
Definition serve_from_database `{ErrorPage} (conn : Connection) (word : str)
  : HM unit :=
  try_except
    (row <- fetch_json_data conn word ;;
     match row with
     | Some data =>
       send_response 200 None ;;
       send_header (lit "Content-Type") (lit "application/octet-stream") ;;
       n <- lift (py_len data) ;;
       send_header (lit "Content-Length") (str_of_N n) ;;
       end_headers ;;
       wfile_write data
     | None =>
       send_error 404 (not_found_in_database word)
     end)
    (fun e => send_error 500 (lit "Database error: " ++ exn_str e)).

(** Lines 74-91, the branch taken when [db_connection is None]. *)
Definition serve_from_files `{ErrorPage} (fs : FileSystem) (word : str)
  : HM unit :=
  let file_path := word ++ lit ".json.deflate" in
  present <- os_path_exists fs file_path ;;
  if present then
    try_except
      (data <- open_read fs file_path ;;
       send_response 200 None ;;
       send_header (lit "Content-Type") (lit "application/octet-stream") ;;
       send_header (lit "Content-Length") (str_of_N (N.of_nat (List.length data))) ;;
       end_headers ;;
       wfile_write_bytes data)
      (fun e => send_error 500 (lit "File read error: " ++ exn_str e))
  else
    send_error 404 (not_found word).

(** Lines 36-91.  [db_connection] is the module's global, [self_path]
    the request's [self.path]. *)
Definition do_GET `{ErrorPage} (db_connection : option Connection)
           (fs : FileSystem) (self_path : str) : HM unit :=
  let word := requested_word self_path in
  match word with
  | [] => send_error 400 (lit "No word specified")
  | _ :: _ =>
    match db_connection with
    | Some conn => serve_from_database conn word
    | None => serve_from_files fs word
    end
  end.

End CORSRequestHandler.

(** ** Startup *)

(** The lines the program prints. *)
Inductive log_line :=
| LogUsingSqlite (count : Z)
| LogFailedToOpen (e : exn)
| LogFallingBack
| LogNoDatabase
| LogReady (port : Z).

(** What the process does to the outside, in order. *)
Inductive event :=
| Print (l : log_line)
| Probe (port : Z)
| WritePortFile (content : str)
| FlushStdout
| ServerBind (port : Z)
| ServeForever (db_connection : option Connection) (port : Z).

(** What the process finds outside: the database file, and the host's
    ports and discovery file. *)
Record Storage := {
  db_file_exists : bool;
  sqlite_connect : result Connection
}.

Record Host := {
  probe_bind : Z -> result unit;
  write_port_file : str -> result unit;
  server_bind : Z -> result unit
}.

Record World := {
  storage : Storage;
  host : Host
}.

Definition PM := M (list event).

Definition emit (e : event) : PM unit := fun tr => (Ok tt, tr ++ [e]).

(** [range(a, b)]. *)
Definition py_range (a b : Z) : list Z :=
  List.map (fun i => (a + Z.of_nat i)%Z) (seq 0 (Z.to_nat (b - a))).

(** The [for] loop of lines 99-109 over the ports left to try: a socket is
    opened, bound and closed; [OSError] moves on to the next port. *)
Fixpoint probe_ports (h : Host) (ports : list Z) (exhausted : exn) : PM Z :=
  match ports with
  | [] => raise exhausted
  | port :: rest =>
    emit (Probe port) ;;
    match probe_bind h port with
    | Ok _ => ret port
    | Raise e => if is_OSError e then probe_ports h rest exhausted else raise e
    end
  end.

Definition no_port_available (start_port max_attempts : Z) : exn :=
  Exn RuntimeError
    (lit "Could not find available port in range " ++ str_of_Z start_port
     ++ lit "-" ++ str_of_Z (start_port + max_attempts)).

(** Lines 97-110. *)
Definition find_available_port (h : Host) (start_port max_attempts : Z) : PM Z :=
  probe_ports h (py_range start_port (start_port + max_attempts))
    (no_port_available start_port max_attempts).

(** Lines 113-128: the value of [db_connection] after them. *)
Definition open_database (st : Storage) : PM (option Connection) :=
  if db_file_exists st then
    try_except
      (conn <- lift (sqlite_connect st) ;;
       count <- lift (select_count conn) ;;
       emit (Print (LogUsingSqlite count)) ;;
       ret (Some conn))
      (fun e =>
         emit (Print (LogFailedToOpen e)) ;;
         emit (Print LogFallingBack) ;;
         ret None)
  else
    emit (Print LogNoDatabase) ;;
    ret None.

(** Lines 130-149, up to the call of [serve_forever]. *)
Definition start_server (h : Host) (db_connection : option Connection)
  : PM unit :=
  port <- find_available_port h 8000 100 ;;
  lift (write_port_file h (str_of_Z port)) ;;
  emit (WritePortFile (str_of_Z port)) ;;
  emit FlushStdout ;;
  lift (server_bind h port) ;;
  emit (ServerBind port) ;;
  emit (Print (LogReady port)) ;;
  emit (ServeForever db_connection port).

(** Lines 112-149. *)
Definition main (w : World) : PM unit :=
  db_connection <- open_database (storage w) ;;
  start_server (host w) db_connection.

(** ** Vocabulary of the properties *)

Definition is_latin1 (s : str) : bool := forallb (fun c => c <? 256) s.

(** The four headers of [end_headers], in the order they are sent. *)
Definition cors_headers : list hline :=
  [CORSRequestHandler.ALLOW_ORIGIN; CORSRequestHandler.ALLOW_METHODS;
   CORSRequestHandler.ALLOW_HEADERS; CORSRequestHandler.CACHE_CONTROL].

(** A step of the handler keeps a property of its state, however it
    ends. *)
Definition preserves {A} (I : hstate -> Prop) (m : HM A) : Prop :=
  forall s, I s -> I (snd (m s)).

(** A property of the backend accesses made so far. *)
Definition on_accesses (P : list access -> Prop) (s : hstate) : Prop :=
  P (accesses s).

(** The handler has consulted the database only; the files only. *)
Definition is_query (a : access) : Prop :=
  match a with Query _ => True | _ => False end.

Definition is_file_access (a : access) : Prop :=
  match a with Query _ => False | _ => True end.

Definition only_queries : hstate -> Prop := on_accesses (Forall is_query).

Definition only_file_accesses : hstate -> Prop :=
  on_accesses (Forall is_file_access).

(** The complete reply of [send_error] through the handler's
    [end_headers], after [pending] buffered lines. *)
Definition error_reply `{ErrorPage} (pending : list hline) (code : N)
           (message : str) : list chunk :=
  let body := error_body code message in
  Head (pending ++
        [StatusLine code message; ServerLine; DateLine;
         HeaderLine (lit "Connection") (lit "close");
         HeaderLine (lit "Content-Type") (lit "text/html;charset=utf-8");
         HeaderLine (lit "Content-Length") (str_of_N (N.of_nat (List.length body)))]
        ++ cors_headers ++ [BlankLine])
  :: match body with [] => [] | _ => [Body body] end.

(** The status codes of the response heads sent. *)
Definition status_codes (out : list chunk) : list N :=
  flat_map (fun c =>
    match c with
    | Head lines =>
      flat_map (fun l => match l with StatusLine code _ => [code] | _ => [] end) lines
    | Body _ => []
    end) out.

Definition taken (h : Host) (port : Z) : Prop :=
  exists e, probe_bind h port = Raise e /\ is_OSError e = true.

Definition free (h : Host) (port : Z) : Prop := probe_bind h port = Ok tt.

(** [a] happens, and later [b] does. *)
Definition precedes (a b : event) (tr : list event) : Prop :=
  exists l1 l2 l3, tr = l1 ++ a :: l2 ++ b :: l3.

(** A startup computation only adds events to the trace, the same ones
    whatever happened before. *)
Definition appends {A} (m : PM A) : Prop :=
  forall tr, m tr = (fst (m []), tr ++ snd (m [])).

(** The events before a port is found: log lines about the database, and
    probes. *)
Definition is_preparation (e : event) : Prop :=
  match e with
  | Print (LogReady _) => False
  | Print _ => True
  | Probe _ => True
  | _ => False
  end.

(** Hosts and storages for the examples: every port free; the ports below
    [n] in use; the server's own bind losing the race for the port; no
    database file. *)
Definition address_in_use : exn := Exn OSError (lit "[Errno 98] Address already in use").

Definition free_host : Host :=
  {| probe_bind := fun _ => Ok tt;
     write_port_file := fun _ => Ok tt;
     server_bind := fun _ => Ok tt |}.

Definition busy_below (n : Z) : Host :=
  {| probe_bind := fun port => if (port <? n)%Z then Raise address_in_use else Ok tt;
     write_port_file := fun _ => Ok tt;
     server_bind := fun _ => Ok tt |}.

Definition racing_host : Host :=
  {| probe_bind := fun _ => Ok tt;
     write_port_file := fun _ => Ok tt;
     server_bind := fun _ => Raise address_in_use |}.

Definition no_database : Storage :=
  {| db_file_exists := false;
     sqlite_connect := Raise (Exn SqliteError (lit "unable to open database file")) |}.

Definition corrupt_database : Storage :=
  {| db_file_exists := true;
     sqlite_connect :=
       Ok {| select_json_data := fun _ =>
               Raise (Exn SqliteError (lit "file is not a database"));
             select_count := Raise (Exn SqliteError (lit "file is not a database")) |} |}.

(** A rendering of the error page for the examples: the status code. *)
Definition bare_error_page : ErrorPage :=
  {| error_body := fun code _ => str_of_N code |}.

(** A directory without any file, and a database without any row. *)
Definition empty_directory : FileSystem :=
  {| path_exists := fun _ => false;
     read_file := fun _ => Raise (Exn OSError (lit "No such file or directory")) |}.

Definition empty_database : Connection :=
  {| select_json_data := fun _ => Ok None; select_count := Ok 0%Z |}.

(** A directory with one readable file. *)
Definition single_file (name : str) (data : bytes) : FileSystem :=
  {| path_exists := fun p => str_eqb p name;
     read_file := fun p =>
       if str_eqb p name then Ok data
       else Raise (Exn OSError (lit "No such file or directory")) |}.

(** A healthy database whose table [entries] holds the given rows. *)
Fixpoint first_row (rows : list (str * sqlval)) (word : str) : option sqlval :=
  match rows with
  | [] => None
  | (w, data) :: rest => if str_eqb w word then Some data else first_row rest word
  end.

Definition database_of (rows : list (str * sqlval)) : Connection :=
  {| select_json_data := fun word => Ok (first_row rows word);
     select_count := Ok (Z.of_nat (List.length rows)) |}.

(** ** The client's side, as the specification words it *)

(** The derivation in the specification's words: percent-decode the path,
    strip a single leading separator, strip the suffix if present. *)
Definition strip_one_leading (c : N) (s : str) : str :=
  match s with
  | x :: t => if x =? c then t else s
  | [] => []
  end.

Definition key_as_specified (self_path : str) : str :=
  let path := strip_one_leading SLASH (unquote self_path) in
  if endswith path SUFFIX then slice_to_neg path 13 else path.

(** [_ALWAYS_SAFE]: letters, digits and [_.-~]. *)
Definition is_always_safe (b : N) : bool :=
  ((65 <=? b) && (b <=? 90)) || ((97 <=? b) && (b <=? 122))
  || ((48 <=? b) && (b <=? 57))
  || (b =? 95) || (b =? 46) || (b =? 45) || (b =? 126).

Definition hexdigit_upper (d : N) : N := if d <? 10 then 48 + d else 55 + d.

Definition quote_byte (safe : str) (b : N) : str :=
  if is_always_safe b || (is_ascii b && contains b safe) then [b]
  else [PERCENT; hexdigit_upper (b / 16); hexdigit_upper (b mod 16)].

(** Percent-encoding of a word, [urllib.parse.quote(w, safe)]: the UTF-8
    octets of [w], each one outside [_ALWAYS_SAFE] and [safe] written
    [%XX].  With [safe = "!*'()"] it is JavaScript's
    [encodeURIComponent]. *)
Definition quote (safe : str) (w : str) : option str :=
  match utf8_encode w with
  | Some bs => Some (flat_map (quote_byte safe) bs)
  | None => None
  end.

(** ** Shutdown (lines 148-157)

    [serve_forever] returns only by an exception.  [KeyboardInterrupt] is
    caught and followed by the cleanup; anything else leaves the process as
    it is. *)

Inductive stop :=
| KeyboardInterrupt
| ServerCrash (e : exn).

(** What the cleanup does, in order. *)
Inductive cleanup :=
| PrintShuttingDown
| PortFileRemoved
| ConnectionClosed (conn : Connection).

(** What the cleanup finds: whether the discovery file is still there, and
    what [os.remove] and [db_connection.close()] answer. *)
Record Teardown := {
  port_file_exists : bool;
  os_remove : result unit;
  connection_close : Connection -> result unit
}.

Definition CM := M (list cleanup).

Definition note (c : cleanup) : CM unit := fun tr => (Ok tt, tr ++ [c]).

(** Lines 151-157, the body of [except KeyboardInterrupt]. *)
Definition shutdown (t : Teardown) (db_connection : option Connection)
  : CM unit :=
  note PrintShuttingDown ;;
  (if port_file_exists t then
     lift (os_remove t) ;; note PortFileRemoved
   else ret tt) ;;
  match db_connection with
  | Some conn => lift (connection_close t conn) ;; note (ConnectionClosed conn)
  | None => ret tt
  end.

(** Lines 148-157: what follows the end of [serve_forever]. *)
Definition after_serve_forever (t : Teardown) (db_connection : option Connection)
           (how : stop) : CM unit :=
  match how with
  | KeyboardInterrupt => shutdown t db_connection
  | ServerCrash e => raise e
  end.

(** ** More vocabulary *)

(** The two ways [do_GET] ends: it returns with nothing left in the buffer
    and at least one head sent, or it raises [UnicodeEncodeError] having
    sent and buffered nothing. *)
Definition answered_or_silent (s : hstate) (out : result unit * hstate)
  : Prop :=
  match out with
  | (Ok _, s') =>
    headers_buffer s' = []
    /\ exists lines more, wfile s' = wfile s ++ Head lines :: more
  | (Raise e, s') =>
    exn_cls e = UnicodeEncodeError
    /\ wfile s' = wfile s /\ headers_buffer s' = headers_buffer s
  end.

(** The head of a 200 reply up to [Content-Type]. *)
Definition found_head_start : list hline :=
  [StatusLine 200 (lit "OK"); ServerLine; DateLine;
   HeaderLine (lit "Content-Type") (lit "application/octet-stream")].

(** The head of a complete 200 reply announcing [n] bytes. *)
Definition found_head (n : nat) : list hline :=
  found_head_start
  ++ [HeaderLine (lit "Content-Length") (str_of_N (N.of_nat n))]
  ++ cors_headers ++ [BlankLine].

(** The backend found data for the word; the backend has none. *)
Definition backend_hit (db_connection : option Connection) (fs : FileSystem)
           (word : str) : Prop :=
  match db_connection with
  | Some conn => exists data, select_json_data conn word = Ok (Some data)
  | None =>
    path_exists fs (word ++ lit ".json.deflate") = true
    /\ exists data, read_file fs (word ++ lit ".json.deflate") = Ok data
  end.

Definition backend_miss (db_connection : option Connection) (fs : FileSystem)
           (word : str) : Prop :=
  match db_connection with
  | Some conn => select_json_data conn word = Ok None
  | None => path_exists fs (word ++ lit ".json.deflate") = false
  end.

(** The backend raised [e] while looking the word up. *)
Definition backend_raises (db_connection : option Connection) (fs : FileSystem)
           (word : str) (e : exn) : Prop :=
  match db_connection with
  | Some conn => select_json_data conn word = Raise e
  | None =>
    path_exists fs (word ++ lit ".json.deflate") = true
    /\ read_file fs (word ++ lit ".json.deflate") = Raise e
  end.

(** The row found for the word, if any, is text or a blob: it has a
    length. *)
Definition row_is_sized (db_connection : option Connection) (word : str)
  : Prop :=
  match db_connection with
  | Some conn =>
    forall data, select_json_data conn word = Ok (Some data) ->
                 exists n, py_len data = Ok n
  | None => True
  end.

(** ** Requests of any version

    [parse_request] sets [request_version] to the third word of the request
    line and leaves it at ['HTTP/0.9'] when the line has two words
    ([GET /word]) or is refused.  [send_response_only], [send_header] and
    [end_headers] do all they do to the head under
    [if self.request_version != 'HTTP/0.9']: for such a request nothing is
    encoded, buffered or flushed, and only what the handler writes to
    [wfile] itself reaches the client.  The methods below take the version
    as an argument; at [HTTP_1_x] they are the methods defined above. *)

(** [self.request_version]: the string ['HTTP/0.9'], or any other version
    string. *)
Inductive request_version :=
| HTTP_0_9
| HTTP_1_x.

Module AnyVersion.

Definition send_response_only (v : request_version) (code : N)
           (message : option str) : HM unit :=
  match v with
  | HTTP_0_9 => ret tt
  | HTTP_1_x => send_response_only code message
  end.

Definition send_header (v : request_version) (keyword value : str) : HM unit :=
  match v with
  | HTTP_0_9 => ret tt
  | HTTP_1_x => send_header keyword value
  end.

(** [send_header('Server', ...)] and [send_header('Date', ...)]. *)
Definition send_stamp (v : request_version) (l : hline) : HM unit :=
  match v with
  | HTTP_0_9 => ret tt
  | HTTP_1_x => buffer_append l
  end.

Definition send_response (v : request_version) (code : N)
           (message : option str) : HM unit :=
  send_response_only v code message ;;
  send_stamp v ServerLine ;;
  send_stamp v DateLine.

(** [BaseHTTPRequestHandler.end_headers]. *)
Definition base_end_headers (v : request_version) : HM unit :=
  match v with
  | HTTP_0_9 => ret tt
  | HTTP_1_x => base_end_headers
  end.

(** [CORSRequestHandler.end_headers], lines 25-30. *)
Definition end_headers (v : request_version) : HM unit :=
  send_header v (lit "Access-Control-Allow-Origin") (lit "*") ;;
  send_header v (lit "Access-Control-Allow-Methods") (lit "GET, OPTIONS") ;;
  send_header v (lit "Access-Control-Allow-Headers") (lit "*") ;;
  send_header v (lit "Cache-Control") (lit "no-store, no-cache, must-revalidate") ;;
  base_end_headers v.

Definition send_error `{ErrorPage} (v : request_version) (code : N)
           (message : str) : HM unit :=
  send_response v code (Some message) ;;
  send_header v (lit "Connection") (lit "close") ;;
  (if has_error_body code then
     let body := error_body code message in
     send_header v (lit "Content-Type") (lit "text/html;charset=utf-8") ;;
     send_header v (lit "Content-Length") (str_of_N (N.of_nat (List.length body))) ;;
     end_headers v ;;
     match body with
     | [] => ret tt
     | _ => wfile_write_bytes body
     end
   else end_headers v).

(** Lines 32-34. *)
Definition do_OPTIONS (v : request_version) : HM unit :=
  send_response v 200 None ;;
  end_headers v.

(** Lines 53-72. *)
Definition serve_from_database `{ErrorPage} (v : request_version)
           (conn : Connection) (word : str) : HM unit :=
  try_except
    (row <- fetch_json_data conn word ;;
     match row with
     | Some data =>
       send_response v 200 None ;;
       send_header v (lit "Content-Type") (lit "application/octet-stream") ;;
       n <- lift (py_len data) ;;
       send_header v (lit "Content-Length") (str_of_N n) ;;
       end_headers v ;;
       wfile_write data
     | None =>
       send_error v 404 (CORSRequestHandler.not_found_in_database word)
     end)
    (fun e => send_error v 500 (lit "Database error: " ++ exn_str e)).

(** Lines 74-91. *)
Definition serve_from_files `{ErrorPage} (v : request_version)
           (fs : FileSystem) (word : str) : HM unit :=
  let file_path := word ++ lit ".json.deflate" in
  present <- os_path_exists fs file_path ;;
  if present then
    try_except
      (data <- open_read fs file_path ;;
       send_response v 200 None ;;
       send_header v (lit "Content-Type") (lit "application/octet-stream") ;;
       send_header v (lit "Content-Length") (str_of_N (N.of_nat (List.length data))) ;;
       end_headers v ;;
       wfile_write_bytes data)
      (fun e => send_error v 500 (lit "File read error: " ++ exn_str e))
  else
    send_error v 404 (CORSRequestHandler.not_found word).

(** Lines 36-91. *)
Definition do_GET `{ErrorPage} (v : request_version)
           (db_connection : option Connection) (fs : FileSystem)
           (self_path : str) : HM unit :=
  let word := requested_word self_path in
  match word with
  | [] => send_error v 400 (lit "No word specified")
  | _ :: _ =>
    match db_connection with
    | Some conn => serve_from_database v conn word
    | None => serve_from_files v fs word
    end
  end.

End AnyVersion.

(** ** The octets on the connection *)

(** What the library puts in the [Server] and [Date] headers:
    [version_string()] and [date_time_string()]. *)
Record Stamp := {
  version_string : str;
  date_time_string : str
}.

(** The octets of a buffered line: the text the library formatted, whose
    characters, all below 256, are their own Latin-1 octets. *)
Definition line_octets (i : Stamp) (l : hline) : bytes :=
  match l with
  | StatusLine code message =>
    PROTOCOL_VERSION ++ lit " " ++ str_of_N code ++ lit " " ++ message ++ CRLF
  | ServerLine => lit "Server: " ++ version_string i ++ CRLF
  | DateLine => lit "Date: " ++ date_time_string i ++ CRLF
  | HeaderLine keyword value => keyword ++ lit ": " ++ value ++ CRLF
  | BlankLine => CRLF
  end.

(** [flush_headers] writes [b''.join(self._headers_buffer)]. *)
Definition octets (i : Stamp) (c : chunk) : bytes :=
  match c with
  | Head lines => List.concat (List.map (line_octets i) lines)
  | Body data => data
  end.

Definition on_the_wire (i : Stamp) (out : list chunk) : bytes :=
  List.concat (List.map (octets i) out).

(** ** The client's reading of a response *)

Definition CR : N := 13.
Definition LF : N := 10.
Definition COLON : N := 58.

(** The text holds no line break. *)
Definition one_line (s : str) : bool :=
  forallb (fun c => negb (c =? CR) && negb (c =? LF)) s.

Definition plain_stamp (i : Stamp) : bool :=
  one_line (version_string i) && one_line (date_time_string i).

(** The characters of a field name ([tchar] of RFC 9110). *)
Definition is_tchar (c : N) : bool :=
  ((48 <=? c) && (c <=? 57))
  || ((65 <=? c) && (c <=? 90))
  || ((97 <=? c) && (c <=? 122))
  || contains c (lit "!#$%&'*+-.^_`|~").

Definition is_token (s : str) : bool :=
  match s with
  | [] => false
  | _ :: _ => forallb is_tchar s
  end.

(** A buffered line that is one well-formed field line on the wire. *)
Definition plain_line (l : hline) : bool :=
  match l with
  | HeaderLine keyword value => is_token keyword && one_line value
  | ServerLine | DateLine => true
  | StatusLine _ _ | BlankLine => false
  end.

(** The lines of [w], each with its line feed, as [readline] returns
    them. *)
Fixpoint lines (w : bytes) : list bytes :=
  match w with
  | [] => []
  | c :: t =>
    if c =? LF then [c] :: lines t
    else match lines t with
         | [] => [[c]]
         | l :: ls => (c :: l) :: ls
         end
  end.

(** What follows the colon of a field line: a value without line break,
    then the end of the line. *)
Fixpoint is_field_value (l : bytes) : bool :=
  match l with
  | [] => false
  | c :: t =>
    if c =? LF then match t with [] => true | _ :: _ => false end
    else if c =? CR then str_eqb t [LF]
    else is_field_value t
  end.

(** A field line: a name of token characters, a colon, a value. *)
Fixpoint is_field_line_from (named : bool) (l : bytes) : bool :=
  match l with
  | [] => false
  | c :: t =>
    if c =? COLON then named && is_field_value t
    else is_tchar c && is_field_line_from true t
  end.

Definition is_field_line (l : bytes) : bool := is_field_line_from false l.

(** The field lines up to the first line that is not one: the blank line
    that ends the head, or a malformed line, where a strict client stops
    reading headers. *)
Fixpoint header_block (ls : list bytes) : list bytes :=
  match ls with
  | [] => []
  | l :: t => if is_field_line l then l :: header_block t else []
  end.

(** [s.startswith(prefix)]. *)
Definition startswith (s prefix : str) : bool :=
  str_eqb (firstn (List.length prefix) s) prefix.

(** The header lines a client reads: the field lines that follow the
    status line.  A reply that does not begin with a status line is an
    HTTP/0.9 simple response, all body. *)
Definition received_headers (w : bytes) : list bytes :=
  match lines w with
  | status :: rest =>
    if startswith status (lit "HTTP/") then header_block rest else []
  | [] => []
  end.

(** The four headers of [end_headers] with their values, as header
    lines. *)
Definition cors_lines : list bytes :=
  [lit "Access-Control-Allow-Origin: *" ++ CRLF;
   lit "Access-Control-Allow-Methods: GET, OPTIONS" ++ CRLF;
   lit "Access-Control-Allow-Headers: *" ++ CRLF;
   lit "Cache-Control: no-store, no-cache, must-revalidate" ++ CRLF].

(** The response carries the four headers: they are the last header lines
    the client reads. *)
Definition receives_cors (w : bytes) : Prop :=
  exists before, received_headers w = before ++ cors_lines.

(** The stamp of the examples. *)
Definition a_stamp : Stamp :=
  {| version_string := lit "BaseHTTP/0.6 Python/3.11.2";
     date_time_string := lit "Tue, 03 Nov 2026 17:00:28 GMT" |}.

(** The reply carries the four headers, or the handler raised
    [UnicodeEncodeError] and sent nothing. *)
Definition carried_or_silent (i : Stamp) (reply : result unit * hstate) : Prop :=
  receives_cors (on_the_wire i (wfile (snd reply)))
  \/ ((exists e, fst reply = Raise e /\ exn_cls e = UnicodeEncodeError)
      /\ wfile (snd reply) = []).

(** The reply to a request of version HTTP/0.9 that ends in an error: the
    page alone. *)
Definition simple_error_reply `{ErrorPage} (code : N) (message : str)
  : list chunk :=
  match error_body code message with
  | [] => []
  | body => [Body body]
  end.

(** No response head was sent. *)
Definition no_head (out : list chunk) : Prop :=
  forall ls, ~ In (Head ls) out.

(** * Properties *)

(** ** Strings *)

Ltac decide_cmp :=
  repeat match goal with
  | |- context [?a <? ?b] => destruct (N.ltb_spec a b); try lia
  | |- context [?a <=? ?b] => destruct (N.leb_spec a b); try lia
  | |- context [?a =? ?b] => destruct (N.eqb_spec a b); try lia
  end.

Lemma str_eqb_refl (s : str) : str_eqb s s = true.
Proof. unfold str_eqb. destruct (list_eq_dec N.eq_dec s s); congruence. Qed.

Lemma endswith_app (w s : str) : endswith (w ++ s) s = true.
Proof.
  unfold endswith. rewrite length_app.
  replace (List.length w + List.length s - List.length s)%nat
    with (List.length w + 0)%nat by lia.
  rewrite skipn_app, Nat.add_0_r, skipn_all, Nat.sub_diag. cbn [skipn app].
  rewrite str_eqb_refl, andb_true_r. apply Nat.leb_le. lia.
Qed.

Lemma slice_to_neg_app (w s : str) :
  slice_to_neg (w ++ s) (List.length s) = w.
Proof.
  unfold slice_to_neg. rewrite length_app.
  replace (List.length w + List.length s - List.length s)%nat
    with (List.length w + 0)%nat by lia.
  rewrite firstn_app_2. cbn [firstn]. apply app_nil_r.
Qed.

Lemma lstrip_keeps (chars s : str) :
  match s with c :: _ => existsb (N.eqb c) chars = false | [] => True end ->
  lstrip chars s = s.
Proof. destruct s as [|c t]; cbn [lstrip]; [reflexivity|]. now intros ->. Qed.

(** ** UTF-8 round trip *)

Lemma utf8_decode_1 (b : N) (t : bytes) :
  b < 0x80 -> utf8_decode (b :: t) = b :: utf8_decode t.
Proof. intros. cbn [utf8_decode]. decide_cmp. reflexivity. Qed.

Lemma utf8_decode_2 (b1 b2 : N) (t : bytes) :
  0xC2 <= b1 < 0xE0 -> 0x80 <= b2 < 0xC0 ->
  utf8_decode (b1 :: b2 :: t)
  = ((b1 - 0xC0) * 64 + (b2 - 0x80)) :: utf8_decode t.
Proof.
  intros. cbn [utf8_decode]. unfold is_cont. decide_cmp. reflexivity.
Qed.

Lemma utf8_decode_3 (b1 b2 b3 : N) (t : bytes) :
  0xE0 <= b1 < 0xF0 -> 0x80 <= b2 < 0xC0 -> 0x80 <= b3 < 0xC0 ->
  (b1 = 0xE0 -> 0xA0 <= b2) -> (b1 = 0xED -> b2 < 0xA0) ->
  utf8_decode (b1 :: b2 :: b3 :: t)
  = (((b1 - 0xE0) * 64 + (b2 - 0x80)) * 64 + (b3 - 0x80)) :: utf8_decode t.
Proof.
  intros. cbn [utf8_decode]. unfold second_of_3, is_cont.
  decide_cmp; reflexivity.
Qed.

Lemma utf8_decode_4 (b1 b2 b3 b4 : N) (t : bytes) :
  0xF0 <= b1 < 0xF5 ->
  0x80 <= b2 < 0xC0 -> 0x80 <= b3 < 0xC0 -> 0x80 <= b4 < 0xC0 ->
  (b1 = 0xF0 -> 0x90 <= b2) -> (b1 = 0xF4 -> b2 < 0x90) ->
  utf8_decode (b1 :: b2 :: b3 :: b4 :: t)
  = ((((b1 - 0xF0) * 64 + (b2 - 0x80)) * 64 + (b3 - 0x80)) * 64 + (b4 - 0x80))
      :: utf8_decode t.
Proof.
  intros. cbn [utf8_decode]. unfold second_of_4, is_cont.
  decide_cmp; reflexivity.
Qed.

Lemma split6 (c : N) : c = 64 * (c / 64) + c mod 64 /\ c mod 64 < 64.
Proof.
  split; [apply N.div_mod; lia | apply N.mod_lt; lia].
Qed.

Lemma utf8_decode_encode_cp (c : N) (t : bytes) :
  is_scalar c = true ->
  utf8_decode (utf8_encode_cp c ++ t) = c :: utf8_decode t.
Proof.
  unfold is_scalar, utf8_encode_cp. intros Hc.
  destruct (split6 c) as [E1 L1].
  destruct (split6 (c / 64)) as [E2 L2].
  destruct (split6 (c / 64 / 64)) as [E3 L3].
  revert Hc E1 L1 E2 L2 E3 L3.
  generalize (c / 64 / 64 / 64) ((c / 64 / 64) mod 64).
  generalize (c / 64 / 64) ((c / 64) mod 64).
  generalize (c / 64) (c mod 64).
  intros x r y q2 z q3 Hc E1 L1 E2 L2 E3 L3.
  assert (Hs : c < 0xD800 \/ 0xDFFF < c < 0x110000).
  { apply orb_true_iff in Hc. destruct Hc as [Hc|Hc].
    - left. now apply N.ltb_lt.
    - right. apply andb_true_iff in Hc. destruct Hc as [A B].
      apply N.ltb_lt in A, B. lia. }
  clear Hc.
  destruct (N.ltb_spec c 0x80); [|destruct (N.ltb_spec c 0x800);
    [|destruct (N.ltb_spec c 0x10000)]]; cbn [app].
  - now apply utf8_decode_1.
  - rewrite utf8_decode_2 by lia. f_equal. lia.
  - rewrite utf8_decode_3 by lia. f_equal. lia.
  - rewrite utf8_decode_4 by lia. f_equal. lia.
Qed.

Lemma utf8_decode_encode (w : str) :
  forall bs t, utf8_encode w = Some bs ->
  utf8_decode (bs ++ t) = w ++ utf8_decode t.
Proof.
  induction w as [|c w IH]; cbn [utf8_encode]; intros bs t E.
  - injection E as <-. reflexivity.
  - destruct (is_scalar c) eqn:Hc; [|discriminate].
    destruct (utf8_encode w) as [bs'|]; [|discriminate].
    injection E as <-. rewrite <- app_assoc, utf8_decode_encode_cp by assumption.
    cbn [app]. f_equal. now apply IH.
Qed.

Lemma utf8_decode_ascii (s : bytes) :
  forallb is_ascii s = true -> utf8_decode s = s.
Proof.
  induction s as [|c s IH]; [reflexivity|].
  cbn [forallb]. intros E. apply andb_true_iff in E. destruct E as [A B].
  apply N.ltb_lt in A. rewrite utf8_decode_1 by exact A. f_equal. auto.
Qed.

Lemma utf8_encode_cp_octets (c : N) :
  is_scalar c = true -> Forall (fun b => b < 256) (utf8_encode_cp c).
Proof.
  unfold is_scalar, utf8_encode_cp. intros Hc.
  destruct (split6 c) as [E1 L1].
  destruct (split6 (c / 64)) as [E2 L2].
  destruct (split6 (c / 64 / 64)) as [E3 L3].
  revert Hc E1 L1 E2 L2 E3 L3.
  generalize (c / 64 / 64 / 64) ((c / 64 / 64) mod 64).
  generalize (c / 64 / 64) ((c / 64) mod 64).
  generalize (c / 64) (c mod 64).
  intros x r y q2 z q3 Hc E1 L1 E2 L2 E3 L3.
  assert (Hs : c < 0x110000).
  { apply orb_true_iff in Hc. destruct Hc as [Hc|Hc].
    - apply N.ltb_lt in Hc. lia.
    - apply andb_true_iff in Hc. destruct Hc as [_ B]. now apply N.ltb_lt in B. }
  destruct (N.ltb_spec c 0x80); [|destruct (N.ltb_spec c 0x800);
    [|destruct (N.ltb_spec c 0x10000)]];
    repeat constructor; lia.
Qed.

Lemma utf8_encode_octets (w : str) :
  forall bs, utf8_encode w = Some bs -> Forall (fun b => b < 256) bs.
Proof.
  induction w as [|c w IH]; cbn [utf8_encode]; intros bs E.
  - injection E as <-. constructor.
  - destruct (is_scalar c) eqn:Hc; [|discriminate].
    destruct (utf8_encode w) as [bs'|]; [|discriminate].
    injection E as <-. apply Forall_app. split.
    + now apply utf8_encode_cp_octets.
    + now apply IH.
Qed.

(** ** Percent-encoding round trip *)

Lemma unquote_to_bytes_plain (c : N) (t : str) :
  c <> PERCENT -> unquote_to_bytes (c :: t) = c :: unquote_to_bytes t.
Proof.
  intros. cbn [unquote_to_bytes]. destruct (N.eqb_spec c PERCENT); congruence.
Qed.

Lemma unquote_to_bytes_no_percent (s : str) :
  contains PERCENT s = false -> unquote_to_bytes s = s.
Proof.
  unfold contains. induction s as [|c s IH]; [reflexivity|].
  cbn [existsb]. intros E. apply orb_false_iff in E. destruct E as [A B].
  rewrite unquote_to_bytes_plain.
  - f_equal. auto.
  - apply N.eqb_neq in A. congruence.
Qed.

Lemma hexval_hexdigit_upper (d : N) :
  d < 16 -> hexval (hexdigit_upper d) = Some d.
Proof.
  intros. unfold hexval, hexdigit_upper.
  destruct (N.ltb_spec d 10); decide_cmp; cbn [andb]; f_equal; lia.
Qed.

Lemma unquote_to_bytes_escape (b : N) (t : str) :
  b < 256 ->
  unquote_to_bytes (PERCENT :: hexdigit_upper (b / 16) :: hexdigit_upper (b mod 16) :: t)
  = b :: unquote_to_bytes t.
Proof.
  intros Hb. cbn [unquote_to_bytes]. rewrite N.eqb_refl.
  assert (E : b = 16 * (b / 16) + b mod 16) by (apply N.div_mod; lia).
  assert (L : b mod 16 < 16) by (apply N.mod_lt; lia).
  assert (L' : b / 16 < 16) by (apply N.Div0.div_lt_upper_bound; lia).
  rewrite (hexval_hexdigit_upper _ L), (hexval_hexdigit_upper _ L').
  f_equal. lia.
Qed.

Lemma is_always_safe_spec (b : N) :
  is_always_safe b = true -> b < 128 /\ b <> PERCENT /\ b <> SLASH.
Proof.
  unfold is_always_safe, PERCENT, SLASH. intros E.
  repeat (apply orb_true_iff in E; destruct E as [E|E]);
    repeat match goal with
    | H : (_ && _) = true |- _ => apply andb_true_iff in H; destruct H
    | H : (_ <=? _) = true |- _ => apply N.leb_le in H
    | H : (_ =? _) = true |- _ => apply N.eqb_eq in H
    end; lia.
Qed.

Section Quote.

Variable safe : str.
Hypothesis safe_percent : contains PERCENT safe = false.

Lemma contains_neq (c b : N) (s : str) :
  contains c s = false -> contains b s = true -> b <> c.
Proof. intros A B ->. congruence. Qed.

Lemma quote_byte_kept (b : N) :
  is_always_safe b || (is_ascii b && contains b safe) = true ->
  b < 128 /\ b <> PERCENT.
Proof.
  intros E. apply orb_true_iff in E. destruct E as [E|E].
  - apply is_always_safe_spec in E. tauto.
  - apply andb_true_iff in E. destruct E as [A B]. split.
    + now apply N.ltb_lt.
    + now apply (contains_neq PERCENT b safe).
Qed.

Lemma unquote_to_bytes_quote (bs : bytes) (t : str) :
  Forall (fun b => b < 256) bs ->
  unquote_to_bytes (flat_map (quote_byte safe) bs ++ t)
  = bs ++ unquote_to_bytes t.
Proof.
  induction 1 as [|b bs Hb _ IH]; [reflexivity|].
  cbn [flat_map]. rewrite <- app_assoc. unfold quote_byte at 1.
  destruct (is_always_safe b || (is_ascii b && contains b safe)) eqn:E.
  - apply quote_byte_kept in E. cbn [app].
    rewrite unquote_to_bytes_plain by tauto. now rewrite IH.
  - cbn [app]. rewrite unquote_to_bytes_escape by exact Hb. now rewrite IH.
Qed.

Lemma hexdigit_upper_ascii (d : N) :
  d < 16 -> is_ascii (hexdigit_upper d) = true.
Proof.
  intros. unfold is_ascii, hexdigit_upper. apply N.ltb_lt.
  destruct (d <? 10); lia.
Qed.

Lemma quote_ascii (bs : bytes) :
  Forall (fun b => b < 256) bs ->
  forallb is_ascii (flat_map (quote_byte safe) bs) = true.
Proof.
  induction 1 as [|b bs Hb _ IH]; [reflexivity|].
  cbn [flat_map]. rewrite forallb_app, IH, andb_true_r. unfold quote_byte.
  destruct (is_always_safe b || (is_ascii b && contains b safe)) eqn:E.
  - apply quote_byte_kept in E. cbn [forallb]. rewrite andb_true_r.
    apply N.ltb_lt. tauto.
  - cbn [forallb]. rewrite !hexdigit_upper_ascii; [reflexivity| |].
    + apply N.mod_lt. lia.
    + apply N.Div0.div_lt_upper_bound. lia.
Qed.

End Quote.

Lemma unquote_parts_ascii (s : str) :
  forall run, forallb is_ascii s = true ->
  unquote_parts run s = unquote_run (run ++ s).
Proof.
  induction s as [|c s IH]; intros run E; cbn [unquote_parts].
  - now rewrite app_nil_r.
  - cbn [forallb] in E. apply andb_true_iff in E. destruct E as [A B].
    rewrite A, IH by exact B. now rewrite <- app_assoc.
Qed.

(** On a path of ASCII characters [unquote] decodes the unquoted octets,
    whether or not it takes the shortcut for a path without [%]. *)
Lemma unquote_ascii (s : str) :
  forallb is_ascii s = true -> unquote s = utf8_decode (unquote_to_bytes s).
Proof.
  intros E. unfold unquote. destruct (contains PERCENT s) eqn:P.
  - now rewrite unquote_parts_ascii.
  - rewrite unquote_to_bytes_no_percent by exact P.
    symmetry. now apply utf8_decode_ascii.
Qed.

Lemma quote_head (safe : str) (bs : bytes) (t : str) :
  contains SLASH safe = false ->
  (forall u, t <> SLASH :: u) ->
  forall u, flat_map (quote_byte safe) bs ++ t <> SLASH :: u.
Proof.
  intros Hs Ht u. destruct bs as [|b bs]; [apply Ht|].
  cbn [flat_map]. unfold quote_byte.
  destruct (is_always_safe b || (is_ascii b && contains b safe)) eqn:E.
  - cbn [app]. intros [= -> _].
    apply orb_true_iff in E. destruct E as [E|E].
    + apply is_always_safe_spec in E. tauto.
    + apply andb_true_iff in E. destruct E as [_ E]. congruence.
  - cbn [app]. discriminate.
Qed.

Lemma lstrip_slash_keeps (s : str) :
  (forall u, s <> SLASH :: u) -> lstrip (lit "/") s = s.
Proof.
  intros Hs. apply lstrip_keeps. destruct s as [|c t]; [exact I|].
  change (lit "/") with [SLASH]. cbn [existsb]. rewrite orb_false_r.
  apply N.eqb_neq. intros ->. now apply (Hs t).
Qed.

Lemma lstrip_slashes (n : nat) (s : str) :
  (forall u, s <> SLASH :: u) -> lstrip (lit "/") (repeat SLASH n ++ s) = s.
Proof.
  intros Hs. induction n as [|n IH]; cbn [repeat app].
  - now apply lstrip_slash_keeps.
  - cbn [lstrip]. change (existsb (N.eqb SLASH) (lit "/")) with true.
    cbn iota. exact IH.
Qed.

Lemma unquote_quote_then (safe : str) (w : str) (bs : bytes) (t : str) :
  contains PERCENT safe = false ->
  utf8_encode w = Some bs ->
  forallb is_ascii t = true -> contains PERCENT t = false ->
  unquote (flat_map (quote_byte safe) bs ++ t) = w ++ t.
Proof.
  intros Hp E At Pt.
  pose proof (utf8_encode_octets _ _ E) as Hb.
  rewrite unquote_ascii.
  - rewrite unquote_to_bytes_quote by assumption.
    rewrite unquote_to_bytes_no_percent by exact Pt.
    rewrite (utf8_decode_encode _ _ _ E). f_equal.
    now apply utf8_decode_ascii.
  - rewrite forallb_app, quote_ascii by assumption. exact At.
Qed.

Lemma unquote_parts_slash (s : str) :
  forall run, unquote_parts (SLASH :: run) s = SLASH :: unquote_parts run s.
Proof.
  assert (R : forall run, unquote_run (SLASH :: run) = SLASH :: unquote_run run).
  { intros run. unfold unquote_run.
    rewrite unquote_to_bytes_plain by discriminate.
    now rewrite utf8_decode_1 by reflexivity. }
  induction s as [|c s IH]; intros run; cbn [unquote_parts].
  - apply R.
  - destruct (is_ascii c).
    + apply (IH (run ++ [c])).
    + now rewrite R.
Qed.

Lemma unquote_slash (s : str) : unquote (SLASH :: s) = SLASH :: unquote s.
Proof.
  unfold unquote, contains. cbn [existsb].
  change (PERCENT =? SLASH) with false. cbn [orb].
  destruct (existsb (N.eqb PERCENT) s); [|reflexivity].
  cbn [unquote_parts]. change (is_ascii SLASH) with true. cbn iota.
  apply (unquote_parts_slash s []).
Qed.

(** ** The lookup key *)

Example requested_word_ex1 :
  requested_word (lit "/word.json.deflate") = lit "word".
Proof. reflexivity. Qed.

Example requested_word_ex2 :
  requested_word (lit "/%E3%81%82.json.deflate") = [0x3042].
Proof. reflexivity. Qed.

Example requested_word_ex3 :
  requested_word (lit "//a%2Fb%zz%C3") = lit "a/b%zz" ++ [REPLACEMENT].
Proof. reflexivity. Qed.

(** C2, as stated, fails: the handler strips every leading separator, and
    does so before it percent-decodes.  On [//abc] the specified derivation
    keeps one separator where the handler keeps none; on [%2Fabc] (a request
    line [GET %2Fabc HTTP/1.1]) it strips the decoded separator where the
    handler keeps it. *)
Lemma requested_word_differs_from_specified :
  requested_word (lit "//abc") = lit "abc"
  /\ key_as_specified (lit "//abc") = lit "/abc"
  /\ requested_word (lit "%2Fabc") = lit "/abc"
  /\ key_as_specified (lit "%2Fabc") = lit "abc"
  /\ requested_word (lit "//abc") <> key_as_specified (lit "//abc").
Proof. repeat split. vm_compute. discriminate. Qed.

(** C2, amended: the key is obtained by stripping all the leading
    separators of the raw path, then percent-decoding, then stripping the
    suffix if present.  On a raw path with exactly one leading separator
    this is the specified derivation.  The key is a function of the raw
    path alone, and two paths with the same key are answered alike. *)
Theorem requested_word_derivation (n : nat) (r p p' : str) :
  (forall u, r <> SLASH :: u) ->
  requested_word p = requested_word p' ->
  requested_word (repeat SLASH n ++ r)
  = (let path := unquote r in
     if endswith path SUFFIX then slice_to_neg path 13 else path)
  /\ requested_word (SLASH :: r) = key_as_specified (SLASH :: r)
  /\ (forall (E : ErrorPage) db fs,
        CORSRequestHandler.do_GET db fs p = CORSRequestHandler.do_GET db fs p').
Proof.
  intros Hr Hp. split; [|split].
  - unfold requested_word. now rewrite lstrip_slashes.
  - unfold requested_word, key_as_specified.
    change (lstrip (lit "/") (SLASH :: r))
      with (lstrip (lit "/") (repeat SLASH 1 ++ r)).
    rewrite (lstrip_slashes 1 r Hr), unquote_slash.
    cbn [strip_one_leading]. rewrite N.eqb_refl. reflexivity.
  - intros E db fs. unfold CORSRequestHandler.do_GET. now rewrite Hp.
Qed.

Lemma requested_word_derivation_witness :
  requested_word (repeat SLASH 3 ++ lit "a%2Fb.json.deflate") = lit "a/b"
  /\ requested_word (SLASH :: lit "a%2Fb.json.deflate")
     = key_as_specified (SLASH :: lit "a%2Fb.json.deflate")
  /\ (forall (E : ErrorPage) db fs,
        CORSRequestHandler.do_GET db fs (lit "//abc")
        = CORSRequestHandler.do_GET db fs (lit "/abc.json.deflate")).
Proof.
  apply (requested_word_derivation 3 (lit "a%2Fb.json.deflate")
           (lit "//abc") (lit "/abc.json.deflate")).
  - intros u. vm_compute. discriminate.
  - reflexivity.
Defined.

(** C7, as stated, fails for a word that itself ends in the suffix:
    requested without the suffix, its own ending is stripped. *)
Lemma round_trip_fails_on_suffixed_word :
  quote [] (lit "a.json.deflate") = Some (lit "a.json.deflate")
  /\ requested_word (lit "/" ++ lit "a.json.deflate") = lit "a"
  /\ requested_word (lit "/" ++ lit "a.json.deflate") <> lit "a.json.deflate".
Proof. repeat split. vm_compute. discriminate. Qed.

(** C7, amended: for every word [w] that UTF-8 can encode, percent-encoded
    with [%] and [/] escaped, the path with the suffix appended yields
    exactly [w]; the path without the suffix yields exactly [w] provided
    [w] does not itself end in [.json.deflate]. *)
Theorem requested_word_round_trip (safe w p : str) :
  contains PERCENT safe = false ->
  contains SLASH safe = false ->
  quote safe w = Some p ->
  requested_word (lit "/" ++ p ++ SUFFIX) = w
  /\ (endswith w SUFFIX = false -> requested_word (lit "/" ++ p) = w).
Proof.
  intros Hp Hs Q. unfold quote in Q.
  destruct (utf8_encode w) as [bs|] eqn:E; [|discriminate].
  injection Q as <-. unfold requested_word.
  change (lit "/") with (repeat SLASH 1). split.
  - rewrite lstrip_slashes
      by (apply quote_head; [exact Hs | intros u; vm_compute; discriminate]).
    rewrite (unquote_quote_then safe w bs SUFFIX Hp E) by reflexivity.
    rewrite endswith_app. apply (slice_to_neg_app w SUFFIX).
  - intros Hw.
    rewrite <- (app_nil_r (flat_map (quote_byte safe) bs)).
    rewrite lstrip_slashes by (apply quote_head; [exact Hs | discriminate]).
    rewrite (unquote_quote_then safe w bs [] Hp E) by reflexivity.
    rewrite app_nil_r, Hw. reflexivity.
Qed.

Lemma requested_word_round_trip_witness :
  requested_word (lit "/" ++ lit "%E3%81%82%2Fb%25" ++ SUFFIX)
  = [0x3042; 47; 98; 37]
  /\ (endswith [0x3042; 47; 98; 37] SUFFIX = false ->
      requested_word (lit "/" ++ lit "%E3%81%82%2Fb%25") = [0x3042; 47; 98; 37]).
Proof.
  apply (requested_word_round_trip (lit "!*'()") [0x3042; 47; 98; 37]
           (lit "%E3%81%82%2Fb%25")); reflexivity.
Defined.

(** ** The library's response head *)

Lemma is_latin1_lit (s : string) : is_latin1 (lit s) = true.
Proof.
  unfold is_latin1, lit. induction s as [|a s IH]; [reflexivity|].
  cbn [list_ascii_of_string List.map forallb]. rewrite IH, andb_true_r.
  apply N.ltb_lt. apply N_ascii_bounded.
Qed.

Lemma is_latin1_app (a b : str) :
  is_latin1 (a ++ b) = is_latin1 a && is_latin1 b.
Proof. apply forallb_app. Qed.

Lemma first_wide_latin1 (s : str) :
  forall i, is_latin1 s = true -> first_wide s i = None.
Proof.
  induction s as [|c s IH]; intros i E; [reflexivity|].
  cbn [is_latin1 forallb] in E. apply andb_true_iff in E. destruct E as [A B].
  cbn [first_wide]. rewrite A. now apply IH.
Qed.

Lemma first_wide_some (s : str) :
  forall i, is_latin1 s = false -> exists j rest, first_wide s i = Some (j, rest).
Proof.
  induction s as [|c s IH]; intros i E; [discriminate|].
  cbn [is_latin1 forallb] in E. cbn [first_wide].
  destruct (c <? 256); [|now eauto]. now apply IH.
Qed.

Lemma encode_latin1_ok (s : str) :
  is_latin1 s = true -> encode_latin1 s = Ok s.
Proof. intros E. unfold encode_latin1. now rewrite first_wide_latin1. Qed.

Lemma is_latin1_repeat (c : N) (k : nat) :
  c < 256 -> is_latin1 (repeat c k) = true.
Proof.
  intros Hc. induction k as [|k IH]; [reflexivity|].
  cbn [repeat is_latin1 forallb]. fold (is_latin1 (repeat c k)).
  rewrite IH, andb_true_r. now apply N.ltb_lt.
Qed.

Lemma is_latin1_hex_digits (fuel : nat) :
  forall n acc, is_latin1 acc = true -> is_latin1 (hex_digits fuel n acc) = true.
Proof.
  induction fuel as [|f IH]; intros n acc Ha; cbn [hex_digits]; [exact Ha|].
  assert (Hd : n mod 16 < 16) by (apply N.mod_lt; lia).
  assert (Hc : is_latin1 ((if n mod 16 <? 10 then 48 + n mod 16
                           else 87 + n mod 16) :: acc) = true).
  { cbn [is_latin1 forallb]. fold (is_latin1 acc). rewrite Ha, andb_true_r.
    apply N.ltb_lt. destruct (n mod 16 <? 10); lia. }
  destruct (n <? 16); [exact Hc|]. now apply IH.
Qed.

Lemma is_latin1_hex_lower (width : nat) (n : N) :
  is_latin1 (hex_lower width n) = true.
Proof.
  unfold hex_lower. rewrite is_latin1_app, is_latin1_repeat by lia.
  now apply is_latin1_hex_digits.
Qed.

(** The text of the codec's exception is itself ASCII. *)
Lemma encode_latin1_wide (s : str) :
  is_latin1 s = false ->
  exists e, encode_latin1 s = Raise e
            /\ exn_cls e = UnicodeEncodeError /\ is_latin1 (exn_str e) = true.
Proof.
  intros E. unfold encode_latin1.
  destruct (first_wide_some s 0 E) as (j & rest & ->).
  eexists. split; [reflexivity|]. split; [reflexivity|].
  cbn [exn_str]. unfold str_of_N.
  repeat first
    [ rewrite is_latin1_app | rewrite is_latin1_lit
    | rewrite is_latin1_hex_lower
    | match goal with |- context [if ?b then _ else _] => destruct b end
    | progress cbn [andb] ];
    reflexivity.
Qed.

Lemma is_latin1_str_of_N (n : N) : is_latin1 (str_of_N n) = true.
Proof. apply is_latin1_lit. Qed.

Lemma is_latin1_status_line (code : N) (message : str) :
  is_latin1 (PROTOCOL_VERSION ++ lit " " ++ str_of_N code ++ lit " "
             ++ message ++ CRLF)
  = is_latin1 message.
Proof.
  rewrite !is_latin1_app, is_latin1_str_of_N.
  unfold PROTOCOL_VERSION. rewrite !is_latin1_lit. cbn [andb].
  change (is_latin1 CRLF) with true. apply andb_true_r.
Qed.

Lemma is_latin1_header_line (keyword value : str) :
  is_latin1 (keyword ++ lit ": " ++ value ++ CRLF)
  = is_latin1 keyword && is_latin1 value.
Proof.
  rewrite !is_latin1_app, is_latin1_lit. cbn [andb].
  change (is_latin1 CRLF) with true. now rewrite andb_true_r.
Qed.

Lemma send_header_run (keyword value : str) (s : hstate) :
  is_latin1 keyword = true -> is_latin1 value = true ->
  send_header keyword value s
  = (Ok tt, {| headers_buffer := headers_buffer s ++ [HeaderLine keyword value];
               wfile := wfile s;
               accesses := accesses s |}).
Proof.
  intros K V. unfold send_header, bind, lift.
  rewrite encode_latin1_ok; [reflexivity|].
  now rewrite is_latin1_header_line, K, V.
Qed.

Lemma send_response_run (code : N) (message : str) (s : hstate) :
  is_latin1 message = true ->
  send_response code (Some message) s
  = (Ok tt, {| headers_buffer :=
                 headers_buffer s ++ [StatusLine code message; ServerLine; DateLine];
               wfile := wfile s;
               accesses := accesses s |}).
Proof.
  intros E. unfold send_response, send_response_only, bind, lift.
  rewrite encode_latin1_ok by now rewrite is_latin1_status_line.
  unfold buffer_append. cbn [headers_buffer wfile accesses].
  now rewrite <- !app_assoc.
Qed.

Lemma send_response_wide (code : N) (message : str) (s : hstate) :
  is_latin1 message = false ->
  exists e, send_response code (Some message) s = (Raise e, s)
            /\ exn_cls e = UnicodeEncodeError /\ is_latin1 (exn_str e) = true.
Proof.
  intros E. unfold send_response, send_response_only, bind, lift.
  destruct (encode_latin1_wide
              (PROTOCOL_VERSION ++ lit " " ++ str_of_N code ++ lit " "
               ++ message ++ CRLF)) as (e & -> & C).
  - now rewrite is_latin1_status_line.
  - eauto.
Qed.

Lemma send_response_200_run (s : hstate) :
  send_response 200 None s
  = (Ok tt, {| headers_buffer :=
                 headers_buffer s ++ [StatusLine 200 (lit "OK"); ServerLine; DateLine];
               wfile := wfile s;
               accesses := accesses s |}).
Proof.
  unfold send_response, send_response_only, bind, lift.
  change (responses_short 200) with (lit "OK").
  rewrite encode_latin1_ok by (rewrite is_latin1_status_line; apply is_latin1_lit).
  unfold buffer_append. cbn [headers_buffer wfile accesses].
  now rewrite <- !app_assoc.
Qed.

Lemma cors_end_headers_run (s : hstate) :
  CORSRequestHandler.cors_end_headers s
  = (Ok tt, {| headers_buffer := [];
               wfile := wfile s ++
                        [Head (headers_buffer s ++ cors_headers ++ [BlankLine])];
               accesses := accesses s |}).
Proof.
  unfold CORSRequestHandler.cors_end_headers, bind.
  repeat (rewrite send_header_run by apply is_latin1_lit;
          cbn [headers_buffer wfile accesses]).
  unfold base_end_headers, bind, buffer_append, flush_headers.
  cbn [headers_buffer wfile accesses]. now rewrite <- !app_assoc.
Qed.

Lemma send_error_run `{ErrorPage} (code : N) (message : str) (s : hstate) :
  is_latin1 message = true -> has_error_body code = true ->
  send_error code message s
  = (Ok tt, {| headers_buffer := [];
               wfile := wfile s ++ error_reply (headers_buffer s) code message;
               accesses := accesses s |}).
Proof.
  intros L B. unfold send_error. rewrite B. unfold bind at 1.
  rewrite send_response_run by exact L.
  unfold bind at 1. rewrite send_header_run by apply is_latin1_lit.
  unfold bind at 1. rewrite send_header_run by apply is_latin1_lit.
  unfold bind at 1.
  rewrite send_header_run by (try apply is_latin1_lit; apply is_latin1_str_of_N).
  unfold bind at 1. cbn [end_headers CORSRequestHandler.handler].
  rewrite cors_end_headers_run. cbn [headers_buffer wfile accesses].
  unfold error_reply.
  destruct (error_body code message) as [|b body] eqn:E.
  - unfold ret. now rewrite <- !app_assoc.
  - unfold wfile_write_bytes. cbn [headers_buffer wfile accesses].
    now rewrite <- !app_assoc.
Qed.

Lemma send_error_wide `{ErrorPage} (code : N) (message : str) (s : hstate) :
  is_latin1 message = false ->
  exists e, send_error code message s = (Raise e, s)
            /\ exn_cls e = UnicodeEncodeError /\ is_latin1 (exn_str e) = true.
Proof.
  intros L. destruct (send_response_wide code message s L) as (e & E & C).
  exists e. split; [|exact C]. unfold send_error. unfold bind at 1.
  now rewrite E.
Qed.

(** ** The ways a reply is made *)

Lemma send_error_outcome `{ErrorPage} (code : N) (message : str) (s : hstate) :
  has_error_body code = true ->
  (is_latin1 message = true
   /\ send_error code message s
      = (Ok tt, {| headers_buffer := [];
                   wfile := wfile s ++ error_reply (headers_buffer s) code message;
                   accesses := accesses s |}))
  \/ (is_latin1 message = false
      /\ exists e, send_error code message s = (Raise e, s)
                   /\ exn_cls e = UnicodeEncodeError
                   /\ is_latin1 (exn_str e) = true).
Proof.
  intros B. destruct (is_latin1 message) eqn:L.
  - left. split; [reflexivity|]. now apply send_error_run.
  - right. split; [reflexivity|]. now apply send_error_wide.
Qed.

Lemma py_len_error_latin1 (v : sqlval) (e : exn) :
  py_len v = Raise e -> is_latin1 (exn_str e) = true.
Proof.
  destruct v; cbn [py_len]; intros [= <-]; apply is_latin1_lit.
Qed.

Lemma is_latin1_database_error (e : exn) :
  is_latin1 (lit "Database error: " ++ exn_str e) = is_latin1 (exn_str e).
Proof. now rewrite is_latin1_app, is_latin1_lit. Qed.

Lemma is_latin1_file_read_error (e : exn) :
  is_latin1 (lit "File read error: " ++ exn_str e) = is_latin1 (exn_str e).
Proof. now rewrite is_latin1_app, is_latin1_lit. Qed.

Section DatabaseReplies.

Context `{ErrorPage}.
Variable conn : Connection.
Variable word : str.
Variable s : hstate.

Lemma database_error_run (e : exn) :
  select_json_data conn word = Raise e ->
  CORSRequestHandler.serve_from_database conn word s
  = send_error 500 (lit "Database error: " ++ exn_str e)
      (record_access (Query word) s).
Proof.
  intros S. unfold CORSRequestHandler.serve_from_database.
  unfold try_except, bind at 1, fetch_json_data. now rewrite S.
Qed.

Lemma database_miss_run :
  select_json_data conn word = Ok None ->
  CORSRequestHandler.serve_from_database conn word s
  = try_except
      (send_error 404 (CORSRequestHandler.not_found_in_database word))
      (fun e => send_error 500 (lit "Database error: " ++ exn_str e))
      (record_access (Query word) s).
Proof.
  intros S. unfold CORSRequestHandler.serve_from_database.
  unfold try_except, bind at 1, fetch_json_data. now rewrite S.
Qed.

Lemma database_blob_run (data : bytes) :
  select_json_data conn word = Ok (Some (SqlBlob data)) ->
  CORSRequestHandler.serve_from_database conn word s
  = (Ok tt, {| headers_buffer := [];
               wfile := wfile s ++
                        [Head (headers_buffer s ++ found_head (List.length data));
                         Body data];
               accesses := accesses s ++ [Query word] |}).
Proof.
  intros S. unfold CORSRequestHandler.serve_from_database.
  unfold try_except, bind at 1, fetch_json_data. rewrite S.
  unfold bind. rewrite send_response_200_run.
  rewrite send_header_run by apply is_latin1_lit.
  cbn [lift py_len].
  rewrite send_header_run by (try apply is_latin1_lit; apply is_latin1_str_of_N).
  cbn [end_headers CORSRequestHandler.handler]. rewrite cors_end_headers_run.
  cbn [wfile_write wfile_write_bytes headers_buffer wfile accesses record_access].
  unfold found_head, found_head_start.
  now rewrite <- !app_assoc.
Qed.

Lemma database_text_run (text : str) :
  select_json_data conn word = Ok (Some (SqlText text)) ->
  CORSRequestHandler.serve_from_database conn word s
  = (Ok tt, {| headers_buffer := [];
               wfile := (wfile s ++
                         [Head (headers_buffer s ++ found_head (List.length text))])
                        ++ error_reply [] 500
                             (lit "Database error: a bytes-like object is required, not 'str'");
               accesses := accesses s ++ [Query word] |}).
Proof.
  intros S. unfold CORSRequestHandler.serve_from_database.
  unfold try_except, bind at 1, fetch_json_data. rewrite S.
  unfold bind. rewrite send_response_200_run.
  rewrite send_header_run by apply is_latin1_lit.
  cbn [lift py_len].
  rewrite send_header_run by (try apply is_latin1_lit; apply is_latin1_str_of_N).
  cbn [end_headers CORSRequestHandler.handler]. rewrite cors_end_headers_run.
  cbn [wfile_write raise exn_str].
  rewrite send_error_run by (try apply is_latin1_lit; reflexivity).
  cbn [headers_buffer wfile accesses record_access].
  unfold found_head, found_head_start.
  now rewrite <- !app_assoc.
Qed.

Lemma database_unsized_run (data : sqlval) (e : exn) :
  select_json_data conn word = Ok (Some data) ->
  py_len data = Raise e ->
  CORSRequestHandler.serve_from_database conn word s
  = (Ok tt, {| headers_buffer := [];
               wfile := wfile s ++
                        error_reply (headers_buffer s ++ found_head_start) 500
                          (lit "Database error: " ++ exn_str e);
               accesses := accesses s ++ [Query word] |}).
Proof.
  intros S L. unfold CORSRequestHandler.serve_from_database.
  unfold try_except, bind at 1, fetch_json_data. rewrite S.
  unfold bind. rewrite send_response_200_run.
  rewrite send_header_run by apply is_latin1_lit.
  rewrite L. cbn [lift].
  rewrite send_error_run
    by (rewrite ?is_latin1_database_error; eauto using py_len_error_latin1).
  cbn [headers_buffer wfile accesses record_access].
  unfold found_head_start. now rewrite <- !app_assoc.
Qed.

End DatabaseReplies.

Section FileReplies.

Context `{ErrorPage}.
Variable fs : FileSystem.
Variable word : str.
Variable s : hstate.

Lemma file_missing_run :
  path_exists fs (word ++ lit ".json.deflate") = false ->
  CORSRequestHandler.serve_from_files fs word s
  = send_error 404 (CORSRequestHandler.not_found word)
      (record_access (Exists (word ++ lit ".json.deflate")) s).
Proof.
  intros X. unfold CORSRequestHandler.serve_from_files.
  unfold bind at 1, os_path_exists. now rewrite X.
Qed.

Lemma file_unreadable_run (e : exn) :
  path_exists fs (word ++ lit ".json.deflate") = true -> read_file fs (word ++ lit ".json.deflate") = Raise e ->
  CORSRequestHandler.serve_from_files fs word s
  = send_error 500 (lit "File read error: " ++ exn_str e)
      (record_access (Read (word ++ lit ".json.deflate")) (record_access (Exists (word ++ lit ".json.deflate")) s)).
Proof.
  intros X R. unfold CORSRequestHandler.serve_from_files.
  unfold bind at 1, os_path_exists. rewrite X.
  unfold try_except, bind at 1, open_read. now rewrite R.
Qed.

Lemma file_found_run (data : bytes) :
  path_exists fs (word ++ lit ".json.deflate") = true -> read_file fs (word ++ lit ".json.deflate") = Ok data ->
  CORSRequestHandler.serve_from_files fs word s
  = (Ok tt, {| headers_buffer := [];
               wfile := wfile s ++
                        [Head (headers_buffer s ++ found_head (List.length data));
                         Body data];
               accesses := accesses s ++ [Exists (word ++ lit ".json.deflate"); Read (word ++ lit ".json.deflate")] |}).
Proof.
  intros X R. unfold CORSRequestHandler.serve_from_files.
  unfold bind at 1, os_path_exists. rewrite X.
  unfold try_except, bind at 1, open_read. rewrite R.
  unfold bind. rewrite send_response_200_run.
  rewrite send_header_run by apply is_latin1_lit.
  rewrite send_header_run by (try apply is_latin1_lit; apply is_latin1_str_of_N).
  cbn [end_headers CORSRequestHandler.handler]. rewrite cors_end_headers_run.
  cbn [wfile_write_bytes headers_buffer wfile accesses record_access].
  unfold found_head, found_head_start.
  now rewrite <- !app_assoc.
Qed.

End FileReplies.

(** ** What the handler's steps preserve *)

Section Preserves.

Context `{ErrorPage}.
Variable I : hstate -> Prop.
Hypothesis I_buffer_append : forall l, preserves I (buffer_append l).
Hypothesis I_wfile_write_bytes : forall data, preserves I (wfile_write_bytes data).
Hypothesis I_flush_headers : preserves I flush_headers.

Lemma preserves_ret {A} (a : A) : preserves I (ret a).
Proof. intros s Hs. exact Hs. Qed.

Lemma preserves_raise {A} (e : exn) : preserves I (@raise hstate A e).
Proof. intros s Hs. exact Hs. Qed.

Lemma preserves_lift {A} (r : result A) : preserves I (lift r).
Proof. intros s Hs. exact Hs. Qed.

Lemma preserves_bind {A B} (m : HM A) (k : A -> HM B) :
  preserves I m -> (forall a, preserves I (k a)) -> preserves I (bind m k).
Proof.
  intros Hm Hk s Hs. unfold bind. specialize (Hm s Hs).
  destruct (m s) as [[a|e] s']; cbn [snd] in *.
  - now apply Hk.
  - exact Hm.
Qed.

Lemma preserves_try {A} (m : HM A) (h : exn -> HM A) :
  preserves I m -> (forall e, preserves I (h e)) -> preserves I (try_except m h).
Proof.
  intros Hm Hh s Hs. unfold try_except. specialize (Hm s Hs).
  destruct (m s) as [[a|e] s']; cbn [snd] in *.
  - exact Hm.
  - now apply Hh.
Qed.

Create HintDb steps.

Hint Resolve preserves_ret preserves_raise preserves_lift
  I_buffer_append I_wfile_write_bytes I_flush_headers : steps.

Ltac steps :=
  repeat first
    [ solve [auto with steps]
    | apply preserves_bind; [|intros ?]
    | apply preserves_try; [|intros ?] ].

Lemma preserves_send_header (k v : str) : preserves I (send_header k v).
Proof. unfold send_header. steps. Qed.

Lemma preserves_send_response (code : N) (message : option str) :
  preserves I (send_response code message).
Proof. unfold send_response, send_response_only. steps. Qed.

Hint Resolve preserves_send_header preserves_send_response : steps.

Lemma preserves_end_headers : preserves I end_headers.
Proof.
  cbn [end_headers CORSRequestHandler.handler].
  unfold CORSRequestHandler.cors_end_headers, base_end_headers. steps.
Qed.

Lemma preserves_wfile_write (v : sqlval) : preserves I (wfile_write v).
Proof. destruct v; cbn [wfile_write]; steps. Qed.

Hint Resolve preserves_end_headers preserves_wfile_write : steps.

Lemma preserves_send_error (code : N) (message : str) :
  preserves I (send_error code message).
Proof.
  unfold send_error. steps.
  destruct (has_error_body code); cbv zeta; steps.
  destruct (error_body code message); steps.
Qed.

Hint Resolve preserves_send_error : steps.

Lemma preserves_do_OPTIONS : preserves I CORSRequestHandler.do_OPTIONS.
Proof. unfold CORSRequestHandler.do_OPTIONS. steps. Qed.

Lemma preserves_serve_from_database (conn : Connection) (word : str) :
  preserves I (fetch_json_data conn word) ->
  preserves I (CORSRequestHandler.serve_from_database conn word).
Proof.
  intros F. unfold CORSRequestHandler.serve_from_database. steps.
  match goal with |- preserves I (match ?r with _ => _ end) => destruct r end;
    steps.
Qed.

Lemma preserves_serve_from_files (fs : FileSystem) (word : str) :
  (forall p, preserves I (os_path_exists fs p)) ->
  (forall p, preserves I (open_read fs p)) ->
  preserves I (CORSRequestHandler.serve_from_files fs word).
Proof.
  intros X R. unfold CORSRequestHandler.serve_from_files. steps.
  match goal with |- preserves I (if ?b then _ else _) => destruct b end; steps.
Qed.

End Preserves.

(** ** The reply to [OPTIONS] *)

Lemma do_OPTIONS_run (s : hstate) :
  CORSRequestHandler.do_OPTIONS s
  = (Ok tt, {| headers_buffer := [];
               wfile := wfile s ++
                 [Head (headers_buffer s
                        ++ [StatusLine 200 (lit "OK"); ServerLine; DateLine]
                        ++ cors_headers ++ [BlankLine])];
               accesses := accesses s |}).
Proof.
  unfold CORSRequestHandler.do_OPTIONS, bind. rewrite send_response_200_run.
  cbn [end_headers CORSRequestHandler.handler]. rewrite cors_end_headers_run.
  cbn [headers_buffer wfile accesses]. now rewrite <- !app_assoc.
Qed.

(** ** Texts of one line *)

Lemma one_line_app (a b : str) : one_line (a ++ b) = one_line a && one_line b.
Proof. apply forallb_app. Qed.

Lemma one_line_digits (d : Decimal.uint) :
  one_line (lit (NilEmpty.string_of_uint d)) = true.
Proof. induction d; cbn; auto. Qed.

Lemma one_line_str_of_N (n : N) : one_line (str_of_N n) = true.
Proof.
  unfold str_of_N, NilZero.string_of_uint.
  destruct (N.to_uint n); try reflexivity; apply one_line_digits.
Qed.

Lemma one_line_repeat (c : N) (k : nat) :
  c <> CR -> c <> LF -> one_line (repeat c k) = true.
Proof.
  intros A B. induction k as [|k IH]; [reflexivity|].
  cbn [repeat one_line forallb]. fold (one_line (repeat c k)).
  rewrite IH, andb_true_r.
  apply N.eqb_neq in A. apply N.eqb_neq in B. now rewrite A, B.
Qed.

Lemma one_line_hex_digits (fuel : nat) :
  forall n acc, one_line acc = true -> one_line (hex_digits fuel n acc) = true.
Proof.
  induction fuel as [|f IH]; intros n acc Ha; cbn [hex_digits]; [exact Ha|].
  assert (Hc : one_line ((if n mod 16 <? 10 then 48 + n mod 16
                          else 87 + n mod 16) :: acc) = true).
  { cbn [one_line forallb]. fold (one_line acc). rewrite Ha, andb_true_r.
    unfold CR, LF. generalize (n mod 16). intros d.
    destruct (d <? 10); apply andb_true_iff; split;
      apply negb_true_iff, N.eqb_neq; lia. }
  destruct (n <? 16); [exact Hc|]. now apply IH.
Qed.

Lemma one_line_hex_lower (width : nat) (n : N) :
  one_line (hex_lower width n) = true.
Proof.
  unfold hex_lower. rewrite one_line_app, one_line_repeat by discriminate.
  now apply one_line_hex_digits.
Qed.

(** The text of the codec's exception is one line of ASCII. *)
Lemma encode_latin1_wide_plain (s : str) :
  is_latin1 s = false ->
  exists e, encode_latin1 s = Raise e
            /\ exn_cls e = UnicodeEncodeError
            /\ is_latin1 (exn_str e) = true /\ one_line (exn_str e) = true.
Proof.
  intros E. destruct (encode_latin1_wide s E) as (e & Q & C & L).
  exists e. repeat split; try assumption.
  revert Q. unfold encode_latin1.
  destruct (first_wide_some s 0 E) as (j & rest & ->).
  intros Q. apply (f_equal (fun r => match r with Raise x => exn_str x | Ok _ => [] end)) in Q.
  cbv beta iota in Q. cbn [exn_str] in Q. rewrite <- Q.
  repeat first
    [ rewrite one_line_app | rewrite one_line_str_of_N
    | rewrite one_line_hex_lower
    | match goal with |- context [if ?b then _ else _] => destruct b end
    | progress cbn [andb] ];
    reflexivity.
Qed.

Lemma send_error_wide_plain `{ErrorPage} (code : N) (message : str) (s : hstate) :
  is_latin1 message = false ->
  exists e, send_error code message s = (Raise e, s)
            /\ exn_cls e = UnicodeEncodeError
            /\ is_latin1 (exn_str e) = true /\ one_line (exn_str e) = true.
Proof.
  intros L. unfold send_error, bind at 1, send_response, bind at 1.
  unfold send_response_only, bind at 1, lift.
  destruct (encode_latin1_wide_plain
              (PROTOCOL_VERSION ++ lit " " ++ str_of_N code ++ lit " "
               ++ message ++ CRLF)) as (e & -> & C).
  - now rewrite is_latin1_status_line.
  - eauto.
Qed.

(** ** The head the client reads *)

Lemma one_line_no_LF (t : str) (c : N) :
  one_line t = true -> In c t -> c <> LF.
Proof.
  unfold one_line. rewrite forallb_forall. intros A Hin.
  specialize (A c Hin). apply andb_true_iff in A. destruct A as [_ A].
  now apply negb_true_iff, N.eqb_neq in A.
Qed.

(** A text without line feed, then a line feed, is one line. *)
Lemma lines_terminated (t w : bytes) :
  (forall c, In c t -> c <> LF) ->
  lines (t ++ LF :: w) = (t ++ [LF]) :: lines w.
Proof.
  induction t as [|c t IH]; intros A.
  - cbn [app lines]. now rewrite N.eqb_refl.
  - cbn [app lines].
    assert (Hc : (c =? LF) = false) by (apply N.eqb_neq, A; now left).
    rewrite Hc, IH by (intros d Hd; apply A; now right). reflexivity.
Qed.

Lemma is_tchar_plain (c : N) :
  is_tchar c = true -> (c =? COLON) = false /\ (c =? CR) = false /\ (c =? LF) = false.
Proof.
  intros T. repeat split; apply N.eqb_neq; intros ->; discriminate T.
Qed.

Lemma one_line_token (s : str) : forallb is_tchar s = true -> one_line s = true.
Proof.
  induction s as [|c s IH]; [reflexivity|].
  cbn [forallb one_line]. intros T. apply andb_true_iff in T.
  destruct T as [Tc Ts]. fold (one_line s). rewrite (IH Ts), andb_true_r.
  destruct (is_tchar_plain c Tc) as (_ & -> & ->). reflexivity.
Qed.

Lemma is_field_value_one_line (value : str) :
  one_line value = true -> is_field_value (value ++ CRLF) = true.
Proof.
  induction value as [|c v IH]; [reflexivity|].
  cbn [one_line forallb app is_field_value]. fold (one_line v).
  intros A. apply andb_true_iff in A. destruct A as [A Hv].
  apply andb_true_iff in A. destruct A as [Ac Al].
  apply negb_true_iff in Ac. apply negb_true_iff in Al.
  rewrite Ac, Al. now apply IH.
Qed.

Lemma is_field_line_from_token (name rest : str) :
  forall named, forallb is_tchar name = true ->
    is_field_line_from named (name ++ COLON :: rest)
    = (named || negb (match name with [] => true | _ => false end))
      && is_field_value rest.
Proof.
  induction name as [|c name IH]; intros named T.
  - cbn [app is_field_line_from]. rewrite N.eqb_refl.
    cbn [negb]. now rewrite orb_false_r.
  - cbn [forallb] in T. apply andb_true_iff in T. destruct T as [Tc Tn].
    cbn [app is_field_line_from].
    destruct (is_tchar_plain c Tc) as (-> & _ & _). rewrite Tc, (IH true Tn).
    cbn [andb orb negb]. now rewrite orb_true_r.
Qed.

(** A header with a token for a name and a value of one line is, on the
    wire, one line and a field line. *)
Lemma field_line_octets (name value : str) :
  is_token name = true -> one_line value = true ->
  exists t, name ++ lit ": " ++ value ++ CRLF = t ++ [LF]
            /\ (forall c, In c t -> c <> LF)
            /\ is_field_line (t ++ [LF]) = true.
Proof.
  intros Hn Hv.
  assert (Tn : forallb is_tchar name = true /\ name <> []).
  { destruct name; [discriminate Hn|]. split; [exact Hn|discriminate]. }
  destruct Tn as [Tn Ne].
  exists (name ++ lit ": " ++ value ++ [CR]).
  split; [now rewrite <- !app_assoc|]. split.
  - intros c Hc. rewrite !app_assoc in Hc. apply in_app_or in Hc.
    destruct Hc as [Hc|[<-|[]]]; [|discriminate].
    apply (one_line_no_LF ((name ++ lit ": ") ++ value)); [|exact Hc].
    rewrite !one_line_app, (one_line_token name Tn), Hv. reflexivity.
  - rewrite <- !app_assoc. unfold is_field_line.
    change (lit ": " ++ value ++ [CR] ++ [LF]) with (COLON :: 32 :: value ++ CRLF).
    rewrite is_field_line_from_token by exact Tn.
    destruct name; [congruence|]. cbn [orb negb andb is_field_value].
    change (32 =? LF) with false. change (32 =? CR) with false. cbv iota.
    now apply is_field_value_one_line.
Qed.

Lemma line_octets_plain (i : Stamp) (l : hline) :
  plain_stamp i = true -> plain_line l = true ->
  exists t, line_octets i l = t ++ [LF]
            /\ (forall c, In c t -> c <> LF)
            /\ is_field_line (t ++ [LF]) = true.
Proof.
  intros Hi Hl. apply andb_true_iff in Hi. destruct Hi as [Hv Hd].
  destruct l as [code message| | |keyword value|]; cbn [line_octets plain_line] in *;
    try discriminate Hl.
  - change (lit "Server: " ++ version_string i ++ CRLF)
      with (lit "Server" ++ lit ": " ++ version_string i ++ CRLF).
    now apply field_line_octets.
  - change (lit "Date: " ++ date_time_string i ++ CRLF)
      with (lit "Date" ++ lit ": " ++ date_time_string i ++ CRLF).
    now apply field_line_octets.
  - apply andb_true_iff in Hl. destruct Hl as [Hk Hval].
    now apply field_line_octets.
Qed.

Lemma lines_plain (i : Stamp) (ls : list hline) (w : bytes) :
  plain_stamp i = true -> forallb plain_line ls = true ->
  lines (List.concat (List.map (line_octets i) ls) ++ w)
  = List.map (line_octets i) ls ++ lines w.
Proof.
  intros Hi. induction ls as [|l ls IH]; intros Hl; [reflexivity|].
  cbn [forallb] in Hl. apply andb_true_iff in Hl. destruct Hl as [Hl Hls].
  cbn [List.map List.concat]. rewrite <- app_assoc.
  destruct (line_octets_plain i l Hi Hl) as (t & -> & A & _).
  rewrite <- app_assoc. cbn [app]. rewrite lines_terminated by exact A.
  now rewrite IH.
Qed.

Lemma header_block_plain (i : Stamp) (ls : list hline) (rest : list bytes) :
  plain_stamp i = true -> forallb plain_line ls = true ->
  header_block (List.map (line_octets i) ls ++ CRLF :: rest)
  = List.map (line_octets i) ls.
Proof.
  intros Hi. induction ls as [|l ls IH]; intros Hl.
  - reflexivity.
  - cbn [forallb] in Hl. apply andb_true_iff in Hl. destruct Hl as [Hl Hls].
    cbn [List.map app header_block].
    destruct (line_octets_plain i l Hi Hl) as (t & -> & _ & B).
    rewrite B. now rewrite IH.
Qed.

(** A head that begins with a status line of one line, followed by
    well-formed headers and then the four headers, is read by the client
    with the four headers last. *)
Lemma receives_cors_head (i : Stamp) (code : N) (message : str)
      (before : list hline) (more : list chunk) :
  plain_stamp i = true -> one_line message = true ->
  forallb plain_line before = true ->
  receives_cors
    (on_the_wire i
       (Head (StatusLine code message :: before ++ cors_headers ++ [BlankLine])
        :: more)).
Proof.
  intros Hi Hm Hb. exists (List.map (line_octets i) before).
  set (start := PROTOCOL_VERSION ++ lit " " ++ str_of_N code ++ lit " " ++ message).
  set (ls := before ++ cors_headers).
  assert (Hls : forallb plain_line ls = true).
  { unfold ls. rewrite forallb_app. now rewrite Hb. }
  assert (W : on_the_wire i
                (Head (StatusLine code message :: before ++ cors_headers ++ [BlankLine])
                 :: more)
              = (start ++ [CR]) ++ LF ::
                (List.concat (List.map (line_octets i) ls)
                 ++ (CRLF ++ on_the_wire i more))).
  { rewrite (app_assoc before). fold ls.
    change (on_the_wire i (Head (StatusLine code message :: ls ++ [BlankLine]) :: more))
      with ((line_octets i (StatusLine code message)
             ++ List.concat (List.map (line_octets i) (ls ++ [BlankLine])))
            ++ on_the_wire i more).
    rewrite map_app, concat_app. cbn [List.map List.concat line_octets].
    rewrite app_nil_r. unfold start. rewrite <- !app_assoc. reflexivity. }
  unfold received_headers. rewrite W. rewrite lines_terminated.
  - rewrite lines_plain by assumption.
    replace (startswith ((start ++ [CR]) ++ [LF]) (lit "HTTP/")) with true
      by reflexivity.
    change (lines (CRLF ++ on_the_wire i more))
      with (CRLF :: lines (on_the_wire i more)).
    rewrite header_block_plain by assumption.
    unfold ls. now rewrite map_app.
  - intros c Hc. apply in_app_or in Hc. destruct Hc as [Hc|[<-|[]]]; [|discriminate].
    apply (one_line_no_LF start); [|exact Hc].
    unfold start. now rewrite !one_line_app, one_line_str_of_N, Hm.
Qed.

(** ** The four headers on every response *)

(** For a version other than HTTP/0.9 the methods of [AnyVersion] are the
    methods defined first. *)
Lemma at_HTTP_1_x `{ErrorPage} :
  (forall db fs self_path,
      AnyVersion.do_GET HTTP_1_x db fs self_path
      = CORSRequestHandler.do_GET db fs self_path)
  /\ AnyVersion.do_OPTIONS HTTP_1_x = CORSRequestHandler.do_OPTIONS
  /\ (forall code message,
        AnyVersion.send_error HTTP_1_x code message = send_error code message).
Proof. repeat split; reflexivity. Qed.

Lemma send_error_bodyless_run `{ErrorPage} (code : N) (message : str) (s : hstate) :
  is_latin1 message = true -> has_error_body code = false ->
  send_error code message s
  = (Ok tt, {| headers_buffer := [];
               wfile := wfile s ++
                 [Head (headers_buffer s ++
                        [StatusLine code message; ServerLine; DateLine;
                         HeaderLine (lit "Connection") (lit "close")]
                        ++ cors_headers ++ [BlankLine])];
               accesses := accesses s |}).
Proof.
  intros L B. unfold send_error. rewrite B. unfold bind at 1.
  rewrite send_response_run by exact L.
  unfold bind at 1. rewrite send_header_run by apply is_latin1_lit.
  cbn [end_headers CORSRequestHandler.handler].
  rewrite cors_end_headers_run. cbn [headers_buffer wfile accesses].
  now rewrite <- !app_assoc.
Qed.

Section OnTheWire.

Context `{ErrorPage}.
Variable i : Stamp.
Hypothesis plain : plain_stamp i = true.

Lemma error_reply_receives_cors (code : N) (message : str) (more : list chunk) :
  one_line message = true ->
  receives_cors (on_the_wire i (error_reply [] code message ++ more)).
Proof.
  intros Hm. unfold error_reply. cbn [app].
  change (Head ?l :: ?b ++ more) with (Head l :: (b ++ more)).
  match goal with
  | |- receives_cors (on_the_wire i (Head (StatusLine code message :: ?l) :: ?m)) =>
    change (Head (StatusLine code message :: l))
      with (Head (StatusLine code message ::
                  [ServerLine; DateLine;
                   HeaderLine (lit "Connection") (lit "close");
                   HeaderLine (lit "Content-Type") (lit "text/html;charset=utf-8");
                   HeaderLine (lit "Content-Length")
                     (str_of_N (N.of_nat (List.length (error_body code message))))]
                  ++ cors_headers ++ [BlankLine]))
  end.
  apply receives_cors_head; [exact plain|exact Hm|].
  cbn [forallb plain_line]. rewrite one_line_str_of_N. reflexivity.
Qed.

Lemma found_head_receives_cors (n : nat) (more : list chunk) :
  receives_cors (on_the_wire i (Head (found_head n) :: more)).
Proof.
  change (found_head n)
    with (StatusLine 200 (lit "OK") ::
          [ServerLine; DateLine;
           HeaderLine (lit "Content-Type") (lit "application/octet-stream");
           HeaderLine (lit "Content-Length") (str_of_N (N.of_nat n))]
          ++ cors_headers ++ [BlankLine]).
  apply receives_cors_head; [exact plain|reflexivity|].
  cbn [forallb plain_line]. rewrite one_line_str_of_N. reflexivity.
Qed.

Lemma send_error_carried (code : N) (message : str) (s : hstate) :
  has_error_body code = true -> one_line message = true ->
  headers_buffer s = [] -> wfile s = [] ->
  carried_or_silent i (send_error code message s).
Proof.
  intros B Hm Hb Hw.
  destruct (send_error_outcome code message s B)
    as [[_ ->] | [_ (e & -> & C & _)]].
  - left. cbn [snd wfile]. rewrite Hb, Hw. cbn [app].
    rewrite <- (app_nil_r (error_reply [] code message)).
    now apply error_reply_receives_cors.
  - right. cbn [fst snd]. split; [now exists e|exact Hw].
Qed.

Lemma try_404_carried (message : str) (s : hstate) :
  one_line message = true -> headers_buffer s = [] -> wfile s = [] ->
  carried_or_silent i
    (try_except (send_error 404 message)
       (fun e => send_error 500 (lit "Database error: " ++ exn_str e)) s).
Proof.
  intros Hm Hb Hw. left. unfold try_except.
  destruct (is_latin1 message) eqn:L.
  - rewrite send_error_run by (try exact L; reflexivity).
    cbn [snd wfile]. rewrite Hb, Hw. cbn [app].
    rewrite <- (app_nil_r (error_reply [] 404 message)).
    now apply error_reply_receives_cors.
  - destruct (send_error_wide_plain 404 message s L) as (e & -> & _ & T & P).
    rewrite send_error_run by (rewrite ?is_latin1_database_error; auto).
    cbn [snd wfile]. rewrite Hb, Hw. cbn [app].
    rewrite <- (app_nil_r (error_reply [] 500 _)).
    apply error_reply_receives_cors. now rewrite one_line_app, P.
Qed.

Lemma one_line_not_found (word : str) :
  one_line (CORSRequestHandler.not_found word) = one_line word.
Proof.
  unfold CORSRequestHandler.not_found. rewrite !one_line_app.
  change (one_line (lit "Word ")) with true.
  change (one_line [DQUOTE]) with true.
  change (one_line (lit " not found")) with true.
  cbn [andb]. apply andb_true_r.
Qed.

Lemma one_line_not_found_in_database (word : str) :
  one_line (CORSRequestHandler.not_found_in_database word) = one_line word.
Proof.
  unfold CORSRequestHandler.not_found_in_database. rewrite !one_line_app.
  change (one_line (lit "Word ")) with true.
  change (one_line [DQUOTE]) with true.
  change (one_line (lit " not found in database")) with true.
  cbn [andb]. apply andb_true_r.
Qed.

Lemma do_GET_carried (db_connection : option Connection) (fs : FileSystem)
      (self_path : str) :
  let word := requested_word self_path in
  one_line word = true ->
  (forall e, backend_raises db_connection fs word e -> one_line (exn_str e) = true) ->
  row_is_sized db_connection word ->
  carried_or_silent i (CORSRequestHandler.do_GET db_connection fs self_path fresh).
Proof.
  intros word Hw He Hs. unfold CORSRequestHandler.do_GET. fold word.
  destruct word as [|c w] eqn:Ew.
  - now apply send_error_carried.
  - rewrite <- Ew in *. clear Ew c w.
    destruct db_connection as [conn|]; cbn [backend_raises row_is_sized] in He, Hs.
    + destruct (select_json_data conn word) as [[data|]|e] eqn:S.
      * left. destruct (Hs data eq_refl) as [n Hn].
        destruct data as [|z| |text|data]; try discriminate Hn.
        -- rewrite (database_text_run conn word fresh text S).
           cbn [snd wfile fresh app headers_buffer].
           apply found_head_receives_cors.
        -- rewrite (database_blob_run conn word fresh data S).
           cbn [snd wfile fresh app headers_buffer].
           apply found_head_receives_cors.
      * rewrite (database_miss_run conn word fresh S).
        apply try_404_carried; [|reflexivity|reflexivity].
        now rewrite one_line_not_found_in_database.
      * rewrite (database_error_run conn word fresh e S).
        apply send_error_carried; [reflexivity| |reflexivity|reflexivity].
        rewrite one_line_app. now rewrite (He e eq_refl).
    + destruct (path_exists fs (word ++ lit ".json.deflate")) eqn:X.
      * destruct (read_file fs (word ++ lit ".json.deflate")) as [data|e] eqn:R.
        -- left. rewrite (file_found_run fs word fresh data X R).
           cbn [snd wfile fresh app headers_buffer].
           apply found_head_receives_cors.
        -- rewrite (file_unreadable_run fs word fresh e X R).
           apply send_error_carried; [reflexivity| |reflexivity|reflexivity].
           rewrite one_line_app. now rewrite (He e (conj eq_refl eq_refl)).
      * rewrite (file_missing_run fs word fresh X).
        apply send_error_carried; [reflexivity| |reflexivity|reflexivity].
        now rewrite one_line_not_found.
Qed.

End OnTheWire.

(** The reply to a request of version HTTP/0.9. *)
Lemma send_error_simple_run `{ErrorPage} (code : N) (message : str) (s : hstate) :
  has_error_body code = true ->
  AnyVersion.send_error HTTP_0_9 code message s
  = (Ok tt, {| headers_buffer := headers_buffer s;
               wfile := wfile s ++ simple_error_reply code message;
               accesses := accesses s |}).
Proof.
  intros B. unfold AnyVersion.send_error. rewrite B.
  unfold simple_error_reply. destruct s as [b w a].
  destruct (error_body code message); cbn; now rewrite ?app_nil_r.
Qed.

Lemma no_head_simple_error_reply `{ErrorPage} (code : N) (message : str) :
  no_head (simple_error_reply code message).
Proof.
  unfold simple_error_reply, no_head. intros lines.
  destruct (error_body code message); cbn [In]; [tauto|].
  intros [Q|[]]. discriminate Q.
Qed.

Section Simple.
Context `{ErrorPage}.
Variable db_connection : option Connection.
Variable fs : FileSystem.
Variable self_path : str.

Lemma simple_do_GET_run :
  let word := requested_word self_path in
  exists out a,
    AnyVersion.do_GET HTTP_0_9 db_connection fs self_path fresh
    = (Ok tt, {| headers_buffer := []; wfile := out; accesses := a |})
    /\ no_head out
    /\ (word = [] -> out = simple_error_reply 400 (lit "No word specified"))
    /\ (word <> [] -> backend_miss db_connection fs word ->
        out = simple_error_reply 404
                (match db_connection with
                 | Some _ => CORSRequestHandler.not_found_in_database word
                 | None => CORSRequestHandler.not_found word
                 end))
    /\ (forall data, word <> [] ->
          match db_connection with
          | Some conn => select_json_data conn word = Ok (Some (SqlBlob data))
          | None => path_exists fs (word ++ lit ".json.deflate") = true
                    /\ read_file fs (word ++ lit ".json.deflate") = Ok data
          end ->
          out = [Body data]).
Proof.
  intros word. unfold AnyVersion.do_GET. fold word.
  destruct word as [|c w] eqn:Ew.
  - rewrite send_error_simple_run by reflexivity. do 2 eexists.
    split; [reflexivity|]. cbn [fresh wfile app].
    split; [apply no_head_simple_error_reply|].
    split; [reflexivity|]. split; [congruence|congruence].
  - rewrite <- Ew. assert (Hw : word <> []) by (rewrite Ew; discriminate).
    clear Ew c w.
    destruct db_connection as [conn|]; cbn [backend_miss].
    + unfold AnyVersion.serve_from_database, try_except, bind at 1, fetch_json_data.
      destruct (select_json_data conn word) as [[data|]|e] eqn:S.
      * cbv [AnyVersion.send_response AnyVersion.send_response_only
               AnyVersion.send_stamp AnyVersion.send_header
               AnyVersion.end_headers AnyVersion.base_end_headers
               bind ret lift].
        destruct data as [|z| |text|data];
          cbv [py_len wfile_write raise wfile_write_bytes exn_str];
          try rewrite send_error_simple_run by reflexivity;
          do 2 eexists; (split; [reflexivity|]);
          cbn [wfile fresh app record_access headers_buffer accesses];
          (split; [try apply no_head_simple_error_reply|]);
          try (split; [congruence|]; split; [congruence|]; intros d _ Q; congruence);
          try (intros l [Q|[]]; discriminate Q).
      * rewrite send_error_simple_run by reflexivity.
        do 2 eexists. split; [reflexivity|]. cbn [wfile fresh app record_access].
        split; [apply no_head_simple_error_reply|].
        split; [congruence|]. split; [reflexivity|]. intros d _ Q; congruence.
      * rewrite send_error_simple_run by reflexivity.
        do 2 eexists. split; [reflexivity|]. cbn [wfile fresh app record_access].
        split; [apply no_head_simple_error_reply|].
        split; [congruence|]. split; [congruence|]. intros d _ Q; congruence.
    + unfold AnyVersion.serve_from_files, bind at 1, os_path_exists.
      destruct (path_exists fs (word ++ lit ".json.deflate")) eqn:X.
      * unfold try_except, bind at 1, open_read.
        destruct (read_file fs (word ++ lit ".json.deflate")) as [data|e] eqn:R.
        -- cbv [AnyVersion.send_response AnyVersion.send_response_only
                 AnyVersion.send_stamp AnyVersion.send_header
                 AnyVersion.end_headers AnyVersion.base_end_headers
                 bind ret lift wfile_write_bytes].
           cbn [wfile fresh app record_access headers_buffer accesses].
           do 2 eexists. split; [reflexivity|].
           split; [intros l [Q|[]]; discriminate Q|].
           split; [congruence|]. split; [congruence|].
           intros d _ [_ Q]. congruence.
        -- rewrite send_error_simple_run by reflexivity.
           do 2 eexists. split; [reflexivity|]. cbn [wfile fresh app record_access].
           split; [apply no_head_simple_error_reply|].
           split; [congruence|]. split; [congruence|]. intros d _ [_ Q]; congruence.
      * rewrite send_error_simple_run by reflexivity.
        do 2 eexists. split; [reflexivity|]. cbn [wfile fresh app record_access].
        split; [apply no_head_simple_error_reply|].
        split; [congruence|]. split; [reflexivity|]. intros d _ [Q _]; congruence.
Qed.

End Simple.




(** ** Backend accesses *)

Section AccessesOnly.

Context `{ErrorPage}.
Variable P : list access -> Prop.

Lemma accesses_buffer_append (l : hline) : preserves (on_accesses P) (buffer_append l).
Proof. intros s Hs. exact Hs. Qed.

Lemma accesses_wfile_write_bytes (data : bytes) :
  preserves (on_accesses P) (wfile_write_bytes data).
Proof. intros s Hs. exact Hs. Qed.

Lemma accesses_flush_headers : preserves (on_accesses P) flush_headers.
Proof. intros s Hs. exact Hs. Qed.

Lemma accesses_send_error (code : N) (message : str) :
  preserves (on_accesses P) (send_error code message).
Proof.
  apply preserves_send_error;
    auto using accesses_buffer_append, accesses_wfile_write_bytes,
               accesses_flush_headers.
Qed.

Lemma accesses_serve_from_database (conn : Connection) (word : str) :
  preserves (on_accesses P) (fetch_json_data conn word) ->
  preserves (on_accesses P) (CORSRequestHandler.serve_from_database conn word).
Proof.
  apply preserves_serve_from_database;
    auto using accesses_buffer_append, accesses_wfile_write_bytes,
               accesses_flush_headers.
Qed.

Lemma accesses_serve_from_files (fs : FileSystem) (word : str) :
  (forall p, preserves (on_accesses P) (os_path_exists fs p)) ->
  (forall p, preserves (on_accesses P) (open_read fs p)) ->
  preserves (on_accesses P) (CORSRequestHandler.serve_from_files fs word).
Proof.
  apply preserves_serve_from_files;
    auto using accesses_buffer_append, accesses_wfile_write_bytes,
               accesses_flush_headers.
Qed.

End AccessesOnly.

(** [send_error] consults no backend. *)
Lemma send_error_accesses `{ErrorPage} (code : N) (message : str) (s : hstate) :
  accesses (snd (send_error code message s)) = accesses s.
Proof.
  now apply (accesses_send_error (fun l => l = accesses s) code message s).
Qed.

Lemma only_queries_do_GET `{ErrorPage} (conn : Connection) (fs : FileSystem)
      (self_path : str) :
  preserves only_queries (CORSRequestHandler.do_GET (Some conn) fs self_path).
Proof.
  unfold CORSRequestHandler.do_GET.
  destruct (requested_word self_path) as [|c w].
  - apply (accesses_send_error (Forall is_query)).
  - apply (accesses_serve_from_database (Forall is_query)).
    intros s Hs. unfold only_queries, on_accesses in *. cbn.
    apply Forall_app. split; [exact Hs|]. now repeat constructor.
Qed.

Lemma only_file_accesses_do_GET `{ErrorPage} (fs : FileSystem) (self_path : str) :
  preserves only_file_accesses (CORSRequestHandler.do_GET None fs self_path).
Proof.
  unfold CORSRequestHandler.do_GET.
  destruct (requested_word self_path) as [|c w].
  - apply (accesses_send_error (Forall is_file_access)).
  - apply (accesses_serve_from_files (Forall is_file_access));
      intros p s Hs; unfold only_file_accesses, on_accesses in *; cbn;
      (apply Forall_app; split; [exact Hs|]); now repeat constructor.
Qed.

(** ** Replies of [do_GET] *)

Lemma status_codes_error_reply `{ErrorPage} (code : N) (message : str) :
  status_codes (error_reply [] code message) = [code].
Proof.
  unfold error_reply. destruct (error_body code message); reflexivity.
Qed.

Lemma send_error_status `{ErrorPage} (code : N) (message : str) (s : hstate) :
  has_error_body code = true -> headers_buffer s = [] -> wfile s = [] ->
  status_codes (wfile (snd (send_error code message s))) = [code]
  \/ status_codes (wfile (snd (send_error code message s))) = [].
Proof.
  intros B Hb Hw. destruct (is_latin1 message) eqn:L.
  - left. rewrite send_error_run by assumption. cbn [snd wfile].
    rewrite Hb, Hw. apply status_codes_error_reply.
  - right. destruct (send_error_wide code message s L) as (e & -> & _).
    cbn [snd]. now rewrite Hw.
Qed.

(** C8: whenever the derived key is empty -- as for the paths [/] and
    [/.json.deflate] -- the reply is the 400 error with the message
    [No word specified], the same whatever the backend, and no backend has
    been consulted: no query, no existence test, no read. *)
Theorem empty_word_is_bad_request (E : ErrorPage) (self_path : str) :
  requested_word self_path = [] ->
  (forall db fs,
      CORSRequestHandler.do_GET db fs self_path fresh
      = (Ok tt, {| headers_buffer := [];
                   wfile := error_reply [] 400 (lit "No word specified");
                   accesses := [] |}))
  /\ status_codes (error_reply [] 400 (lit "No word specified")) = [400]
  /\ requested_word (lit "/") = []
  /\ requested_word (lit "/.json.deflate") = [].
Proof.
  intros Hw. split; [|split; [|split]].
  - intros db fs. unfold CORSRequestHandler.do_GET. rewrite Hw.
    now rewrite send_error_run by (try apply is_latin1_lit; reflexivity).
  - apply status_codes_error_reply.
  - reflexivity.
  - reflexivity.
Qed.

Lemma empty_word_is_bad_request_witness :
  (forall db fs,
      @CORSRequestHandler.do_GET bare_error_page db fs (lit "///.json.deflate") fresh
      = (Ok tt, {| headers_buffer := [];
                   wfile := @error_reply bare_error_page [] 400
                              (lit "No word specified");
                   accesses := [] |}))
  /\ status_codes (@error_reply bare_error_page [] 400 (lit "No word specified"))
     = [400]
  /\ requested_word (lit "/") = []
  /\ requested_word (lit "/.json.deflate") = [].
Proof.
  apply (empty_word_is_bad_request bare_error_page (lit "///.json.deflate")).
  reflexivity.
Defined.

Lemma do_GET_without_connection `{ErrorPage} (fs : FileSystem) (self_path : str) :
  requested_word self_path <> [] ->
  CORSRequestHandler.do_GET None fs self_path
  = CORSRequestHandler.serve_from_files fs (requested_word self_path).
Proof.
  intros Hw. unfold CORSRequestHandler.do_GET.
  destruct (requested_word self_path); [congruence|reflexivity].
Qed.

Lemma do_GET_with_connection `{ErrorPage} (conn : Connection) (fs : FileSystem)
      (self_path : str) :
  requested_word self_path <> [] ->
  CORSRequestHandler.do_GET (Some conn) fs self_path
  = CORSRequestHandler.serve_from_database conn (requested_word self_path).
Proof.
  intros Hw. unfold CORSRequestHandler.do_GET.
  destruct (requested_word self_path); [congruence|reflexivity].
Qed.

(** ** The 404 reply *)

Lemma is_latin1_not_found (word : str) :
  is_latin1 (CORSRequestHandler.not_found word) = is_latin1 word.
Proof.
  unfold CORSRequestHandler.not_found.
  rewrite !is_latin1_app, !is_latin1_lit. cbn [andb].
  change (is_latin1 [DQUOTE]) with true. cbn [andb]. apply andb_true_r.
Qed.

Lemma is_latin1_not_found_in_database (word : str) :
  is_latin1 (CORSRequestHandler.not_found_in_database word) = is_latin1 word.
Proof.
  unfold CORSRequestHandler.not_found_in_database.
  rewrite !is_latin1_app, !is_latin1_lit. cbn [andb].
  change (is_latin1 [DQUOTE]) with true. cbn [andb]. apply andb_true_r.
Qed.

(** The two messages never coincide: one ends in [database], the other in
    [found]. *)
Lemma not_found_messages_differ (w w' : str) :
  CORSRequestHandler.not_found_in_database w <> CORSRequestHandler.not_found w'.
Proof.
  unfold CORSRequestHandler.not_found_in_database, CORSRequestHandler.not_found.
  intros Heq. apply (f_equal (@rev N)) in Heq.
  rewrite !rev_app_distr in Heq.
  change (rev (lit " not found in database"))
    with (101 :: rev (lit " not found in databas")) in Heq.
  change (rev (lit " not found")) with (100 :: rev (lit " not foun")) in Heq.
  cbn [app] in Heq. discriminate Heq.
Qed.

(** For a word within Latin-1 a miss is answered with status 404 and a
    message that quotes the word and says [in database] exactly when the
    database was searched. *)
Lemma not_found_reply_latin1 (E : ErrorPage) (self_path : str) :
  let word := requested_word self_path in
  word <> [] -> is_latin1 word = true ->
  (forall fs, path_exists fs (word ++ lit ".json.deflate") = false ->
     CORSRequestHandler.do_GET None fs self_path fresh
     = (Ok tt, {| headers_buffer := [];
                  wfile := error_reply [] 404 (CORSRequestHandler.not_found word);
                  accesses := [Exists (word ++ lit ".json.deflate")] |}))
  /\ (forall conn fs, select_json_data conn word = Ok None ->
     CORSRequestHandler.do_GET (Some conn) fs self_path fresh
     = (Ok tt, {| headers_buffer := [];
                  wfile := error_reply [] 404
                             (CORSRequestHandler.not_found_in_database word);
                  accesses := [Query word] |})).
Proof.
  intros word Hw L. split.
  - intros fs X. rewrite (do_GET_without_connection fs self_path Hw). fold word.
    unfold CORSRequestHandler.serve_from_files, bind at 1, os_path_exists.
    rewrite X.
    now rewrite send_error_run by (rewrite ?is_latin1_not_found; auto).
  - intros conn fs S. rewrite (do_GET_with_connection conn fs self_path Hw).
    fold word. unfold CORSRequestHandler.serve_from_database.
    unfold try_except, bind at 1, fetch_json_data. rewrite S.
    now rewrite send_error_run by (rewrite ?is_latin1_not_found_in_database; auto).
Qed.

(** For a word outside Latin-1 the status line of the 404 reply cannot be
    encoded: from the files nothing is sent and the handler raises; from the
    database the exception is caught and a 500 is sent. *)
Lemma not_found_reply_wide (E : ErrorPage) (self_path : str) :
  let word := requested_word self_path in
  is_latin1 word = false ->
  (forall fs, path_exists fs (word ++ lit ".json.deflate") = false ->
     exists e s, CORSRequestHandler.do_GET None fs self_path fresh = (Raise e, s)
                 /\ exn_cls e = UnicodeEncodeError /\ wfile s = [])
  /\ (forall conn fs, select_json_data conn word = Ok None ->
     status_codes
       (wfile (snd (CORSRequestHandler.do_GET (Some conn) fs self_path fresh)))
     = [500]).
Proof.
  intros word L.
  assert (Hw : word <> []) by (intros W; now rewrite W in L).
  split.
  - intros fs X. rewrite (do_GET_without_connection fs self_path Hw). fold word.
    unfold CORSRequestHandler.serve_from_files, bind at 1, os_path_exists.
    rewrite X.
    destruct (send_error_wide 404 (CORSRequestHandler.not_found word)
                (record_access (Exists (word ++ lit ".json.deflate")) fresh))
      as (e & Q & C & _); [now rewrite is_latin1_not_found|].
    exists e. eexists. split; [exact Q|]. now split.
  - intros conn fs S. rewrite (do_GET_with_connection conn fs self_path Hw).
    fold word. unfold CORSRequestHandler.serve_from_database.
    unfold try_except, bind at 1, fetch_json_data. rewrite S.
    destruct (send_error_wide 404 (CORSRequestHandler.not_found_in_database word)
                (record_access (Query word) fresh)) as (e & Q & _ & T);
      [now rewrite is_latin1_not_found_in_database|].
    rewrite Q.
    rewrite send_error_run
      by (rewrite ?is_latin1_app, ?is_latin1_lit, ?T; reflexivity).
    cbn [snd wfile fresh app record_access headers_buffer].
    apply status_codes_error_reply.
Qed.

(** C3 at the request [GET /%E3%81%82.json.deflate], whose word is the one
    character U+3042, absent from the active backend: from the files the
    handler raises [UnicodeEncodeError] and nothing is sent; from the
    database the status sent is 500.  No 404 in either case. *)
Theorem not_found_reply_fails_on_wide_word (E : ErrorPage) :
  let self_path := lit "/%E3%81%82.json.deflate" in
  requested_word self_path = [0x3042]
  /\ (exists e s,
        CORSRequestHandler.do_GET None empty_directory self_path fresh
        = (Raise e, s)
        /\ exn_cls e = UnicodeEncodeError /\ wfile s = [])
  /\ status_codes
       (wfile (snd (CORSRequestHandler.do_GET (Some empty_database)
                      empty_directory self_path fresh)))
     = [500].
Proof.
  intros self_path.
  destruct (not_found_reply_wide E self_path eq_refl) as [F D].
  split; [reflexivity|]. split.
  - now apply F.
  - now apply D.
Qed.

(** C9 at the request [GET /%E3%81%82.json.deflate], whose word is the one
    character U+3042, without a database connection.  When the file does
    not exist, the handler raises [UnicodeEncodeError] after the existence
    test and sends nothing: no 404.  When the file exists and the read
    raises with a text that names the file, the handler raises
    [UnicodeEncodeError] after the read and sends nothing: no 500. *)
Theorem file_lookup_fails_on_wide_word (E : ErrorPage) :
  let self_path := lit "/%E3%81%82.json.deflate" in
  let file_path := [0x3042] ++ lit ".json.deflate" in
  let unreadable :=
    {| path_exists := fun p => str_eqb p file_path;
       read_file := fun _ =>
         Raise (Exn OSError (lit "[Errno 13] Permission denied: '"
                             ++ file_path ++ lit "'")) |} in
  requested_word self_path = [0x3042]
  /\ CORSRequestHandler.do_GET None empty_directory self_path fresh
     = (Raise (Exn UnicodeEncodeError
                 (lit "'latin-1' codec can't encode character '\u3042' in position 19: ordinal not in range(256)")),
        {| headers_buffer := []; wfile := [];
           accesses := [Exists file_path] |})
  /\ CORSRequestHandler.do_GET None unreadable self_path fresh
     = (Raise (Exn UnicodeEncodeError
                 (lit "'latin-1' codec can't encode character '\u3042' in position 61: ordinal not in range(256)")),
        {| headers_buffer := []; wfile := [];
           accesses := [Exists file_path; Read file_path] |}).
Proof. cbv zeta. split; [|split]; vm_compute; reflexivity. Qed.

(** C10 at the request [GET /%E3%81%82.json.deflate] with a database
    connection: the database has no row for the word and the file
    [<word>.json.deflate] exists.  The one access is the query, the file is
    not consulted, and the reply is the 500 error that reports the failed
    encoding of the 404 status line: no 404. *)
Theorem database_miss_fails_on_wide_word (E : ErrorPage) :
  let self_path := lit "/%E3%81%82.json.deflate" in
  let file_path := [0x3042] ++ lit ".json.deflate" in
  let fs := single_file file_path [120; 156; 3; 0] in
  let reply :=
    CORSRequestHandler.do_GET (Some empty_database) fs self_path fresh in
  requested_word self_path = [0x3042]
  /\ select_json_data empty_database [0x3042] = Ok None
  /\ path_exists fs file_path = true
  /\ reply
     = (Ok tt,
        {| headers_buffer := [];
           wfile :=
             error_reply [] 500
               (lit "Database error: 'latin-1' codec can't encode character '\u3042' in position 19: ordinal not in range(256)");
           accesses := [Query [0x3042]] |})
  /\ status_codes (wfile (snd reply)) = [500].
Proof.
  cbv zeta.
  assert (R : CORSRequestHandler.do_GET (Some empty_database)
                (single_file ([0x3042] ++ lit ".json.deflate") [120; 156; 3; 0])
                (lit "/%E3%81%82.json.deflate") fresh
              = (Ok tt,
                 {| headers_buffer := [];
                    wfile :=
                      error_reply [] 500
                        (lit "Database error: 'latin-1' codec can't encode character '\u3042' in position 19: ordinal not in range(256)");
                    accesses := [Query [0x3042]] |})).
  { rewrite do_GET_with_connection by (vm_compute; discriminate).
    change (requested_word (lit "/%E3%81%82.json.deflate")) with [0x3042].
    rewrite (database_miss_run empty_database [0x3042] fresh eq_refl).
    unfold try_except.
    destruct (send_error_wide 404 (CORSRequestHandler.not_found_in_database [0x3042])
                (record_access (Query [0x3042]) fresh) eq_refl) as (e & Q & _).
    assert (Q' := Q). vm_compute in Q'. injection Q' as <-.
    rewrite Q. now rewrite send_error_run by reflexivity. }
  split; [reflexivity|]. split; [reflexivity|]. split; [reflexivity|].
  split; [exact R|]. rewrite R. apply status_codes_error_reply.
Qed.

(** ** The port allocator *)

Lemma py_range_cons (a b : Z) :
  (a < b)%Z -> py_range a b = a :: py_range (a + 1) b.
Proof.
  intros Hab. unfold py_range.
  replace (Z.to_nat (b - a)) with (S (Z.to_nat (b - (a + 1)))) by lia.
  cbn [seq List.map]. f_equal; [lia|].
  rewrite <- seq_shift, map_map. apply map_ext. intros i. lia.
Qed.

Lemma py_range_nil (a b : Z) : (b <= a)%Z -> py_range a b = [].
Proof.
  intros Hab. unfold py_range.
  now replace (Z.to_nat (b - a)) with O by lia.
Qed.

Lemma In_py_range (a b q : Z) : In q (py_range a b) <-> (a <= q < b)%Z.
Proof.
  unfold py_range. rewrite in_map_iff. split.
  - intros (i & <- & Hi). apply in_seq in Hi. lia.
  - intros Hq. exists (Z.to_nat (q - a)). split; [lia|].
    apply in_seq. lia.
Qed.

Section Probing.

Variable h : Host.
Variable exhausted : exn.

Lemma probe_ports_all_taken (ports : list Z) :
  forall tr, (forall q, In q ports -> taken h q) ->
  probe_ports h ports exhausted tr
  = (Raise exhausted, tr ++ List.map Probe ports).
Proof.
  induction ports as [|p ports IH]; intros tr T; cbn [probe_ports List.map].
  - unfold raise. now rewrite app_nil_r.
  - destruct (T p (or_introl eq_refl)) as (e & B & O).
    unfold bind, emit. rewrite B, O.
    rewrite IH by (intros q Hq; apply T; now right).
    now rewrite <- app_assoc.
Qed.

Lemma probe_ports_first_free (p b : Z) (n : nat) :
  forall a tr, Z.to_nat (p - a) = n -> (a <= p < b)%Z ->
  (forall q, (a <= q < p)%Z -> taken h q) -> free h p ->
  probe_ports h (py_range a b) exhausted tr
  = (Ok p, tr ++ List.map Probe (py_range a (p + 1))).
Proof.
  induction n as [|n IH]; intros a tr Hn Hap T F.
  - assert (a = p) by lia. subst a.
    rewrite (py_range_cons p b), (py_range_cons p (p + 1)) by lia.
    rewrite (py_range_nil (p + 1) (p + 1)) by lia.
    cbn [probe_ports List.map]. unfold bind, emit, ret. now rewrite F.
  - rewrite (py_range_cons a b), (py_range_cons a (p + 1)) by lia.
    cbn [probe_ports List.map].
    destruct (T a ltac:(lia)) as (e & B & O).
    unfold bind, emit. rewrite B, O.
    rewrite (IH (a + 1)%Z) by (try assumption; try lia; intros; apply T; lia).
    now rewrite <- app_assoc.
Qed.

End Probing.

(** C5: [find_available_port(start_port, max_attempts)] probes the ports
    [start_port], [start_port + 1], ... in this order; it returns the first
    one that binds, having probed it and the taken ports before it and no
    other; if every port up to [start_port + max_attempts - 1] is taken it
    probes them all and raises the [RuntimeError] that no port is
    available.  With 8000..8004 taken and 8005 free,
    [find_available_port(8000, 100)] returns 8005. *)
Theorem find_available_port_scan (h : Host) (start_port max_attempts : Z) :
  (forall p, (start_port <= p < start_port + max_attempts)%Z ->
     free h p -> (forall q, (start_port <= q < p)%Z -> taken h q) ->
     find_available_port h start_port max_attempts []
     = (Ok p, List.map Probe (py_range start_port (p + 1))))
  /\ ((forall q, (start_port <= q < start_port + max_attempts)%Z -> taken h q) ->
      find_available_port h start_port max_attempts []
      = (Raise (no_port_available start_port max_attempts),
         List.map Probe (py_range start_port (start_port + max_attempts))))
  /\ ((forall q, (8000 <= q <= 8004)%Z -> taken h q) -> free h 8005%Z ->
      find_available_port h 8000 100 []
      = (Ok 8005%Z,
         List.map Probe [8000; 8001; 8002; 8003; 8004; 8005]%Z)).
Proof.
  unfold find_available_port. split; [|split].
  - intros p Hp F T.
    now rewrite (probe_ports_first_free h _ p _ (Z.to_nat (p - start_port))).
  - intros T. rewrite probe_ports_all_taken; [reflexivity|].
    intros q Hq. apply T. now apply In_py_range.
  - intros T F.
    rewrite (probe_ports_first_free h _ 8005%Z _ 5%nat);
      [reflexivity|reflexivity|lia| |exact F].
    intros q Hq. apply T. lia.
Qed.

Lemma find_available_port_scan_witness :
  find_available_port (busy_below 8005) 8000 100 []
  = (Ok 8005%Z, List.map Probe [8000; 8001; 8002; 8003; 8004; 8005]%Z).
Proof.
  apply (find_available_port_scan (busy_below 8005) 8000 100).
  - intros q Hq. exists address_in_use. split; [|reflexivity].
    cbn [probe_bind busy_below].
    destruct (Z.ltb_spec q 8005); [reflexivity|lia].
  - reflexivity.
Defined.

(** ** Startup *)

Section Appends.

Lemma appends_ret {A} (a : A) : appends (ret a).
Proof. intros tr. unfold ret. cbn. now rewrite app_nil_r. Qed.

Lemma appends_raise {A} (e : exn) : appends (@raise (list event) A e).
Proof. intros tr. unfold raise. cbn. now rewrite app_nil_r. Qed.

Lemma appends_lift {A} (r : result A) : appends (lift r).
Proof. intros tr. unfold lift. cbn. now rewrite app_nil_r. Qed.

Lemma appends_emit (e : event) : appends (emit e).
Proof. intros tr. reflexivity. Qed.

Lemma appends_bind {A B} (m : PM A) (k : A -> PM B) :
  appends m -> (forall a, appends (k a)) -> appends (bind m k).
Proof.
  intros Hm Hk tr. unfold bind. rewrite (Hm tr).
  destruct (m []) as [[a|e] x]; cbn [fst snd].
  - rewrite (Hk a (tr ++ x)), (Hk a x). cbn [fst snd].
    now rewrite app_assoc.
  - reflexivity.
Qed.

Lemma appends_try {A} (m : PM A) (k : exn -> PM A) :
  appends m -> (forall e, appends (k e)) -> appends (try_except m k).
Proof.
  intros Hm Hk tr. unfold try_except. rewrite (Hm tr).
  destruct (m []) as [[a|e] x]; cbn [fst snd].
  - reflexivity.
  - rewrite (Hk e (tr ++ x)), (Hk e x). cbn [fst snd].
    now rewrite app_assoc.
Qed.

Lemma appends_probe_ports (h : Host) (exhausted : exn) (ports : list Z) :
  appends (probe_ports h ports exhausted).
Proof.
  induction ports as [|p ports IH]; cbn [probe_ports].
  - apply appends_raise.
  - apply appends_bind; [apply appends_emit|]. intros _.
    destruct (probe_bind h p) as [u|e]; [apply appends_ret|].
    destruct (is_OSError e); [exact IH|apply appends_raise].
Qed.

Lemma appends_start_server (h : Host) (db : option Connection) :
  appends (start_server h db).
Proof.
  unfold start_server, find_available_port.
  repeat first
    [ apply appends_emit | apply appends_lift | apply appends_probe_ports
    | apply appends_bind; [|intros ?] ].
Qed.

End Appends.

(** Opening the database never raises; it only prints. *)
Lemma open_database_run (st : Storage) (tr : list event) :
  exists db logs,
    open_database st tr = (Ok db, tr ++ List.map Print logs)
    /\ logs <> []
    /\ Forall is_preparation (List.map Print logs)
    /\ (db = None <->
        db_file_exists st = false
        \/ (exists e, sqlite_connect st = Raise e)
        \/ (exists conn e, sqlite_connect st = Ok conn
                           /\ select_count conn = Raise e))
    /\ (db = None ->
        db_file_exists st = false /\ logs = [LogNoDatabase]
        \/ db_file_exists st = true
           /\ exists e, logs = [LogFailedToOpen e; LogFallingBack]).
Proof.
  unfold open_database. destruct (db_file_exists st) eqn:X.
  - unfold try_except, bind, lift, emit, ret.
    destruct (sqlite_connect st) as [conn|e].
    + destruct (select_count conn) as [count|e] eqn:C.
      * exists (Some conn), [LogUsingSqlite count].
        split; [reflexivity|]. split; [discriminate|].
        split; [repeat constructor|]. split; [|discriminate].
        split; [discriminate|].
        intros [D|[(e & D)|(conn' & e & [= <-] & D)]]; congruence.
      * exists None, [LogFailedToOpen e; LogFallingBack].
        split; [now rewrite <- app_assoc|]. split; [discriminate|].
        split; [repeat constructor|]. split; [|intros _; right; eauto].
        split; [|reflexivity]. intros _. right. right. eauto.
    + exists None, [LogFailedToOpen e; LogFallingBack].
      split; [now rewrite <- app_assoc|]. split; [discriminate|].
      split; [repeat constructor|]. split; [|intros _; right; eauto].
      split; [|reflexivity]. intros _. right. left. eauto.
  - exists None, [LogNoDatabase]. unfold bind, emit, ret.
    split; [reflexivity|]. split; [discriminate|].
    split; [repeat constructor|]. split; [|intros _; now left].
    split; [|reflexivity]. intros _. now left.
Qed.

Lemma probe_ports_trace (h : Host) (exhausted : exn) (ports : list Z) :
  exists probed,
    snd (probe_ports h ports exhausted []) = List.map Probe probed
    /\ forall p, fst (probe_ports h ports exhausted []) = Ok p ->
                 exists before, probed = before ++ [p].
Proof.
  induction ports as [|q ports IH]; cbn [probe_ports].
  - exists []. split; [reflexivity|]. discriminate.
  - unfold bind, emit. cbn [app].
    destruct (probe_bind h q) as [u|e].
    + exists [q]. split; [reflexivity|]. intros p [= <-]. now exists [].
    + destruct (is_OSError e).
      * rewrite (appends_probe_ports h exhausted ports [Probe q]).
        destruct IH as (probed & T & L). exists (q :: probed). cbn [fst snd].
        split; [now rewrite T|].
        intros p Hp. destruct (L p Hp) as (before & ->). now exists (q :: before).
      * exists [q]. split; [reflexivity|]. discriminate.
Qed.

Lemma Forall_is_preparation_probes (probed : list Z) :
  Forall is_preparation (List.map Probe probed).
Proof. apply Forall_map. apply Forall_forall. intros; exact I. Qed.

(** The trace of [start_server]: probes, then nothing more, or the file
    written, or the file written and then the socket bound, readiness
    announced and the server started. *)
Lemma start_server_trace (h : Host) (db : option Connection) :
  exists probed,
    snd (start_server h db []) = List.map Probe probed
    \/ exists before port,
         probed = before ++ [port]
         /\ (snd (start_server h db [])
             = List.map Probe before
               ++ [Probe port; WritePortFile (str_of_Z port); FlushStdout]
             /\ (exists e, fst (start_server h db []) = Raise e)
             \/ start_server h db []
                = (Ok tt,
                   List.map Probe before
                   ++ [Probe port; WritePortFile (str_of_Z port); FlushStdout;
                       ServerBind port; Print (LogReady port);
                       ServeForever db port])).
Proof.
  unfold start_server, find_available_port.
  set (ports := py_range 8000 (8000 + 100)).
  set (ex := no_port_available 8000 100).
  destruct (probe_ports_trace h ex ports) as (probed & T & L).
  exists probed. unfold bind, lift, emit.
  destruct (probe_ports h ports ex []) as [[port|e] tr]; cbn [fst snd] in *.
  - destruct (L port eq_refl) as (before & ->). subst tr.
    destruct (write_port_file h (str_of_Z port)) as [u|e]; [|now left].
    right. exists before, port. split; [reflexivity|].
    rewrite map_app. cbn [List.map].
    destruct (server_bind h port) as [u'|e]; cbn [fst snd].
    + right. now rewrite <- !app_assoc.
    + left. split; [now rewrite <- !app_assoc|eauto].
  - now left.
Qed.

Lemma start_server_first_port (h : Host) (db : option Connection) :
  free h 8000%Z -> write_port_file h (lit "8000") = Ok tt ->
  server_bind h 8000%Z = Ok tt ->
  start_server h db []
  = (Ok tt, [Probe 8000; WritePortFile (lit "8000"); FlushStdout;
             ServerBind 8000; Print (LogReady 8000); ServeForever db 8000]%Z).
Proof.
  intros F Wr B. unfold start_server, find_available_port, bind at 1.
  rewrite (probe_ports_first_free h _ 8000%Z _ 0%nat) by (try lia; auto).
  change (str_of_Z 8000) with (lit "8000").
  unfold bind, lift, emit. now rewrite Wr, B.
Qed.

(** C1, as stated, fails: the discovery file is written before the
    listening socket is bound.  On a host where everything succeeds the
    write comes first in the trace; on a host where the bind then fails the
    file has been written for a port the server never listens on. *)
Lemma port_file_written_before_bind :
  main {| storage := no_database; host := free_host |} []
  = (Ok tt, [Print LogNoDatabase; Probe 8000; WritePortFile (lit "8000");
             FlushStdout; ServerBind 8000; Print (LogReady 8000);
             ServeForever None 8000]%Z)
  /\ precedes (WritePortFile (lit "8000")) (ServerBind 8000)
       (snd (main {| storage := no_database; host := free_host |} []))
  /\ main {| storage := no_database; host := racing_host |} []
     = (Raise address_in_use,
        [Print LogNoDatabase; Probe 8000; WritePortFile (lit "8000");
         FlushStdout]%Z).
Proof.
  split; [reflexivity|]. split; [|reflexivity].
  exists [Print LogNoDatabase; Probe 8000%Z], [FlushStdout],
         [Print (LogReady 8000); ServeForever None 8000%Z].
  reflexivity.
Qed.

(** C1, amended: the discovery file, holding the decimal port number, is
    written right after a probe found the port free and before the
    listening socket is bound; the ready line is printed only after both the
    write and the bind have completed.  Every startup trace is log lines
    about the database and probes, followed by nothing (no port, or the
    write failed), or by the write alone (the bind failed), or by the write,
    the bind, the ready line and the serving loop, in this order. *)
Theorem startup_order (w : World) :
  exists before,
    Forall is_preparation before
    /\ (snd (main w []) = before
        \/ exists port,
             (snd (main w [])
              = before ++ [Probe port; WritePortFile (str_of_Z port); FlushStdout]
              /\ exists e, fst (main w []) = Raise e)
             \/ exists db,
                  main w []
                  = (Ok tt,
                     before ++ [Probe port; WritePortFile (str_of_Z port);
                                FlushStdout; ServerBind port;
                                Print (LogReady port); ServeForever db port])).
Proof.
  destruct (open_database_run (storage w) []) as (db & logs & O & _ & Q & _).
  unfold main, bind. rewrite O. cbn [app] in *.
  rewrite (appends_start_server (host w) db (List.map Print logs)).
  destruct (start_server_trace (host w) db)
    as (probed & [T | (before & port & -> & [(T & e & R) | T])]).
  - exists (List.map Print logs ++ List.map Probe probed). split.
    + apply Forall_app. split; [exact Q|apply Forall_is_preparation_probes].
    + left. cbn [snd]. now rewrite T.
  - exists (List.map Print logs ++ List.map Probe before). split.
    + apply Forall_app. split; [exact Q|apply Forall_is_preparation_probes].
    + right. exists port. left. cbn [fst snd]. rewrite T, R, <- app_assoc.
      split; [reflexivity|eauto].
  - exists (List.map Print logs ++ List.map Probe before). split.
    + apply Forall_app. split; [exact Q|apply Forall_is_preparation_probes].
    + right. exists port. right. exists db. now rewrite T, <- app_assoc.
Qed.

(** C6: if the database file is absent, or [sqlite3.connect] raises, or
    counting the entries raises, then opening the database raises nothing:
    it prints (for a failure, the exception and the fall-back notice) and
    leaves [db_connection] at [None].  Startup goes on exactly as
    [start_server] does without a connection, so it fails only if that
    does; when port 8000 is free, the discovery file writable and the bind
    successful, the server ends up serving from the files. *)
Theorem database_failure_is_not_fatal (w : World) :
  db_file_exists (storage w) = false
  \/ (exists e, sqlite_connect (storage w) = Raise e)
  \/ (exists conn e, sqlite_connect (storage w) = Ok conn
                     /\ select_count conn = Raise e) ->
  exists logs,
    logs <> []
    /\ open_database (storage w) [] = (Ok None, List.map Print logs)
    /\ (db_file_exists (storage w) = true ->
        exists e, logs = [LogFailedToOpen e; LogFallingBack])
    /\ main w []
       = (fst (start_server (host w) None []),
          List.map Print logs ++ snd (start_server (host w) None []))
    /\ (free (host w) 8000%Z ->
        write_port_file (host w) (lit "8000") = Ok tt ->
        server_bind (host w) 8000%Z = Ok tt ->
        main w []
        = (Ok tt,
           List.map Print logs
           ++ [Probe 8000; WritePortFile (lit "8000"); FlushStdout;
               ServerBind 8000; Print (LogReady 8000);
               ServeForever None 8000]%Z)).
Proof.
  intros Hf.
  destruct (open_database_run (storage w) []) as (db & logs & O & N & _ & I & D).
  apply I in Hf. subst db. cbn [app] in O.
  assert (R : main w []
              = (fst (start_server (host w) None []),
                 List.map Print logs ++ snd (start_server (host w) None []))).
  { unfold main, bind. rewrite O. apply appends_start_server. }
  exists logs. split; [exact N|]. split; [exact O|]. split; [|split].
  - intros X. destruct (D eq_refl) as [[X' _]|[_ L]]; [congruence|exact L].
  - exact R.
  - intros F Wr B. rewrite R.
    now rewrite (start_server_first_port (host w) None F Wr B).
Qed.

Lemma database_failure_is_not_fatal_witness :
  let w := {| storage := corrupt_database; host := free_host |} in
  (exists conn e, sqlite_connect (storage w) = Ok conn
                  /\ select_count conn = Raise e)
  /\ exists logs,
       logs <> []
       /\ open_database (storage w) [] = (Ok None, List.map Print logs)
       /\ (db_file_exists (storage w) = true ->
           exists e, logs = [LogFailedToOpen e; LogFallingBack])
       /\ main w []
          = (fst (start_server (host w) None []),
             List.map Print logs ++ snd (start_server (host w) None []))
       /\ (free (host w) 8000%Z ->
           write_port_file (host w) (lit "8000") = Ok tt ->
           server_bind (host w) 8000%Z = Ok tt ->
           main w []
           = (Ok tt,
              List.map Print logs
              ++ [Probe 8000; WritePortFile (lit "8000"); FlushStdout;
                  ServerBind 8000; Print (LogReady 8000);
                  ServeForever None 8000]%Z)).
Proof.
  intros w.
  assert (Hf : exists conn e, sqlite_connect (storage w) = Ok conn
                              /\ select_count conn = Raise e).
  { eexists. eexists. split; reflexivity. }
  split; [exact Hf|].
  apply (database_failure_is_not_fatal w). right. right. exact Hf.
Defined.

(** * Further properties *)

(** ** Replies from the database *)

(** X1: with a database connection, a word whose row holds a blob is
    answered 200 with [Content-Type: application/octet-stream],
    [Content-Length] the number of bytes of the blob, the four headers, and
    the blob itself as the body; the one access made is the query. *)
Theorem database_blob_is_served (E : ErrorPage) (conn : Connection)
        (fs : FileSystem) (self_path : str) (data : bytes) :
  let word := requested_word self_path in
  word <> [] ->
  select_json_data conn word = Ok (Some (SqlBlob data)) ->
  CORSRequestHandler.do_GET (Some conn) fs self_path fresh
  = (Ok tt,
     {| headers_buffer := [];
        wfile :=
          [Head [StatusLine 200 (lit "OK"); ServerLine; DateLine;
                 HeaderLine (lit "Content-Type") (lit "application/octet-stream");
                 HeaderLine (lit "Content-Length")
                            (str_of_N (N.of_nat (List.length data)));
                 CORSRequestHandler.ALLOW_ORIGIN;
                 CORSRequestHandler.ALLOW_METHODS;
                 CORSRequestHandler.ALLOW_HEADERS;
                 CORSRequestHandler.CACHE_CONTROL;
                 BlankLine];
           Body data];
        accesses := [Query word] |}).
Proof.
  intros word Hw S.
  rewrite (do_GET_with_connection conn fs self_path Hw). fold word.
  now rewrite (database_blob_run conn word fresh data S).
Qed.

Lemma database_blob_is_served_witness :
  let conn := database_of [(lit "xyz", SqlBlob [1; 2]); (lit "abc", SqlBlob [120; 156; 3])] in
  status_codes
    (wfile (snd (@CORSRequestHandler.do_GET bare_error_page (Some conn)
                   empty_directory (lit "/abc.json.deflate") fresh))) = [200]
  /\ accesses (snd (@CORSRequestHandler.do_GET bare_error_page (Some conn)
                      empty_directory (lit "/abc.json.deflate") fresh))
     = [Query (lit "abc")].
Proof.
  intros conn.
  rewrite (database_blob_is_served bare_error_page conn empty_directory
             (lit "/abc.json.deflate") [120; 156; 3]).
  - split; reflexivity.
  - vm_compute. discriminate.
  - reflexivity.
Defined.

(** X2: when the query raises, the handler answers with the 500 error whose
    message is [Database error: ] followed by the exception's text.  If that
    text is within Latin-1 the reply is exactly that error reply; if not,
    the handler raises [UnicodeEncodeError] and nothing is sent. *)
Theorem database_failure_is_500 (E : ErrorPage) (conn : Connection)
        (fs : FileSystem) (self_path : str) (e : exn) :
  let word := requested_word self_path in
  word <> [] ->
  select_json_data conn word = Raise e ->
  CORSRequestHandler.do_GET (Some conn) fs self_path fresh
  = send_error 500 (lit "Database error: " ++ exn_str e)
      (record_access (Query word) fresh)
  /\ (is_latin1 (exn_str e) = true ->
      CORSRequestHandler.do_GET (Some conn) fs self_path fresh
      = (Ok tt, {| headers_buffer := [];
                   wfile := error_reply [] 500 (lit "Database error: " ++ exn_str e);
                   accesses := [Query word] |}))
  /\ (is_latin1 (exn_str e) = false ->
      exists e' s',
        CORSRequestHandler.do_GET (Some conn) fs self_path fresh = (Raise e', s')
        /\ exn_cls e' = UnicodeEncodeError /\ wfile s' = []).
Proof.
  intros word Hw S.
  rewrite (do_GET_with_connection conn fs self_path Hw). fold word.
  rewrite (database_error_run conn word fresh e S).
  split; [reflexivity|]. split; intros L.
  - now rewrite send_error_run by (rewrite ?is_latin1_database_error; auto).
  - destruct (send_error_wide 500 (lit "Database error: " ++ exn_str e)
                (record_access (Query word) fresh))
      as (e' & Q & C & _); [now rewrite is_latin1_database_error|].
    exists e'. eexists. split; [exact Q|]. now split.
Qed.

Lemma database_failure_is_500_witness :
  let conn := {| select_json_data := fun _ =>
                   Raise (Exn SqliteError (lit "no such table: entries"));
                 select_count := Ok 0%Z |} in
  status_codes
    (wfile (snd (@CORSRequestHandler.do_GET bare_error_page (Some conn)
                   empty_directory (lit "/abc") fresh))) = [500].
Proof.
  intros conn.
  destruct (database_failure_is_500 bare_error_page conn empty_directory
              (lit "/abc") (Exn SqliteError (lit "no such table: entries")))
    as (_ & R & _); [vm_compute; discriminate|reflexivity|].
  now rewrite R by reflexivity.
Defined.

(** X3: for a non-empty word within Latin-1 that the active backend lacks,
    the reply is the 404 error whose message is [Word "<word>" not found]
    from the files and [Word "<word>" not found in database] from the
    database; the two messages never coincide, whatever the words. *)
Theorem miss_is_404_within_latin1 (E : ErrorPage) (self_path : str) :
  let word := requested_word self_path in
  word <> [] -> is_latin1 word = true ->
  (forall fs, path_exists fs (word ++ lit ".json.deflate") = false ->
     CORSRequestHandler.do_GET None fs self_path fresh
     = (Ok tt, {| headers_buffer := [];
                  wfile := error_reply [] 404
                             (lit "Word " ++ [DQUOTE] ++ word ++ [DQUOTE]
                              ++ lit " not found");
                  accesses := [Exists (word ++ lit ".json.deflate")] |}))
  /\ (forall conn fs, select_json_data conn word = Ok None ->
     CORSRequestHandler.do_GET (Some conn) fs self_path fresh
     = (Ok tt, {| headers_buffer := [];
                  wfile := error_reply [] 404
                             (lit "Word " ++ [DQUOTE] ++ word ++ [DQUOTE]
                              ++ lit " not found in database");
                  accesses := [Query word] |}))
  /\ (forall w w' : str,
        lit "Word " ++ [DQUOTE] ++ w ++ [DQUOTE] ++ lit " not found in database"
        <> lit "Word " ++ [DQUOTE] ++ w' ++ [DQUOTE] ++ lit " not found").
Proof.
  intros word Hw L.
  destruct (not_found_reply_latin1 E self_path Hw L) as [F D].
  split; [exact F|]. split; [exact D|]. exact not_found_messages_differ.
Qed.

Lemma miss_is_404_within_latin1_witness :
  status_codes
    (wfile (snd (@CORSRequestHandler.do_GET bare_error_page None
                   empty_directory (lit "/caf%C3%A9.json.deflate") fresh)))
  = [404]
  /\ status_codes
       (wfile (snd (@CORSRequestHandler.do_GET bare_error_page
                      (Some empty_database) empty_directory
                      (lit "/caf%C3%A9.json.deflate") fresh)))
     = [404].
Proof.
  destruct (miss_is_404_within_latin1 bare_error_page
              (lit "/caf%C3%A9.json.deflate")) as (F & D & _);
    [vm_compute; discriminate|reflexivity|].
  rewrite (F empty_directory) by reflexivity.
  rewrite (D empty_database empty_directory) by reflexivity.
  split; reflexivity.
Defined.

(** X4: a row whose [json_data] has no length ([NULL], an integer, a real)
    makes [len] raise after the 200 status line and [Content-Type] were
    buffered; the 500 error is then appended to the same buffer, so the
    client receives one head that starts with the status line [200 OK] and
    continues with the status line and headers of the 500 error, followed
    by the error page. *)
Theorem unsized_row_reply (E : ErrorPage) (conn : Connection)
        (fs : FileSystem) (self_path : str) (data : sqlval) (e : exn) :
  let word := requested_word self_path in
  word <> [] ->
  select_json_data conn word = Ok (Some data) ->
  py_len data = Raise e ->
  CORSRequestHandler.do_GET (Some conn) fs self_path fresh
  = (Ok tt,
     {| headers_buffer := [];
        wfile :=
          error_reply
            [StatusLine 200 (lit "OK"); ServerLine; DateLine;
             HeaderLine (lit "Content-Type") (lit "application/octet-stream")]
            500 (lit "Database error: " ++ exn_str e);
        accesses := [Query word] |})
  /\ status_codes
       (wfile (snd (CORSRequestHandler.do_GET (Some conn) fs self_path fresh)))
     = [200; 500].
Proof.
  intros word Hw S L.
  rewrite (do_GET_with_connection conn fs self_path Hw). fold word.
  rewrite (database_unsized_run conn word fresh data e S L).
  split; [reflexivity|].
  cbn [snd wfile fresh app headers_buffer]. unfold error_reply.
  destruct (error_body 500 _); reflexivity.
Qed.

Lemma unsized_row_reply_witness :
  let conn := database_of [(lit "abc", SqlNull)] in
  status_codes
    (wfile (snd (@CORSRequestHandler.do_GET bare_error_page (Some conn)
                   empty_directory (lit "/abc") fresh))) = [200; 500].
Proof.
  intros conn.
  apply (unsized_row_reply bare_error_page conn empty_directory (lit "/abc")
           SqlNull
           (Exn TypeError (lit "object of type 'NoneType' has no len()")));
    [vm_compute; discriminate|reflexivity|reflexivity].
Defined.

(** X5: a row whose [json_data] is text gets a complete 200 head whose
    [Content-Length] is the number of characters of the text; the write of
    the text then raises, no body follows, and a complete 500 error reply is
    sent after the 200 head on the same connection. *)
Theorem text_row_reply (E : ErrorPage) (conn : Connection)
        (fs : FileSystem) (self_path : str) (text : str) :
  let word := requested_word self_path in
  word <> [] ->
  select_json_data conn word = Ok (Some (SqlText text)) ->
  CORSRequestHandler.do_GET (Some conn) fs self_path fresh
  = (Ok tt,
     {| headers_buffer := [];
        wfile :=
          Head [StatusLine 200 (lit "OK"); ServerLine; DateLine;
                HeaderLine (lit "Content-Type") (lit "application/octet-stream");
                HeaderLine (lit "Content-Length")
                           (str_of_N (N.of_nat (List.length text)));
                CORSRequestHandler.ALLOW_ORIGIN;
                CORSRequestHandler.ALLOW_METHODS;
                CORSRequestHandler.ALLOW_HEADERS;
                CORSRequestHandler.CACHE_CONTROL;
                BlankLine]
          :: error_reply [] 500
               (lit "Database error: a bytes-like object is required, not 'str'");
        accesses := [Query word] |}).
Proof.
  intros word Hw S.
  rewrite (do_GET_with_connection conn fs self_path Hw). fold word.
  now rewrite (database_text_run conn word fresh text S).
Qed.

Lemma text_row_reply_witness :
  let conn := database_of [(lit "abc", SqlText (lit "{}"))] in
  status_codes
    (wfile (snd (@CORSRequestHandler.do_GET bare_error_page (Some conn)
                   empty_directory (lit "/abc") fresh))) = [200; 500].
Proof.
  intros conn.
  rewrite (text_row_reply bare_error_page conn empty_directory (lit "/abc")
             (lit "{}")); [reflexivity|vm_compute; discriminate|reflexivity].
Defined.

(** ** How [do_GET] ends *)

Lemma answered_send_error `{ErrorPage} (code : N) (message : str)
      (s s1 : hstate) :
  has_error_body code = true ->
  wfile s1 = wfile s -> headers_buffer s1 = headers_buffer s ->
  answered_or_silent s (send_error code message s1).
Proof.
  intros B W Hb.
  destruct (send_error_outcome code message s1 B)
    as [[_ ->] | [_ (e & -> & C & _)]]; cbn [answered_or_silent].
  - split; [reflexivity|]. cbn [wfile]. rewrite W. unfold error_reply. eauto.
  - auto.
Qed.

Lemma answered_try_404 `{ErrorPage} (message : str) (s s1 : hstate) :
  wfile s1 = wfile s -> headers_buffer s1 = headers_buffer s ->
  answered_or_silent s
    (try_except (send_error 404 message)
       (fun e => send_error 500 (lit "Database error: " ++ exn_str e)) s1).
Proof.
  intros W Hb. unfold try_except.
  destruct (send_error_outcome 404 message s1 eq_refl)
    as [[_ Q] | [_ (e & Q & _ & T)]]; rewrite Q.
  - cbn [answered_or_silent]. split; [reflexivity|]. cbn [wfile].
    rewrite W. unfold error_reply. eauto.
  - rewrite send_error_run by (rewrite ?is_latin1_database_error; auto).
    cbn [answered_or_silent]. split; [reflexivity|]. cbn [wfile].
    rewrite W. unfold error_reply. eauto.
Qed.

(** X6: whatever the backends answer, [do_GET] ends in one of two ways.
    Either it returns, and then nothing is left in the header buffer and at
    least one response head has been sent; or it raises, and then the
    exception is [UnicodeEncodeError] and nothing has been sent or
    buffered.  No other exception leaves the handler, and it never leaves a
    head half sent. *)
Theorem do_GET_answers_or_sends_nothing (E : ErrorPage)
        (db_connection : option Connection) (fs : FileSystem)
        (self_path : str) (s : hstate) :
  answered_or_silent s (CORSRequestHandler.do_GET db_connection fs self_path s).
Proof.
  unfold CORSRequestHandler.do_GET.
  destruct (requested_word self_path) as [|c w] eqn:Ew.
  - now apply answered_send_error.
  - rewrite <- Ew. clear Ew c w. set (word := requested_word self_path).
    destruct db_connection as [conn|].
    + destruct (select_json_data conn word) as [[data|]|e] eqn:S.
      * destruct data as [|z| |text|data];
          try (rewrite (database_unsized_run conn word s _ _ S eq_refl);
               cbn [answered_or_silent]; split; [reflexivity|];
               cbn [wfile]; unfold error_reply; eauto).
        -- rewrite (database_text_run conn word s text S).
           cbn [answered_or_silent]. split; [reflexivity|]. cbn [wfile].
           rewrite <- app_assoc. cbn [app]. eauto.
        -- rewrite (database_blob_run conn word s data S).
           cbn [answered_or_silent]. split; [reflexivity|]. cbn [wfile]. eauto.
      * rewrite (database_miss_run conn word s S). now apply answered_try_404.
      * rewrite (database_error_run conn word s e S).
        now apply answered_send_error.
    + destruct (path_exists fs (word ++ lit ".json.deflate")) eqn:X.
      * destruct (read_file fs (word ++ lit ".json.deflate")) as [data|e] eqn:R.
        -- rewrite (file_found_run fs word s data X R).
           cbn [answered_or_silent]. split; [reflexivity|]. cbn [wfile]. eauto.
        -- rewrite (file_unreadable_run fs word s e X R).
           now apply answered_send_error.
      * rewrite (file_missing_run fs word s X). now apply answered_send_error.
Qed.

(** ** The status codes sent *)

Lemma status_codes_app (a b : list chunk) :
  status_codes (a ++ b) = status_codes a ++ status_codes b.
Proof. apply flat_map_app. Qed.

Lemma status_codes_error_reply_after_200 `{ErrorPage} (message : str) :
  status_codes (error_reply found_head_start 500 message) = [200; 500].
Proof.
  unfold error_reply. destruct (error_body 500 message); reflexivity.
Qed.

Lemma status_codes_try_404 `{ErrorPage} (message : str) (s : hstate) :
  headers_buffer s = [] -> wfile s = [] ->
  let out :=
    status_codes
      (wfile (snd (try_except (send_error 404 message)
                     (fun e => send_error 500 (lit "Database error: " ++ exn_str e))
                     s))) in
  out = [404] \/ out = [500].
Proof.
  intros Hb W. cbv zeta. unfold try_except.
  destruct (send_error_outcome 404 message s eq_refl)
    as [[_ Q] | [_ (e & Q & _ & T)]]; rewrite Q.
  - left. cbn [snd wfile]. rewrite Hb, W. apply status_codes_error_reply.
  - right. rewrite send_error_run by (rewrite ?is_latin1_database_error; auto).
    cbn [snd wfile]. rewrite Hb, W. apply status_codes_error_reply.
Qed.

(** The status codes of a reply, by the way the lookup went. *)
Lemma do_GET_statuses (E : ErrorPage) (db_connection : option Connection)
      (fs : FileSystem) (self_path : str) :
  let word := requested_word self_path in
  let out :=
    status_codes
      (wfile (snd (CORSRequestHandler.do_GET db_connection fs self_path fresh))) in
  (word = [] /\ out = [400])
  \/ (word <> [] /\ backend_hit db_connection fs word
      /\ (out = [200] \/ out = [200; 500]))
  \/ (word <> [] /\ backend_miss db_connection fs word
      /\ (out = [404] \/ out = [500] \/ out = []))
  \/ (word <> [] /\ ~ backend_hit db_connection fs word
      /\ ~ backend_miss db_connection fs word
      /\ (out = [500] \/ out = [])).
Proof.
  cbv zeta. unfold CORSRequestHandler.do_GET.
  destruct (requested_word self_path) as [|c w] eqn:Ew.
  - left. split; [reflexivity|].
    rewrite send_error_run by (try apply is_latin1_lit; reflexivity).
    apply status_codes_error_reply.
  - right. rewrite <- Ew.
    assert (Hw : requested_word self_path <> []) by (rewrite Ew; discriminate).
    clear Ew c w. set (word := requested_word self_path) in *.
    destruct db_connection as [conn|]; cbn [backend_hit backend_miss].
    + destruct (select_json_data conn word) as [[data|]|e] eqn:S.
      * left. split; [exact Hw|]. split; [eauto|].
        destruct data as [|z| |text|data];
          try (right; rewrite (database_unsized_run conn word fresh _ _ S eq_refl);
               cbn [snd wfile fresh app headers_buffer];
               apply status_codes_error_reply_after_200).
        -- right. rewrite (database_text_run conn word fresh text S).
           cbn [snd wfile fresh headers_buffer].
           rewrite !status_codes_app, status_codes_error_reply. reflexivity.
        -- left. now rewrite (database_blob_run conn word fresh data S).
      * right. left. split; [exact Hw|]. split; [reflexivity|].
        rewrite (database_miss_run conn word fresh S).
        destruct (status_codes_try_404
                    (CORSRequestHandler.not_found_in_database word)
                    (record_access (Query word) fresh) eq_refl eq_refl)
          as [Q|Q]; rewrite Q; auto.
      * right. right. split; [exact Hw|].
        split; [intros (data & D); discriminate D|].
        split; [discriminate|].
        rewrite (database_error_run conn word fresh e S).
        now apply send_error_status.
    + destruct (path_exists fs (word ++ lit ".json.deflate")) eqn:X.
      * destruct (read_file fs (word ++ lit ".json.deflate")) as [data|e] eqn:R.
        -- left. split; [exact Hw|]. split; [eauto|]. left.
           now rewrite (file_found_run fs word fresh data X R).
        -- right. right. split; [exact Hw|].
           split; [intros (_ & data & D); discriminate D|].
           split; [discriminate|].
           rewrite (file_unreadable_run fs word fresh e X R).
           now apply send_error_status.
      * right. left. split; [exact Hw|]. split; [reflexivity|].
        rewrite (file_missing_run fs word fresh X).
        destruct (send_error_status 404 (CORSRequestHandler.not_found word)
                    (record_access (Exists (word ++ lit ".json.deflate")) fresh)
                    eq_refl eq_refl eq_refl) as [Q|Q]; rewrite Q; auto.
Qed.

(** X7: [do_GET] sends no status code other than 200, 400, 404 and 500.  It
    sends 400 exactly when the word is empty, 200 only when the active
    backend has data for the word, and 404 only when the active backend has
    none. *)
Theorem do_GET_status_codes (E : ErrorPage) (db_connection : option Connection)
        (fs : FileSystem) (self_path : str) :
  let word := requested_word self_path in
  let out :=
    status_codes
      (wfile (snd (CORSRequestHandler.do_GET db_connection fs self_path fresh))) in
  Forall (fun code => In code [200; 400; 404; 500]) out
  /\ (In 400 out <-> word = [])
  /\ (In 200 out -> word <> [] /\ backend_hit db_connection fs word)
  /\ (In 404 out -> word <> [] /\ backend_miss db_connection fs word).
Proof.
  intros word out.
  destruct (do_GET_statuses E db_connection fs self_path)
    as [(W & Q) | [(W & Hit & [Q|Q]) | [(W & Miss & [Q|[Q|Q]])
       | (W & _ & _ & [Q|Q])]]];
    fold word in W; fold word out in Q; rewrite Q; cbn [In];
    (split; [repeat constructor; cbn [In]; tauto|]);
    (split; [split; [intros F; repeat destruct F as [F|F]; try discriminate F;
                     try contradiction; try exact W
                    |intros F; try (left; reflexivity); contradiction]|]);
    (split; intros F; repeat destruct F as [F|F]; try discriminate F;
     try contradiction; auto).
Qed.

(** ** The empty word *)

Lemma utf8_decode_nonempty (b : N) (t : bytes) : utf8_decode (b :: t) <> [].
Proof.
  cbn [utf8_decode].
  repeat match goal with
         | |- context [if ?c then _ else _] => destruct c
         | |- context [match ?l with [] => _ | _ :: _ => _ end] => destruct l
         end; discriminate.
Qed.

Lemma unquote_to_bytes_nonempty (c : N) (t : str) :
  unquote_to_bytes (c :: t) <> [].
Proof.
  cbn [unquote_to_bytes].
  repeat match goal with
         | |- context [if ?c then _ else _] => destruct c
         | |- context [match ?l with [] => _ | _ :: _ => _ end] => destruct l
         | |- context [match ?o with Some _ => _ | None => _ end] => destruct o
         end; discriminate.
Qed.

Lemma unquote_run_nonempty (run : str) : run <> [] -> unquote_run run <> [].
Proof.
  destruct run as [|c t]; [congruence|]. intros _. unfold unquote_run.
  destruct (unquote_to_bytes (c :: t)) as [|b bs] eqn:U.
  - now apply unquote_to_bytes_nonempty in U.
  - apply utf8_decode_nonempty.
Qed.

Lemma unquote_parts_nonempty (s : str) :
  forall run, run ++ s <> [] -> unquote_parts run s <> [].
Proof.
  induction s as [|c s IH]; intros run Hn; cbn [unquote_parts].
  - rewrite app_nil_r in Hn. now apply unquote_run_nonempty.
  - destruct (is_ascii c).
    + apply IH. destruct run; discriminate.
    + destruct (unquote_run run); discriminate.
Qed.

Lemma unquote_nil_iff (s : str) : unquote s = [] <-> s = [].
Proof.
  split; [|now intros ->]. unfold unquote.
  destruct (contains PERCENT s); [|easy].
  intros U. destruct s as [|c t]; [reflexivity|].
  now apply unquote_parts_nonempty in U.
Qed.

Lemma lstrip_slash_nil_iff (p : str) :
  lstrip (lit "/") p = [] <-> exists n, p = repeat SLASH n.
Proof.
  split.
  - induction p as [|c p IH]; [now exists O|].
    cbn [lstrip]. change (lit "/") with [SLASH]. cbn [existsb].
    rewrite orb_false_r. destruct (N.eqb_spec c SLASH) as [->|]; [|discriminate].
    intros L. destruct (IH L) as (n & ->). now exists (S n).
  - intros (n & ->). rewrite <- (app_nil_r (repeat SLASH n)).
    apply lstrip_slashes. discriminate.
Qed.

Lemma bare_suffix (path : str) :
  endswith path SUFFIX = true -> slice_to_neg path 13 = [] -> path = SUFFIX.
Proof.
  unfold endswith, slice_to_neg. intros E F.
  apply andb_true_iff in E. destruct E as [L Q].
  apply Nat.leb_le in L. change (List.length SUFFIX) with 13%nat in *.
  destruct (List.length path - 13)%nat eqn:D.
  - cbn [skipn] in Q. unfold str_eqb in Q.
    now destruct (list_eq_dec N.eq_dec path SUFFIX).
  - destruct path; [cbn in L; lia|discriminate F].
Qed.

Lemma requested_word_nil_iff (self_path : str) :
  requested_word self_path = []
  <-> (exists n, self_path = repeat SLASH n)
      \/ unquote (lstrip (lit "/") self_path) = SUFFIX.
Proof.
  unfold requested_word. rewrite <- lstrip_slash_nil_iff.
  rewrite <- (unquote_nil_iff (lstrip (lit "/") self_path)).
  generalize (unquote (lstrip (lit "/") self_path)). intros path.
  destruct (endswith path SUFFIX) eqn:E; split.
  - intros F. right. now apply bare_suffix.
  - intros [N | S]; subst path; [discriminate E|reflexivity].
  - now left.
  - intros [N | S]; [exact N|]. subst path. discriminate E.
Qed.

Lemma status_400_iff (E : ErrorPage) (db_connection : option Connection)
      (fs : FileSystem) (self_path : str) :
  In 400 (status_codes
            (wfile (snd (CORSRequestHandler.do_GET db_connection fs self_path fresh))))
  <-> requested_word self_path = [].
Proof.
  destruct (do_GET_statuses E db_connection fs self_path)
    as [(W & Q) | [(W & _ & [Q|Q]) | [(W & _ & [Q|[Q|Q]])
       | (W & _ & _ & [Q|Q])]]];
    rewrite Q; cbn [In]; split; intros F;
    repeat destruct F as [F|F]; try discriminate F; try contradiction; auto.
Qed.

(** X8: the 400 reply is given exactly to the raw paths that consist of
    separators only (the empty path included) and to those whose remainder
    after the leading separators percent-decodes to the bare suffix
    [.json.deflate]; the same for both backends. *)
Theorem bad_request_exactly_when (E : ErrorPage)
        (db_connection : option Connection) (fs : FileSystem)
        (self_path : str) :
  In 400 (status_codes
            (wfile (snd (CORSRequestHandler.do_GET db_connection fs self_path fresh))))
  <-> (exists n, self_path = repeat SLASH n)
      \/ unquote (lstrip (lit "/") self_path) = SUFFIX.
Proof.
  rewrite status_400_iff. apply requested_word_nil_iff.
Qed.

(** ** A stored word is served *)

Lemma requested_word_quoted_suffix (safe w : str) (bs : bytes) :
  contains PERCENT safe = false -> contains SLASH safe = false ->
  utf8_encode w = Some bs ->
  requested_word (lit "/" ++ flat_map (quote_byte safe) bs ++ SUFFIX) = w.
Proof.
  intros Hp Hs E. unfold requested_word.
  change (lit "/") with (repeat SLASH 1).
  rewrite lstrip_slashes
    by (apply quote_head; [exact Hs | intros u; vm_compute; discriminate]).
  rewrite (unquote_quote_then safe w bs SUFFIX Hp E) by reflexivity.
  rewrite endswith_app. apply (slice_to_neg_app w SUFFIX).
Qed.

(** X9: data stored under a word is what a request for the encoded word
    gets.  For every non-empty word [w] that UTF-8 can encode, the request
    for [/<percent-encoded w>.json.deflate] is answered 200 with the bytes
    of the file [<w>.json.deflate] when there is no database connection
    and that file can be read, and with the blob of the row of [w] when
    there is a connection.  The word is used as it is: one that contains
    separators or [..] names a file outside the working directory, and
    that file is served. *)
Theorem stored_word_is_served (E : ErrorPage) (safe w p : str) (data : bytes) :
  contains PERCENT safe = false ->
  contains SLASH safe = false ->
  quote safe w = Some p ->
  w <> [] ->
  (forall fs,
      path_exists fs (w ++ lit ".json.deflate") = true ->
      read_file fs (w ++ lit ".json.deflate") = Ok data ->
      CORSRequestHandler.do_GET None fs (lit "/" ++ p ++ SUFFIX) fresh
      = (Ok tt, {| headers_buffer := [];
                   wfile := [Head (found_head (List.length data)); Body data];
                   accesses := [Exists (w ++ lit ".json.deflate");
                                Read (w ++ lit ".json.deflate")] |}))
  /\ (forall conn fs,
        select_json_data conn w = Ok (Some (SqlBlob data)) ->
        CORSRequestHandler.do_GET (Some conn) fs (lit "/" ++ p ++ SUFFIX) fresh
        = (Ok tt, {| headers_buffer := [];
                     wfile := [Head (found_head (List.length data)); Body data];
                     accesses := [Query w] |})).
Proof.
  intros Hp Hs Q Hw. unfold quote in Q.
  destruct (utf8_encode w) as [bs|] eqn:U; [|discriminate].
  injection Q as <-.
  pose proof (requested_word_quoted_suffix safe w bs Hp Hs U) as R.
  split.
  - intros fs X Rd.
    rewrite do_GET_without_connection by (rewrite R; exact Hw).
    rewrite R. now rewrite (file_found_run fs w fresh data X Rd).
  - intros conn fs S.
    rewrite do_GET_with_connection by (rewrite R; exact Hw).
    rewrite R. now rewrite (database_blob_run conn w fresh data S).
Qed.

Lemma stored_word_is_served_witness :
  let fs := single_file (lit "../x/y.json.deflate") [120; 156; 3; 0] in
  @CORSRequestHandler.do_GET bare_error_page None fs
    (lit "/" ++ lit "..%2Fx%2Fy" ++ SUFFIX) fresh
  = (Ok tt, {| headers_buffer := [];
               wfile := [Head (found_head 4); Body [120; 156; 3; 0]];
               accesses := [Exists (lit "../x/y.json.deflate");
                            Read (lit "../x/y.json.deflate")] |}).
Proof.
  intros fs.
  destruct (stored_word_is_served bare_error_page [] (lit "../x/y")
              (lit "..%2Fx%2Fy") [120; 156; 3; 0]) as [F _];
    [reflexivity|reflexivity|vm_compute; reflexivity|vm_compute; discriminate|].
  rewrite (F fs) by (vm_compute; reflexivity).
  vm_compute. reflexivity.
Defined.

(** ** What [find_available_port] returns *)

Lemma taken_from (h : Host) (a p : Z) (e : exn) :
  probe_bind h a = Raise e -> is_OSError e = true ->
  (forall q, (a + 1 <= q < p)%Z -> taken h q) ->
  forall q, (a <= q < p)%Z -> taken h q.
Proof.
  intros B O T q Hq. destruct (Z.eq_dec q a) as [->|].
  - now exists e.
  - apply T. lia.
Qed.

Lemma probe_ports_outcome (h : Host) (exhausted : exn) (b : Z) (n : nat) :
  forall a tr, Z.to_nat (b - a) = n ->
  match probe_ports h (py_range a b) exhausted tr with
  | (Ok p, tr') =>
    (a <= p < b)%Z /\ free h p
    /\ (forall q, (a <= q < p)%Z -> taken h q)
    /\ tr' = tr ++ List.map Probe (py_range a (p + 1))
  | (Raise e, tr') =>
    (e = exhausted
     /\ (forall q, (a <= q < b)%Z -> taken h q)
     /\ tr' = tr ++ List.map Probe (py_range a b))
    \/ (exists p, (a <= p < b)%Z /\ probe_bind h p = Raise e
                  /\ is_OSError e = false
                  /\ (forall q, (a <= q < p)%Z -> taken h q)
                  /\ tr' = tr ++ List.map Probe (py_range a (p + 1)))
  end.
Proof.
  induction n as [|n IH]; intros a tr Hn.
  - rewrite py_range_nil by lia. cbn [probe_ports List.map]. unfold raise.
    left. split; [reflexivity|]. split; [intros; lia|]. now rewrite app_nil_r.
  - rewrite (py_range_cons a b) by lia. cbn [probe_ports].
    unfold bind, emit. destruct (probe_bind h a) as [[]|e] eqn:B.
    + unfold ret. split; [lia|]. split; [exact B|]. split; [intros; lia|].
      rewrite (py_range_cons a (a + 1)), (py_range_nil (a + 1) (a + 1)) by lia.
      reflexivity.
    + destruct (is_OSError e) eqn:O.
      * specialize (IH (a + 1)%Z (tr ++ [Probe a]) ltac:(lia)).
        destruct (probe_ports h (py_range (a + 1) b) exhausted (tr ++ [Probe a]))
          as [[p|e'] tr'].
        -- destruct IH as (R & F & T & Q). split; [lia|]. split; [exact F|].
           split; [now apply (taken_from h a p e)|].
           rewrite (py_range_cons a (p + 1)) by lia. cbn [List.map].
           now rewrite Q, <- app_assoc.
        -- destruct IH as [(-> & T & Q) | (p & R & Bp & Op & T & Q)].
           ++ left. split; [reflexivity|].
              split; [now apply (taken_from h a b e)|].
              cbn [List.map]. now rewrite Q, <- app_assoc.
           ++ right. exists p. split; [lia|]. split; [exact Bp|].
              split; [exact Op|]. split; [now apply (taken_from h a p e)|].
              rewrite (py_range_cons a (p + 1)) by lia. cbn [List.map].
              now rewrite Q, <- app_assoc.
      * unfold raise. right. exists a. split; [lia|]. split; [exact B|].
        split; [exact O|]. split; [intros; lia|].
        rewrite (py_range_cons a (a + 1)), (py_range_nil (a + 1) (a + 1)) by lia.
        reflexivity.
Qed.

(** X10: whatever the host answers, [find_available_port] ends in one of
    three ways, having probed the ports from [start_port] upwards and
    stopped at the first one that is not in use.  It returns a port: then
    the port lies in the range, its bind succeeded, and every port before it
    raised [OSError].  It raises the [RuntimeError]: then every port of the
    range raised [OSError] and each was probed once.  Or it raises another
    exception: then that is what the bind of some port of the range raised,
    it is not an [OSError], and the ports after it were never probed. *)
Theorem find_available_port_outcome (h : Host) (start_port max_attempts : Z) :
  match find_available_port h start_port max_attempts [] with
  | (Ok p, tr) =>
    (start_port <= p < start_port + max_attempts)%Z /\ free h p
    /\ (forall q, (start_port <= q < p)%Z -> taken h q)
    /\ tr = List.map Probe (py_range start_port (p + 1))
  | (Raise e, tr) =>
    (e = no_port_available start_port max_attempts
     /\ (forall q, (start_port <= q < start_port + max_attempts)%Z -> taken h q)
     /\ tr = List.map Probe (py_range start_port (start_port + max_attempts)))
    \/ (exists p, (start_port <= p < start_port + max_attempts)%Z
                  /\ probe_bind h p = Raise e
                  /\ is_OSError e = false
                  /\ (forall q, (start_port <= q < p)%Z -> taken h q)
                  /\ tr = List.map Probe (py_range start_port (p + 1)))
  end.
Proof.
  unfold find_available_port.
  apply (probe_ports_outcome h _ (start_port + max_attempts)
           (Z.to_nat (start_port + max_attempts - start_port)) start_port []).
  reflexivity.
Qed.

(** ** Which startups succeed *)

Lemma start_server_run (h : Host) (db : option Connection) :
  start_server h db []
  = match find_available_port h 8000 100 [] with
    | (Ok port, tr) =>
      match write_port_file h (str_of_Z port) with
      | Ok _ =>
        match server_bind h port with
        | Ok _ =>
          (Ok tt,
           tr ++ [WritePortFile (str_of_Z port); FlushStdout; ServerBind port;
                  Print (LogReady port); ServeForever db port])
        | Raise e => (Raise e, tr ++ [WritePortFile (str_of_Z port); FlushStdout])
        end
      | Raise e => (Raise e, tr)
      end
    | (Raise e, tr) => (Raise e, tr)
    end.
Proof.
  unfold start_server, bind, lift, emit.
  destruct (find_available_port h 8000 100 []) as [[port|e] tr]; [|reflexivity].
  destruct (write_port_file h (str_of_Z port)); [|reflexivity].
  destruct (server_bind h port); now rewrite <- !app_assoc.
Qed.

Lemma main_from_start_server (w : World) :
  exists db logs,
    open_database (storage w) [] = (Ok db, List.map Print logs)
    /\ main w []
       = (fst (start_server (host w) db []),
          List.map Print logs ++ snd (start_server (host w) db [])).
Proof.
  destruct (open_database_run (storage w) []) as (db & logs & O & _).
  exists db, logs. split; [exact O|].
  unfold main, bind. rewrite O. apply appends_start_server.
Qed.

(** X11: the startup reaches the serving loop exactly when some port of
    8000..8099 is free with every port before it in use, the discovery
    file can be written and the server's own bind of that port succeeds.
    Then the discovery file holds that port in decimal, the port is the one
    bound and announced, and the trace is the log lines about the database,
    the probes of 8000 up to the port, the write, the flush, the bind, the
    ready line and the serving loop with the connection that opening the
    database left. *)
Theorem startup_succeeds_exactly_when (w : World) :
  (forall tr, main w [] = (Ok tt, tr) ->
     exists port db logs,
       (8000 <= port < 8100)%Z /\ free (host w) port
       /\ (forall q, (8000 <= q < port)%Z -> taken (host w) q)
       /\ write_port_file (host w) (str_of_Z port) = Ok tt
       /\ server_bind (host w) port = Ok tt
       /\ open_database (storage w) [] = (Ok db, List.map Print logs)
       /\ tr = List.map Print logs
               ++ List.map Probe (py_range 8000 (port + 1))
               ++ [WritePortFile (str_of_Z port); FlushStdout; ServerBind port;
                   Print (LogReady port); ServeForever db port])
  /\ (forall port,
        (8000 <= port < 8100)%Z -> free (host w) port ->
        (forall q, (8000 <= q < port)%Z -> taken (host w) q) ->
        write_port_file (host w) (str_of_Z port) = Ok tt ->
        server_bind (host w) port = Ok tt ->
        exists tr, main w [] = (Ok tt, tr)).
Proof.
  destruct (main_from_start_server w) as (db & logs & O & M).
  rewrite M, start_server_run. split.
  - intros tr.
    pose proof (probe_ports_outcome (host w) (no_port_available 8000 100)
                  (8000 + 100) 100 8000 [] eq_refl) as P.
    fold (find_available_port (host w) 8000 100) in P.
    destruct (find_available_port (host w) 8000 100 []) as [[port|e] tr0];
      [|discriminate].
    destruct P as (R & F & T & ->).
    destruct (write_port_file (host w) (str_of_Z port)) as [[]|e] eqn:Wr;
      [|discriminate].
    destruct (server_bind (host w) port) as [[]|e] eqn:B; [|discriminate].
    cbn [fst snd]. intros [= <-]. exists port, db, logs.
    change (8000 + 100)%Z with 8100%Z in R.
    repeat (split; [assumption|]). cbn [app]. reflexivity.
  - intros port R F T Wr B. unfold find_available_port.
    rewrite (probe_ports_first_free (host w) _ port _ (Z.to_nat (port - 8000)))
      by (try assumption; try reflexivity; lia).
    rewrite Wr, B. cbn [fst snd]. eauto.
Qed.

Lemma startup_succeeds_exactly_when_witness :
  exists tr,
    main {| storage := corrupt_database; host := busy_below 8003 |} []
    = (Ok tt, tr).
Proof.
  apply (startup_succeeds_exactly_when
           {| storage := corrupt_database; host := busy_below 8003 |})
    with (port := 8003%Z); try reflexivity; [lia|].
  intros q Hq. exists address_in_use. split; [|reflexivity].
  cbn [host probe_bind busy_below].
  destruct (Z.ltb_spec q 8003); [reflexivity|lia].
Defined.

(** X12: the database backend is selected exactly when the database file
    exists, [sqlite3.connect] returns a connection and counting its entries
    succeeds; the count is then the one line printed.  Whenever the startup
    reaches the serving loop, the connection it serves with is the one that
    opening the database left: nothing in between changes it. *)
Theorem database_backend_selected (w : World) :
  (forall conn count,
      open_database (storage w) [] = (Ok (Some conn), [Print (LogUsingSqlite count)])
      <-> db_file_exists (storage w) = true
          /\ sqlite_connect (storage w) = Ok conn
          /\ select_count conn = Ok count)
  /\ (forall db port,
        In (ServeForever db port) (snd (main w [])) ->
        fst (open_database (storage w) []) = Ok db).
Proof.
  split.
  - intros conn count. unfold open_database.
    destruct (db_file_exists (storage w)).
    + unfold try_except, bind, lift, emit, ret.
      destruct (sqlite_connect (storage w)) as [c|e].
      * destruct (select_count c) as [n|e] eqn:C; cbn [app]; split.
        -- intros [= <- <-]. auto.
        -- intros (_ & [= <-] & Q). rewrite C in Q. now injection Q as <-.
        -- discriminate.
        -- intros (_ & [= <-] & Q). rewrite C in Q. discriminate Q.
      * cbn [app]. split; [discriminate|]. intros (_ & Q & _). discriminate Q.
    + unfold bind, emit, ret. cbn [app].
      split; [discriminate|]. intros (Q & _). discriminate Q.
  - intros db port Hin.
    destruct (main_from_start_server w) as (db0 & logs & O & M).
    rewrite O. cbn [fst]. rewrite M in Hin. cbn [snd] in Hin.
    rewrite start_server_run in Hin.
    pose proof (probe_ports_trace (host w) (no_port_available 8000 100)
                  (py_range 8000 (8000 + 100))) as (probed & T & _).
    fold (find_available_port (host w) 8000 100) in T.
    destruct (find_available_port (host w) 8000 100 []) as [[p|e] tr0];
      cbn [fst snd] in *; subst tr0.
    + assert (Q : forall l, In (ServeForever db port)
                              (List.map Print l ++ List.map Probe probed) -> False).
      { intros l Hl. apply in_app_or in Hl.
        destruct Hl as [Hl|Hl]; apply in_map_iff in Hl;
          destruct Hl as (x & Hx & _); discriminate Hx. }
      destruct (write_port_file (host w) (str_of_Z p));
        [|now apply Q in Hin].
      destruct (server_bind (host w) p); cbn [snd] in Hin;
        rewrite app_assoc in Hin; apply in_app_or in Hin;
        (destruct Hin as [Hin|Hin]; [now apply Q in Hin|]);
        cbn [In] in Hin;
        repeat (destruct Hin as [Hin|Hin]; try discriminate Hin);
        try contradiction.
      now injection Hin as -> _.
    + exfalso. apply in_app_or in Hin.
      destruct Hin as [Hl|Hl]; apply in_map_iff in Hl;
        destruct Hl as (x & Hx & _); discriminate Hx.
Qed.

Lemma database_backend_selected_witness :
  let conn := database_of [(lit "abc", SqlBlob [1])] in
  let w := {| storage := {| db_file_exists := true; sqlite_connect := Ok conn |};
              host := free_host |} in
  In (ServeForever (Some conn) 8000) (snd (main w []))
  /\ fst (open_database (storage w) []) = Ok (Some conn).
Proof.
  intros conn w.
  assert (Hin : In (ServeForever (Some conn) 8000) (snd (main w []))).
  { vm_compute. do 6 right. left. reflexivity. }
  split; [exact Hin|].
  exact (proj2 (database_backend_selected w) (Some conn) 8000%Z Hin).
Defined.

(** X13: when every port from 8000 to 8099 is in use, the startup ends with
    the [RuntimeError] of [find_available_port] after the log lines about
    the database and one probe of each of the hundred ports: no discovery
    file is written, nothing is bound, no ready line is printed.  The
    message of the error names the range as [8000-8100]. *)
Theorem startup_without_free_port (w : World) :
  (forall q, (8000 <= q < 8100)%Z -> taken (host w) q) ->
  exists logs,
    main w []
    = (Raise (no_port_available 8000 100),
       List.map Print logs ++ List.map Probe (py_range 8000 8100))
    /\ List.length (py_range 8000 8100) = 100%nat
    /\ exn_cls (no_port_available 8000 100) = RuntimeError
    /\ exn_str (no_port_available 8000 100)
       = lit "Could not find available port in range 8000-8100".
Proof.
  intros T.
  destruct (main_from_start_server w) as (db & logs & _ & M).
  exists logs. rewrite M, start_server_run. unfold find_available_port.
  rewrite probe_ports_all_taken
    by (intros q Hq; apply T; apply In_py_range in Hq; lia).
  cbn [fst snd app]. repeat split.
Qed.

Lemma startup_without_free_port_witness :
  exists logs,
    main {| storage := no_database; host := busy_below 9000 |} []
    = (Raise (no_port_available 8000 100),
       List.map Print logs ++ List.map Probe (py_range 8000 8100))
    /\ List.length (py_range 8000 8100) = 100%nat
    /\ exn_cls (no_port_available 8000 100) = RuntimeError
    /\ exn_str (no_port_available 8000 100)
       = lit "Could not find available port in range 8000-8100".
Proof.
  apply (startup_without_free_port
           {| storage := no_database; host := busy_below 9000 |}).
  intros q Hq. exists address_in_use. split; [|reflexivity].
  cbn [host probe_bind busy_below].
  destruct (Z.ltb_spec q 9000); [reflexivity|lia].
Defined.

(** ** Shutdown *)

(** X14: after [KeyboardInterrupt] the discovery file is removed exactly
    when it still exists and [os.remove] succeeds, and the database
    connection is closed exactly when there is one, its [close] succeeds,
    and the removal of the discovery file, if attempted, did not raise: a
    failed removal leaves the connection open.  When [serve_forever] ends
    with any other exception nothing is cleaned up: the discovery file
    stays and the connection stays open. *)
Theorem shutdown_cleanup (t : Teardown) (db_connection : option Connection) :
  let tr := snd (after_serve_forever t db_connection KeyboardInterrupt []) in
  (In PortFileRemoved tr
   <-> port_file_exists t = true /\ os_remove t = Ok tt)
  /\ (forall conn,
        In (ConnectionClosed conn) tr
        <-> db_connection = Some conn
            /\ connection_close t conn = Ok tt
            /\ (port_file_exists t = true -> os_remove t = Ok tt))
  /\ (forall e,
        after_serve_forever t db_connection (ServerCrash e) [] = (Raise e, [])).
Proof.
  cbv zeta. cbn [after_serve_forever]. unfold shutdown, bind, note, lift, ret.
  split; [|split; [|reflexivity]].
  - destruct (port_file_exists t); [destruct (os_remove t) as [[]|e]|];
      destruct db_connection as [conn|];
      try destruct (connection_close t conn) as [[]|e'];
      cbn; intuition congruence.
  - intros conn.
    destruct (port_file_exists t); [destruct (os_remove t) as [[]|e]|];
      destruct db_connection as [c|];
      try destruct (connection_close t c) as [[]|e'] eqn:C;
      cbn; intuition (try congruence);
      repeat match goal with
             | H : ConnectionClosed _ = ConnectionClosed _ |- _ =>
               injection H as ->
             | H : Some _ = Some _ |- _ => injection H as ->
             end; auto; try congruence.
Qed.

(** ** Requests without a version *)


(** ** A blank line in the word *)

(** A status message with a blank line inside: the client's header section
    ends there, before any header. *)
Lemma received_headers_cut (i : Stamp) (code : N) (before after : str)
      (ls : list hline) (more : list chunk) :
  one_line before = true ->
  received_headers
    (on_the_wire i
       (Head (StatusLine code (before ++ CRLF ++ CRLF ++ after) :: ls) :: more))
  = [].
Proof.
  intros Hb.
  set (start := PROTOCOL_VERSION ++ lit " " ++ str_of_N code ++ lit " " ++ before).
  assert (W : exists w,
             on_the_wire i
               (Head (StatusLine code (before ++ CRLF ++ CRLF ++ after) :: ls) :: more)
             = (start ++ [CR]) ++ LF :: ([CR] ++ LF :: w)).
  { eexists. unfold on_the_wire. cbn [List.map List.concat octets line_octets].
    unfold start, CRLF. rewrite <- !app_assoc. cbn [app]. reflexivity. }
  destruct W as [w ->]. unfold received_headers.
  rewrite lines_terminated.
  - rewrite lines_terminated by (intros c [<-|[]]; discriminate).
    replace (startswith ((start ++ [CR]) ++ [LF]) (lit "HTTP/")) with true
      by reflexivity.
    reflexivity.
  - intros c Hc. apply in_app_or in Hc. destruct Hc as [Hc|[<-|[]]]; [|discriminate].
    apply (one_line_no_LF start); [|exact Hc].
    unfold start. now rewrite !one_line_app, one_line_str_of_N, Hb.
Qed.

Lemma not_receives_cors_nil (w : bytes) :
  received_headers w = [] -> ~ receives_cors w.
Proof.
  intros Q [before R]. rewrite Q in R. symmetry in R.
  apply app_eq_nil in R. destruct R as [_ R]. discriminate R.
Qed.

(** X16: a word within Latin-1 that holds a blank line (CR LF CR LF) and
    that the active backend lacks is answered 404 with the word written as
    it is into the status line; the head the client reads ends at that
    blank line, so the client reads no header at all, and none of the four
    headers. *)
Theorem blank_line_in_word_cuts_head (E : ErrorPage) (i : Stamp)
        (db_connection : option Connection) (fs : FileSystem)
        (self_path before after : str) :
  let word := requested_word self_path in
  let out :=
    wfile (snd (CORSRequestHandler.do_GET db_connection fs self_path fresh)) in
  word = before ++ CRLF ++ CRLF ++ after ->
  is_latin1 word = true -> one_line before = true ->
  backend_miss db_connection fs word ->
  status_codes out = [404]
  /\ received_headers (on_the_wire i out) = []
  /\ ~ receives_cors (on_the_wire i out).
Proof.
  intros word out Hw L Hb Miss.
  assert (Hn : word <> []).
  { rewrite Hw. intros Q. apply app_eq_nil in Q. destruct Q as [_ Q].
    discriminate Q. }
  destruct (not_found_reply_latin1 E self_path Hn L) as [F D].
  assert (Q : exists tail,
             out = error_reply [] 404
                     ((lit "Word " ++ [DQUOTE] ++ before) ++ CRLF ++ CRLF ++ after ++ tail)).
  { unfold out. destruct db_connection as [conn|]; cbn [backend_miss] in Miss.
    - rewrite (D conn fs Miss). cbn [snd wfile]. fold word.
      unfold CORSRequestHandler.not_found_in_database. rewrite Hw.
      eexists. rewrite <- !app_assoc. reflexivity.
    - rewrite (F fs Miss). cbn [snd wfile]. fold word.
      unfold CORSRequestHandler.not_found. rewrite Hw.
      eexists. rewrite <- !app_assoc. reflexivity. }
  destruct Q as [tail Q]. rewrite Q.
  split; [apply status_codes_error_reply|].
  assert (R : received_headers
                (on_the_wire i
                   (error_reply [] 404
                      ((lit "Word " ++ [DQUOTE] ++ before) ++ CRLF ++ CRLF ++ after ++ tail)))
              = []).
  { unfold error_reply. cbn [app]. apply received_headers_cut.
    change (one_line (lit "Word " ++ [DQUOTE] ++ before) = true).
    rewrite !one_line_app, Hb. reflexivity. }
  split; [exact R|]. now apply not_receives_cors_nil.
Qed.

Lemma blank_line_in_word_cuts_head_witness :
  let out :=
    wfile (snd (@CORSRequestHandler.do_GET bare_error_page None empty_directory
                  (lit "/%0D%0A%0D%0Ax") fresh)) in
  requested_word (lit "/%0D%0A%0D%0Ax") = CRLF ++ CRLF ++ lit "x"
  /\ status_codes out = [404]
  /\ received_headers (on_the_wire a_stamp out) = []
  /\ ~ receives_cors (on_the_wire a_stamp out).
Proof.
  intros out. split; [reflexivity|].
  apply (blank_line_in_word_cuts_head bare_error_page a_stamp None
           empty_directory (lit "/%0D%0A%0D%0Ax") [] (lit "x"));
    reflexivity.
Defined.

(** ** The file backend *)

(** X17: without a database connection the handler first tests whether
    [<word>.json.deflate] exists.  If it does not, the file is not read, and
    for a word within Latin-1 the reply is the 404 error.  If it exists and
    the read raises, no 404 status is sent: the reply is the 500 error with
    the exception's text when that text is within Latin-1, and otherwise
    the handler raises [UnicodeEncodeError] and sends nothing.  If the read
    succeeds, the reply is 200 with
    [Content-Type: application/octet-stream], [Content-Length] the number of
    bytes read, and these bytes as the body. *)
Theorem file_backend_lookup (E : ErrorPage) (fs : FileSystem)
        (self_path : str) :
  let word := requested_word self_path in
  let file_path := word ++ lit ".json.deflate" in
  let reply := CORSRequestHandler.do_GET None fs self_path fresh in
  word <> [] ->
  (path_exists fs file_path = false ->
   accesses (snd reply) = [Exists file_path]
   /\ (is_latin1 word = true ->
       reply
       = (Ok tt, {| headers_buffer := [];
                    wfile := error_reply [] 404
                               (lit "Word " ++ [DQUOTE] ++ word ++ [DQUOTE]
                                ++ lit " not found");
                    accesses := [Exists file_path] |})))
  /\ (forall e, path_exists fs file_path = true ->
        read_file fs file_path = Raise e ->
        accesses (snd reply) = [Exists file_path; Read file_path]
        /\ ~ In 404 (status_codes (wfile (snd reply)))
        /\ (is_latin1 (exn_str e) = true ->
            reply
            = (Ok tt, {| headers_buffer := [];
                         wfile := error_reply [] 500
                                    (lit "File read error: " ++ exn_str e);
                         accesses := [Exists file_path; Read file_path] |}))
        /\ (is_latin1 (exn_str e) = false ->
            exists e',
              reply
              = (Raise e', {| headers_buffer := []; wfile := [];
                              accesses := [Exists file_path; Read file_path] |})
              /\ exn_cls e' = UnicodeEncodeError))
  /\ (forall data, path_exists fs file_path = true ->
        read_file fs file_path = Ok data ->
        reply
        = (Ok tt,
           {| headers_buffer := [];
              wfile :=
                [Head [StatusLine 200 (lit "OK"); ServerLine; DateLine;
                       HeaderLine (lit "Content-Type") (lit "application/octet-stream");
                       HeaderLine (lit "Content-Length")
                                  (str_of_N (N.of_nat (List.length data)));
                       CORSRequestHandler.ALLOW_ORIGIN;
                       CORSRequestHandler.ALLOW_METHODS;
                       CORSRequestHandler.ALLOW_HEADERS;
                       CORSRequestHandler.CACHE_CONTROL;
                       BlankLine];
                 Body data];
              accesses := [Exists file_path; Read file_path] |})).
Proof.
  intros word file_path reply Hw. unfold reply.
  rewrite (do_GET_without_connection fs self_path Hw). fold word.
  split; [|split].
  - intros X. rewrite (file_missing_run fs word fresh X). fold file_path.
    split; [now rewrite send_error_accesses|].
    intros L.
    now rewrite send_error_run by (rewrite ?is_latin1_not_found; auto).
  - intros e X R. rewrite (file_unreadable_run fs word fresh e X R).
    fold file_path.
    split; [now rewrite send_error_accesses|]. split; [|split].
    + destruct (send_error_status 500 (lit "File read error: " ++ exn_str e)
                  (record_access (Read file_path)
                     (record_access (Exists file_path) fresh))
                  eq_refl eq_refl eq_refl) as [Q | Q]; rewrite Q.
      * cbn [In]. intros [C|[]]. discriminate C.
      * intros [].
    + intros L.
      now rewrite send_error_run by (rewrite ?is_latin1_file_read_error; auto).
    + intros L.
      destruct (send_error_wide 500 (lit "File read error: " ++ exn_str e)
                  (record_access (Read file_path)
                     (record_access (Exists file_path) fresh)))
        as (e' & Q & C & _); [now rewrite is_latin1_file_read_error|].
      exists e'. split; [exact Q|exact C].
  - intros data X R. now rewrite (file_found_run fs word fresh data X R).
Qed.

Lemma file_backend_lookup_witness :
  let fs := single_file (lit "abc.json.deflate") [120; 156; 3; 0] in
  requested_word (lit "/abc.json.deflate") <> []
  /\ status_codes
       (wfile (snd (@CORSRequestHandler.do_GET bare_error_page None fs
                      (lit "/abc.json.deflate") fresh))) = [200]
  /\ status_codes
       (wfile (snd (@CORSRequestHandler.do_GET bare_error_page None fs
                      (lit "/abd.json.deflate") fresh))) = [404]
  /\ accesses (snd (@CORSRequestHandler.do_GET bare_error_page None fs
                      (lit "/abd.json.deflate") fresh))
     = [Exists (lit "abd.json.deflate")].
Proof.
  intros fs. split; [vm_compute; discriminate|]. split; [|split].
  - destruct (file_backend_lookup bare_error_page fs (lit "/abc.json.deflate"))
      as (_ & _ & F); [vm_compute; discriminate|].
    now rewrite (F [120; 156; 3; 0]) by reflexivity.
  - destruct (file_backend_lookup bare_error_page fs (lit "/abd.json.deflate"))
      as (N & _ & _); [vm_compute; discriminate|].
    destruct (N eq_refl) as [_ Q]. now rewrite (Q eq_refl).
  - destruct (file_backend_lookup bare_error_page fs (lit "/abd.json.deflate"))
      as (N & _ & _); [vm_compute; discriminate|].
    now destruct (N eq_refl) as [-> _].
Defined.

(** ** One backend per request *)

(** With a connection, the one access of [do_GET] is the query for the
    word, however the lookup ends. *)
Lemma do_GET_database_accesses `{ErrorPage} (conn : Connection)
      (fs : FileSystem) (self_path : str) :
  requested_word self_path <> [] ->
  accesses (snd (CORSRequestHandler.do_GET (Some conn) fs self_path fresh))
  = [Query (requested_word self_path)].
Proof.
  intros Hw. rewrite (do_GET_with_connection conn fs self_path Hw).
  set (word := requested_word self_path).
  destruct (select_json_data conn word) as [[data|]|e] eqn:S.
  - destruct data as [|z| |text|data];
      try (now rewrite (database_unsized_run conn word fresh _ _ S eq_refl)).
    + now rewrite (database_text_run conn word fresh text S).
    + now rewrite (database_blob_run conn word fresh data S).
  - rewrite (database_miss_run conn word fresh S).
    apply (preserves_try (on_accesses (fun l => l = [Query word])));
      [apply accesses_send_error|intros e; apply accesses_send_error|reflexivity].
  - rewrite (database_error_run conn word fresh e S).
    now rewrite send_error_accesses.
Qed.

(** X18: with a database connection the reply of [do_GET] is the same
    whatever the file system holds, and the one access it makes is the
    query for the word -- no existence test, no read; without a connection
    it makes no query.  A word within Latin-1 that the database lacks is
    answered with the 404 error even when its file exists. *)
Theorem backend_dispatch_exclusive (E : ErrorPage) (conn : Connection)
        (fs : FileSystem) (self_path : str) :
  let word := requested_word self_path in
  word <> [] ->
  (forall fs',
      CORSRequestHandler.do_GET (Some conn) fs self_path
      = CORSRequestHandler.do_GET (Some conn) fs' self_path)
  /\ accesses (snd (CORSRequestHandler.do_GET (Some conn) fs self_path fresh))
     = [Query word]
  /\ only_queries (snd (CORSRequestHandler.do_GET (Some conn) fs self_path fresh))
  /\ only_file_accesses (snd (CORSRequestHandler.do_GET None fs self_path fresh))
  /\ (select_json_data conn word = Ok None ->
      path_exists fs (word ++ lit ".json.deflate") = true ->
      is_latin1 word = true ->
      CORSRequestHandler.do_GET (Some conn) fs self_path fresh
      = (Ok tt, {| headers_buffer := [];
                   wfile := error_reply [] 404
                              (lit "Word " ++ [DQUOTE] ++ word ++ [DQUOTE]
                               ++ lit " not found in database");
                   accesses := [Query word] |})).
Proof.
  intros word Hw. split; [|split; [|split; [|split]]].
  - intros fs'. now rewrite !do_GET_with_connection.
  - now apply do_GET_database_accesses.
  - apply only_queries_do_GET. constructor.
  - apply only_file_accesses_do_GET. constructor.
  - intros S _ L.
    destruct (not_found_reply_latin1 E self_path Hw L) as [_ D].
    exact (D conn fs S).
Qed.

Lemma backend_dispatch_exclusive_witness :
  let fs := single_file (lit "abc.json.deflate") [120; 156; 3; 0] in
  let conn := database_of [(lit "xyz", SqlBlob [1; 2])] in
  requested_word (lit "/abc.json.deflate") <> []
  /\ only_queries
       (snd (@CORSRequestHandler.do_GET bare_error_page (Some conn) fs
               (lit "/abc.json.deflate") fresh))
  /\ status_codes
       (wfile (snd (@CORSRequestHandler.do_GET bare_error_page (Some conn) fs
                      (lit "/abc.json.deflate") fresh))) = [404]
  /\ status_codes
       (wfile (snd (@CORSRequestHandler.do_GET bare_error_page None fs
                      (lit "/abc.json.deflate") fresh))) = [200].
Proof.
  intros fs conn. split; [vm_compute; discriminate|].
  destruct (backend_dispatch_exclusive bare_error_page conn fs
              (lit "/abc.json.deflate")) as (_ & _ & Q & _ & M);
    [vm_compute; discriminate|].
  split; [exact Q|]. split.
  - now rewrite M by reflexivity.
  - reflexivity.
Defined.
